(** * paper.py: a shallow embedding and its verified properties

    The development follows [paper.py] top to bottom: the helpers
    [nonnegative_int], [in_range], [slugify] and [validate_pdf], then the
    script body (the feed query, the per-entry loop, the download
    loop).

    Conventions.
    - A Python [str] is a [string]; each [ascii] stands for one code
      point below 256.  The tables for white space, digits and
      lower-casing are those of Python on that range.
    - A Python [int] is a [Z]; the two counters of the script
      ([entry_index], [excess_index]), which only count upwards from
      0 and 1, are [nat].
    - A computation that may raise returns a [result]; a computation with
      effects is a function of the [machine] (file system and pending
      operator input) that returns the events it emitted, the new machine
      and a [result]. *)

From Stdlib Require Import String Ascii List ZArith Lia Bool DecimalString
  DecimalNat.
From stdpp Require Import gmap strings.
Import ListNotations.

Local Open Scope Z_scope.

(** ** Exceptions and results *)

(** The exception classes the script can meet.  [Unmodelled] is not a
    Python exception: it marks an input outside the fragment of
    [str.format] that [py_format] covers. *)
Inductive exn : Type :=
  | NameError | ValueError | TypeError | AttributeError | KeyError
  | IndexError | HTTPError | URLError | FileNotFoundError | EOFError
  | ParseError | Unmodelled.

Inductive result (A : Type) : Type :=
  | Ok (a : A)
  | Raise (e : exn).
Arguments Ok {A} a.
Arguments Raise {A} e.

Definition rbind {A B} (m : result A) (k : A -> result B) : result B :=
  match m with
  | Ok a => k a
  | Raise e => Raise e
  end.

#[export] Instance result_ret : MRet result := fun A a => Ok a.
#[export] Instance result_bind : MBind result :=
  fun A B k m => rbind m k.

Definition exn_eqb (a b : exn) : bool :=
  match a, b with
  | NameError, NameError | ValueError, ValueError | TypeError, TypeError
  | AttributeError, AttributeError | KeyError, KeyError
  | IndexError, IndexError | HTTPError, HTTPError | URLError, URLError
  | FileNotFoundError, FileNotFoundError | EOFError, EOFError
  | ParseError, ParseError | Unmodelled, Unmodelled => true
  | _, _ => false
  end.

(** ** Python string primitives *)

Module Py.

Definition code (c : ascii) : nat := nat_of_ascii c.

Definition between (lo hi : nat) (c : ascii) : bool :=
  (Nat.leb lo (code c)) && (Nat.leb (code c) hi).

Definition is_digit (c : ascii) : bool := between 48 57 c.
Definition is_upper (c : ascii) : bool := between 65 90 c.
Definition is_lower (c : ascii) : bool := between 97 122 c.

(** White space stripped by [int()]: TAB..CR, SPACE, NEL, NBSP. *)
Definition is_space (c : ascii) : bool :=
  between 9 13 c || Nat.eqb (code c) 32
  || Nat.eqb (code c) 133 || Nat.eqb (code c) 160.

(** [str.lower] on one code point: A-Z, and the Latin-1 capitals
    0xC0-0xDE except the multiplication sign 0xD7. *)
Definition lower_char (c : ascii) : ascii :=
  if is_upper c || (between 192 222 c && negb (Nat.eqb (code c) 215))
  then ascii_of_nat (code c + 32)
  else c.

Fixpoint lower (s : string) : string :=
  match s with
  | EmptyString => EmptyString
  | String c t => String (lower_char c) (lower t)
  end.

(** [pat in s] for strings. *)
Fixpoint str_in (pat s : string) : bool :=
  String.prefix pat s ||
  match s with
  | EmptyString => false
  | String _ t => str_in pat t
  end.

(** [s.split(sep)] for a separator of one character. *)
Fixpoint split (sep : ascii) (s : string) : list string :=
  match s with
  | EmptyString => [EmptyString]
  | String c t =>
      if Ascii.eqb c sep then EmptyString :: split sep t
      else match split sep t with
           | w :: ws => String c w :: ws
           | [] => [String c EmptyString]
           end
  end.

(** [sep.join(parts)]. *)
Fixpoint join (sep : string) (parts : list string) : string :=
  match parts with
  | [] => EmptyString
  | [p] => p
  | p :: rest => p +:+ sep +:+ join sep rest
  end.

(** [str(n)] for a counter. *)
Definition str (n : nat) : string :=
  NilZero.string_of_uint (Nat.to_uint n).

(** [c * n] for a one-character string [c]. *)
Fixpoint repeat_char (c : ascii) (n : nat) : string :=
  match n with
  | O => EmptyString
  | S k => String c (repeat_char c k)
  end.

Fixpoint lstrip (l : list ascii) : list ascii :=
  match l with
  | c :: t => if is_space c then lstrip t else l
  | [] => []
  end.

Definition strip (l : list ascii) : list ascii :=
  rev (lstrip (rev (lstrip l))).

Definition digit_value (c : ascii) : Z := Z.of_nat (code c - 48).

(** Decimal digits, where single underscores may separate digits.
    [after_digit] tells whether the previous character was a digit. *)
Fixpoint digits_value (after_digit : bool) (acc : Z) (l : list ascii)
  : option Z :=
  match l with
  | [] => if after_digit then Some acc else None
  | c :: t =>
      if is_digit c then digits_value true (10 * acc + digit_value c) t
      else if Ascii.eqb c "_" && after_digit then digits_value false acc t
      else None
  end.

(** [int(s)] in base 10: strip white space, an optional sign, digits.
    (The interpreter's cap on the length of very long digit strings
    is not modelled.) *)
Definition int (s : string) : result Z :=
  let body :=
    match strip (list_ascii_of_string s) with
    | c :: t =>
        if Ascii.eqb c "+" then digits_value false 0 t
        else if Ascii.eqb c "-" then option_map Z.opp (digits_value false 0 t)
        else digits_value false 0 (c :: t)
    | [] => None
    end in
  match body with
  | Some z => Ok z
  | None => Raise ValueError
  end.

End Py.

(** ** [nonnegative_int] (lines 75-85) *)

(** The double quote, and [str] of an integer. *)
Definition dquote : string := String (ascii_of_nat 34) EmptyString.

Definition str_int (z : Z) : string :=
  if z <? 0 then "-" +:+ Py.str (Z.to_nat (- z)) else Py.str (Z.to_nat z).

(** What a type function of [argparse] may raise: the
    [ArgumentTypeError] of the function, with its message, or an
    exception that the function does not handle. *)
Inductive arg_exn : Type :=
  | ArgumentTypeError (message : string)
  | Unhandled (e : exn).

(** [val] is rebound to the integer before the second test, so the
    second message shows the integer read, not the text given. *)
Definition nonnegative_int (val : string) : Z + arg_exn :=
  match Py.int val with
  | Raise e =>
      if exn_eqb e ValueError
      then inr (ArgumentTypeError (dquote +:+ val +:+ dquote +:+ " is not an integer"))
      else inr (Unhandled e)
  | Ok n =>
      if n <? 0
      then inr (ArgumentTypeError (dquote +:+ str_int n +:+ dquote +:+ " is not >= 0"))
      else inl n
  end.

(** ** [in_range] (lines 87-100) *)

(** The loop over [range_list].  A term holding a hyphen is split at the
    hyphens and must unpack into exactly two parts; [int(end)] is only
    evaluated when [num >= int(start)] holds, as [and] short-circuits. *)
Fixpoint in_range_list (num : Z) (range_list : list string) : result bool :=
  match range_list with
  | [] => Ok false
  | r :: rest =>
      if Py.str_in "-" r then
        match Py.split "-" r with
        | [start; end_] =>
            lo ← Py.int start;
            if num >=? lo then
              hi ← Py.int end_;
              if num <=? hi then Ok true else in_range_list num rest
            else in_range_list num rest
        | _ => Raise ValueError
        end
      else
        k ← Py.int r;
        if num =? k then Ok true else in_range_list num rest
  end.

Definition in_range (num : Z) (range_str : string) : result bool :=
  in_range_list num (Py.split "," range_str).

(** ** [slugify] (lines 102-104) *)

(** The class [0-9a-zA-Z_] of the pattern. *)
Definition is_word (c : ascii) : bool :=
  Py.is_digit c || Py.is_lower c || Py.is_upper c || Ascii.eqb c "_".

(** [re.sub("[^0-9a-zA-Z_]+", "_", s)]: scanning from the left, a match
    starts at the first character outside the class and, [+] being
    greedy, takes every following character outside the class; the
    match is replaced by one underscore.  [in_match] tells whether the
    replacement of the current match has been emitted. *)
Fixpoint sub_nonword (in_match : bool) (s : string) : string :=
  match s with
  | EmptyString => EmptyString
  | String c t =>
      if is_word c then String c (sub_nonword false t)
      else if in_match then sub_nonword true t
      else String "_" (sub_nonword true t)
  end.

Definition slugify (s : string) : string := sub_nonword false s.

(** ** [str.format] with keyword arguments (line 293) *)

Module Format.

(** Where the left-to-right scan of the template stands: in literal
    text, just after an opening brace, just after a closing brace, or
    inside a replacement field whose name so far is [name]. *)
Inductive state : Type :=
  | Lit
  | Open
  | Close
  | Field (name : string).

(** Characters that start a conversion, a format specification, or an
    attribute or index access.  Fields using them are outside the
    modelled fragment. *)
Definition is_special (c : ascii) : bool :=
  Ascii.eqb c "!" || Ascii.eqb c ":" || Ascii.eqb c "." || Ascii.eqb c "[".

Fixpoint kw_lookup (kw : list (string * string)) (name : string)
  : option string :=
  match kw with
  | [] => None
  | (k, v) :: rest => if String.eqb k name then Some v else kw_lookup rest name
  end.

Definition all_digits (name : string) : bool :=
  forallb Py.is_digit (list_ascii_of_string name).

Definition number_of (name : string) : Z :=
  fold_left (fun acc c => 10 * acc + Py.digit_value c)
            (list_ascii_of_string name) 0.

(** The largest index the parser accepts ([PY_SSIZE_T_MAX] of a 64-bit
    build). *)
Definition max_index : Z := 2 ^ 63 - 1.

(** Resolve a field name.  An empty or numeric name is positional, and
    the script passes no positional argument; any other name is a
    keyword. *)
Definition resolve (kw : list (string * string)) (name : string)
  : result string :=
  if all_digits name then
    if number_of name >? max_index then Raise ValueError
    else Raise IndexError
  else
    match kw_lookup kw name with
    | Some v => Ok v
    | None => Raise KeyError
    end.

Fixpoint format_from (kw : list (string * string)) (st : state)
         (s : string) {struct s} : result string :=
  let in_field (name : string) (c : ascii) (t : string) : result string :=
    if Ascii.eqb c "}" then
      v ← resolve kw name;
      r ← format_from kw Lit t;
      Ok (v +:+ r)
    else if Ascii.eqb c "{" then Raise ValueError
    else if is_special c then Raise Unmodelled
    else format_from kw (Field (name +:+ String c EmptyString)) t in
  match s with
  | EmptyString =>
      match st with
      | Lit => Ok EmptyString
      | _ => Raise ValueError
      end
  | String c t =>
      match st with
      | Lit =>
          if Ascii.eqb c "{" then format_from kw Open t
          else if Ascii.eqb c "}" then format_from kw Close t
          else r ← format_from kw Lit t; Ok (String c r)
      | Open =>
          if Ascii.eqb c "{" then
            r ← format_from kw Lit t; Ok (String "{" r)
          else in_field EmptyString c t
      | Close =>
          if Ascii.eqb c "}" then
            r ← format_from kw Lit t; Ok (String "}" r)
          else Raise ValueError
      | Field name => in_field name c t
      end
  end.

(** [template.format] applied to the keyword arguments [kw]. *)
Definition format (template : string) (kw : list (string * string))
  : result string :=
  format_from kw Lit template.

End Format.

(** ** Effects: events, the machine, the computation monad *)

(** What the run does to the outside world, in order.  Each standard
    output event stands for the [print] statement named in its comment
    and carries the values that statement prints. *)
Inductive event : Type :=
  | EvUrlopen                           (* urllib.request.urlopen(url), line 242 *)
  | EvNumbering (entry_index : nat)     (* print(numbering); print("-"*len(numbering)) *)
  | EvEntryInfo (id_ : string) (authors : list (option string))
                (title : option string)
                (publish_time update_time slug : string)  (* lines 299-304 *)
  | EvLinks (pdf_links other_links : list string)         (* lines 317-321 *)
  | EvRetrieve (link local_file_path : string) (* urllib.request.urlretrieve *)
  | EvTraceback                         (* traceback.print_exc(file=sys.stderr) *)
  | EvStderr (line : string)            (* print(line, file=sys.stderr) *)
  | EvPrint (line : string)             (* print(line) *)
  | EvOpenRead (file_path : string)     (* open(file_path, "rb"), read(4) *)
  | EvRemove (file_path : string)       (* os.remove(file_path) *)
  | EvInput (prompt : string).          (* input(prompt) *)

(** The file system maps a path to the content of the file there; the
    operator's pending input is the list of lines still to be read. *)
Record machine : Type := Machine {
  fs : gmap string string;
  stdin : list string
}.

Definition M (A : Type) : Type :=
  machine -> list event * machine * result A.

Definition ret {A} (a : A) : M A := fun m => ([], m, Ok a).

Definition raise {A} (e : exn) : M A := fun m => ([], m, Raise e).

Definition bind {A B} (c : M A) (k : A -> M B) : M B :=
  fun m =>
    match c m with
    | (t1, m1, Ok a) =>
        match k a m1 with
        | (t2, m2, r) => (t1 ++ t2, m2, r)
        end
    | (t1, m1, Raise e) => (t1, m1, Raise e)
    end.

#[export] Instance M_ret : MRet M := fun A a => ret a.
#[export] Instance M_bind : MBind M := fun A B k c => bind c k.

Definition emit (e : event) : M unit := fun m => ([e], m, Ok tt).

Definition lift {A} (r : result A) : M A := fun m => ([], m, r).

(** [try: body / except exc: handler / else: orelse]: the handler runs
    when the body raises [exc]; the [else] suite runs when the body
    raises nothing, outside the protection of the handler. *)
Definition try_except_else {A B} (body : M A) (exc : exn)
           (handler : M B) (orelse : A -> M B) : M B :=
  fun m =>
    match body m with
    | (t1, m1, Ok a) =>
        match orelse a m1 with
        | (t2, m2, r) => (t1 ++ t2, m2, r)
        end
    | (t1, m1, Raise e) =>
        if exn_eqb e exc then
          match handler m1 with
          | (t2, m2, r) => (t1 ++ t2, m2, r)
          end
        else (t1, m1, Raise e)
    end.

Definition trace_of {A} (out : list event * machine * result A) : list event :=
  out.1.1.
Definition machine_of {A} (out : list event * machine * result A) : machine :=
  out.1.2.
Definition result_of {A} (out : list event * machine * result A) : result A :=
  out.2.

(** *** File system and operator primitives *)

(** [with open(file_path, "rb") as f: f.read(4)]. *)
Definition open_read4 (file_path : string) : M string :=
  fun m =>
    match fs m !! file_path with
    | Some content => ([EvOpenRead file_path], m, Ok (String.substring 0 4 content))
    | None => ([EvOpenRead file_path], m, Raise FileNotFoundError)
    end.

(** [os.remove(file_path)]. *)
Definition remove (file_path : string) : M unit :=
  fun m =>
    match fs m !! file_path with
    | Some _ =>
        ([EvRemove file_path],
         {| fs := delete file_path (fs m); stdin := stdin m |}, Ok tt)
    | None => ([EvRemove file_path], m, Raise FileNotFoundError)
    end.

(** [input(prompt)]: the next pending line, [EOFError] when none is left. *)
Definition input (prompt : string) : M string :=
  fun m =>
    match stdin m with
    | line :: rest =>
        ([EvInput prompt], {| fs := fs m; stdin := rest |}, Ok line)
    | [] => ([EvInput prompt], m, Raise EOFError)
    end.

(** ** [validate_pdf] (lines 106-137) *)

Definition YES : list string := [EmptyString; "y"; "yes"].
Definition NO : list string := ["n"; "no"].

Definition NONPDF (file_path : string) : string :=
  "downloaded file " +:+ file_path +:+ " is not a pdf; remove file? (y/n): ".

Definition str_in_list (s : string) (l : list string) : bool :=
  existsb (String.eqb s) l.

(** One iteration of the [while not ok] loop (lines 125-137); the value
    returned is [ok]. *)
Definition prompt_once (file_path : string) : M bool :=
  line ← input (NONPDF file_path);
  let choice := Py.lower line in
  ok ← (if str_in_list choice YES then
          _ ← remove file_path; ret true
        else if str_in_list choice NO then ret true
        else
          _ ← emit (EvStderr "valid choices are 'y' and 'n'"); ret false);
  _ ← emit (EvPrint EmptyString);
  ret ok.

(** The loop itself.  Every iteration reads one line of input, or
    raises [EOFError] when none is left, so the loop needs no more
    iterations than one per pending line plus one: [fuel] counts them. *)
Fixpoint prompt_loop (fuel : nat) (file_path : string) : M unit :=
  ok ← prompt_once file_path;
  if ok : bool then ret tt
  else match fuel with
       | O => ret tt
       | S k => prompt_loop k file_path
       end.

Definition validate_pdf (file_path : string)
           (keep_non_pdf remove_non_pdf : bool) : M unit :=
  if keep_non_pdf then ret tt
  else
    head ← open_read4 file_path;
    if String.eqb head "%PDF" then ret tt
    else if remove_non_pdf then remove file_path
    else fun m => prompt_loop (length (stdin m)) file_path m.

(** ** The script body (lines 232-347) *)

(** An [xml.etree.ElementTree.Element]: tag, text ([None] for an element
    without text), attributes, children in document order. *)
#[local] Unset Elimination Schemes.
Inductive Element : Type := mkElement {
  tag : string;
  text : option string;
  attrib : list (string * string);
  children : list Element
}.
#[local] Set Elimination Schemes.

(** [elt.get(key)]. *)
Definition get (elt : Element) (key : string) : option string :=
  Format.kw_lookup (attrib elt) key.

(** The parsed command line, for the options read after the query is
    built.  The query options ([search_query], [id_list], [start],
    [max_results], [sort_by], [sort_order]) only feed the query URL. *)
Record Args : Type := mkArgs {
  publish_years : option string;
  update_years : option string;
  download : bool;
  output_filename_template : string;
  output_dir : string;
  download_selection : option string;
  remove_non_pdf : bool;
  keep_non_pdf : bool
}.

(** The network as the run meets it: what the feed query returns, once
    read, decoded and parsed (the children of the root element), and
    what retrieving each link yields (the bytes of the body). *)
Record Network : Type := mkNetwork {
  feed : result (list Element);
  retrieve : string -> result string
}.

(** Truth value of an optional string option: [None] and the empty
    string are false. *)
Definition truthy (o : option string) : bool :=
  match o with
  | Some s => negb (String.eqb s EmptyString)
  | None => false
  end.

Definition DOWNLOAD_FAIL_MESSAGE : string :=
  String "010" "failed to download file; it is possible that the article was withdrawn"
  +:+ String "010" EmptyString.

(** The names assigned inside the entry loop.  They are module-level
    names of the script: a name is unbound ([None]) until its first
    assignment and then keeps its value until the next one.  [title] may
    be bound to Python's [None]. *)
Record Vars : Type := mkVars {
  id_ : option string;
  title : option (option string);
  publish_time : option string;
  publish_year : option string;
  update_time : option string;
  update_year : option string
}.

Definition unbound : Vars := mkVars None None None None None None.

(** Reading a name: [NameError] when it is unbound. *)
Definition name {A} (v : option A) : result A :=
  match v with
  | Some a => Ok a
  | None => Raise NameError
  end.

(** Passing an optional text where a [str] is required. *)
Definition as_str (t : option string) : result string :=
  match t with
  | Some s => Ok s
  | None => Raise TypeError
  end.

Fixpoint last_part (parts : list string) : string :=
  match parts with
  | [] => EmptyString
  | [p] => p
  | _ :: rest => last_part rest
  end.

(** Which branch of the [if]/[elif] chain of lines 258-273 a child
    takes: the first whose word occurs in the tag. *)
Inductive Kind : Type :=
  | KId | KTitle | KLink | KAuthor | KPublished | KUpdated | KOther.

Definition kind_of_tag (tag : string) : Kind :=
  if Py.str_in "id" tag then KId
  else if Py.str_in "title" tag then KTitle
  else if Py.str_in "link" tag then KLink
  else if Py.str_in "author" tag then KAuthor
  else if Py.str_in "published" tag then KPublished
  else if Py.str_in "updated" tag then KUpdated
  else KOther.

Definition Kind_eqb (a b : Kind) : bool :=
  match a, b with
  | KId, KId | KTitle, KTitle | KLink, KLink | KAuthor, KAuthor
  | KPublished, KPublished | KUpdated, KUpdated | KOther, KOther => true
  | _, _ => false
  end.

Section Script.

(** The [datetime] class, as far as the script uses it: [strptime]
    parses a text against a format or raises, [strftime] renders. *)
Variable datetime : Type.
Variable strptime : string -> string -> result datetime.
Variable strftime : datetime -> string -> string.

Definition in_format : string := "%Y-%m-%dT%H:%M:%S%z".
Definition out_format : string := "%a %b %d %Y %I:%M:%S%p %Z".

(** What the scan of an entry's children accumulates: the names, and
    the two lists reset for each entry. *)
Record Scan : Type := mkScan {
  vars : Vars;
  link_elements : list Element;
  authors : list (option string)
}.

(** The names of the authors below an [author] element (lines 265-267). *)
Definition author_names (child : Element) : list (option string) :=
  map text (filter (fun gchild => Py.str_in "name" (tag gchild))
                   (children child)).

(** One step of [for child in entry] (lines 258-277). *)
Definition scan_child (s : Scan) (child : Element) : result Scan :=
  let v := vars s in
  match kind_of_tag (tag child) with
  | KId =>
      match text child with
      | None => Raise AttributeError
      | Some t =>
          Ok (mkScan (mkVars (Some (last_part (Py.split "/" t))) (title v)
                             (publish_time v) (publish_year v)
                             (update_time v) (update_year v))
                     (link_elements s) (authors s))
      end
  | KTitle =>
      Ok (mkScan (mkVars (id_ v) (Some (text child))
                         (publish_time v) (publish_year v)
                         (update_time v) (update_year v))
                 (link_elements s) (authors s))
  | KLink => Ok (mkScan v (link_elements s ++ [child]) (authors s))
  | KAuthor => Ok (mkScan v (link_elements s) (authors s ++ author_names child))
  | KPublished =>
      t ← as_str (text child);
      d1 ← strptime t in_format;
      d2 ← strptime t in_format;
      Ok (mkScan (mkVars (id_ v) (title v)
                         (Some (strftime d1 out_format))
                         (Some (strftime d2 "%Y"))
                         (update_time v) (update_year v))
                 (link_elements s) (authors s))
  | KUpdated =>
      t ← as_str (text child);
      d1 ← strptime t in_format;
      d2 ← strptime t in_format;
      Ok (mkScan (mkVars (id_ v) (title v)
                         (publish_time v) (publish_year v)
                         (Some (strftime d1 out_format))
                         (Some (strftime d2 "%Y")))
                 (link_elements s) (authors s))
  | KOther => Ok s
  end.

Fixpoint scan_children (s : Scan) (cs : list Element) : result Scan :=
  match cs with
  | [] => Ok s
  | child :: rest => s' ← scan_child s child; scan_children s' rest
  end.

(** A year filter (lines 279-284): [true] when the entry is skipped. *)
Definition filtered_out (years : option string) (year : option string)
  : result bool :=
  if truthy years then
    y ← name year;
    n ← Py.int y;
    b ← in_range n (default EmptyString years);
    Ok (negb b)
  else Ok false.

(** The slug (lines 291-297). *)
Definition make_slug (template : string) (v : Vars)
           (authors : list (option string)) : result string :=
  t ← name (title v);
  t ← as_str t;
  let slugified_title := slugify t in
  names ← mapM as_str authors;
  let slugified_authors := Py.join "-" (map slugify names) in
  i ← name (id_ v);
  pub ← name (publish_year v);
  updt ← name (update_year v);
  Format.format template
    [("id", i); ("auth", slugified_authors); ("title", slugified_title);
     ("pub", pub); ("updt", updt)].

(** The links of an entry, sorted into documents and others (lines
    306-314). *)
Definition is_pdf_link (link_elt : Element) : bool :=
  bool_decide (get link_elt "title" = Some "pdf")
  || bool_decide (get link_elt "type" = Some "application/pdf").

Definition hrefs (keep : Element -> bool) (link_elements : list Element)
  : list string :=
  omap (fun link_elt =>
          if truthy (get link_elt "href") && keep link_elt
          then get link_elt "href" else None)
       link_elements.

Definition pdf_links_of (link_elements : list Element) : list string :=
  hrefs is_pdf_link link_elements.

Definition other_links_of (link_elements : list Element) : list string :=
  hrefs (fun link_elt => negb (is_pdf_link link_elt)) link_elements.

Variable args : Args.
Variable net : Network.

(** [urllib.request.urlretrieve(link, local_file_path)]: the body is
    written to the path, or the error of the transport is raised, in
    which case nothing has been written (the request fails before the
    file is opened). *)
Definition urlretrieve (link local_file_path : string) : M unit :=
  fun m =>
    match retrieve net link with
    | Ok body =>
        ([EvRetrieve link local_file_path],
         {| fs := <[local_file_path := body]> (fs m); stdin := stdin m |},
         Ok tt)
    | Raise e => ([EvRetrieve link local_file_path], m, Raise e)
    end.

(** The path of the file for the link of ordinal [excess_index]
    (lines 333-337). *)
Definition local_file_path_of (slug : string) (excess_index : nat) : string :=
  if Nat.ltb 1 excess_index
  then output_dir args +:+ "/" +:+ slug +:+ "--" +:+ Py.str excess_index +:+ ".pdf"
  else output_dir args +:+ "/" +:+ slug +:+ ".pdf".

(** [for link in pdf_links] (lines 331-347). *)
Fixpoint download_links (slug : string) (excess_index : nat)
         (pdf_links : list string) : M unit :=
  match pdf_links with
  | [] => ret tt
  | link :: rest =>
      let local_file_path := local_file_path_of slug excess_index in
      _ ← try_except_else
            (urlretrieve link local_file_path)
            HTTPError
            (_ ← emit EvTraceback; emit (EvStderr DOWNLOAD_FAIL_MESSAGE))
            (fun _ => validate_pdf local_file_path
                                   (keep_non_pdf args) (remove_non_pdf args));
      download_links slug (S excess_index) rest
  end.

(** The guard of the download (lines 323-325). *)
Definition selected (entry_index : nat) : result bool :=
  if download args then
    if negb (truthy (download_selection args)) then Ok true
    else in_range (Z.of_nat entry_index)
                  (default EmptyString (download_selection args))
  else Ok false.

(** What is done for an entry that passed the filters, once numbered
    (lines 291-347): the slug, the listing, the download. *)
Definition render_and_download (s : Scan) (entry_index : nat) : M unit :=
  let v := vars s in
  slug ← lift (make_slug (output_filename_template args) v (authors s));
  i ← lift (name (id_ v));
  t ← lift (name (title v));
  pt ← lift (name (publish_time v));
  ut ← lift (name (update_time v));
  _ ← emit (EvEntryInfo i (authors s) t pt ut slug);
  let pdf_links := pdf_links_of (link_elements s) in
  let other_links := other_links_of (link_elements s) in
  _ ← emit (EvLinks pdf_links other_links);
  go ← lift (selected entry_index);
  if go : bool then download_links slug 1 pdf_links else ret tt.

(** The body of [for entry in entry_list] (lines 255-347).  The state
    carried from one entry to the next is the names and
    [entry_index]. *)
Definition process_entry (st : Vars * nat) (entry : Element)
  : M (Vars * nat) :=
  s ← lift (scan_children (mkScan st.1 [] []) (children entry));
  let v := vars s in
  skip ← lift (filtered_out (publish_years args) (publish_year v));
  if skip : bool then ret (v, st.2)
  else
    skip ← lift (filtered_out (update_years args) (update_year v));
    if skip : bool then ret (v, st.2)
    else
      let entry_index := S st.2 in
      _ ← emit (EvNumbering entry_index);
      _ ← render_and_download s entry_index;
      ret (v, entry_index).

Fixpoint entries_loop (st : Vars * nat) (entry_list : list Element)
  : M (Vars * nat) :=
  match entry_list with
  | [] => ret st
  | entry :: rest =>
      st' ← process_entry st entry;
      entries_loop st' rest
  end.

(** The script from the query on (lines 242-347). *)
Definition main : M (Vars * nat) :=
  _ ← emit EvUrlopen;
  root ← lift (feed net);
  let entry_list := filter (fun child => Py.str_in "entry" (tag child)) root in
  entries_loop (unbound, O) entry_list.

End Script.

(** ** What the properties observe *)

(** The range specification of the specification document: terms that
    are single integers or inclusive intervals, parsed from the
    comma-separated text, each integer written as [int()] reads it. *)
Module RangeSpec.

Inductive term : Type :=
  | Single (k : Z)
  | Interval (low high : Z).

Definition matches (n : Z) (t : term) : bool :=
  match t with
  | Single k => n =? k
  | Interval low high => (low <=? n) && (n <=? high)
  end.

Definition contains (S : list term) (n : Z) : bool :=
  existsb (matches n) S.

Definition parse_term (r : string) : option term :=
  if Py.str_in "-" r then
    match Py.split "-" r with
    | [a; b] =>
        match Py.int a, Py.int b with
        | Ok low, Ok high => Some (Interval low high)
        | _, _ => None
        end
    | _ => None
    end
  else
    match Py.int r with
    | Ok k => Some (Single k)
    | Raise _ => None
    end.

Definition parse (spec : string) : option (list term) :=
  mapM parse_term (Py.split "," spec).

End RangeSpec.

Fixpoint all_chars (p : ascii -> bool) (s : string) : bool :=
  match s with
  | EmptyString => true
  | String c t => p c && all_chars p t
  end.

(** A run of class [word]: a non-empty string whose characters all lie
    inside ([word = true]) or all lie outside ([word = false]) the
    class of letters, digits and underscore. *)
Definition is_run (run : bool * string) : Prop :=
  run.2 <> EmptyString /\
  all_chars (fun c => Bool.eqb (is_word c) run.1) run.2 = true.

Fixpoint alternating (rs : list (bool * string)) : Prop :=
  match rs with
  | r1 :: (r2 :: _) as rest => r1.1 <> r2.1 /\ alternating rest
  | _ => True
  end.

Fixpoint concat_runs (rs : list (bool * string)) : string :=
  match rs with
  | [] => EmptyString
  | r :: rest => r.2 +:+ concat_runs rest
  end.

(** [rs] cuts [s] into its maximal runs: consecutive runs are of
    different classes, so none can be extended. *)
Definition maximal_runs (s : string) (rs : list (bool * string)) : Prop :=
  concat_runs rs = s /\ Forall is_run rs /\ alternating rs.

(** Each run outside the class becomes one underscore; the runs inside
    the class are kept as they are. *)
Fixpoint replace_runs (rs : list (bool * string)) : string :=
  match rs with
  | [] => EmptyString
  | r :: rest => (if r.1 then r.2 else "_") +:+ replace_runs rest
  end.

(** The maximal runs of a string, computed. *)
Fixpoint runs (s : string) : list (bool * string) :=
  match s with
  | EmptyString => []
  | String c t =>
      match runs t with
      | r :: rest =>
          if Bool.eqb (is_word c) r.1 then (r.1, String c r.2) :: rest
          else (is_word c, String c EmptyString) :: r :: rest
      | [] => [(is_word c, String c EmptyString)]
      end
  end.

(** The flag may be set only where a run inside the class follows. *)
Definition flag_ok (f : bool) (rs : list (bool * string)) : Prop :=
  f = true ->
  match rs with
  | r :: _ => r.1 = true
  | [] => True
  end.

(** The disposition policy of the specification document and the two
    switches of the command line that encode it. *)
Inductive NonPdfPolicy : Type := Prompt | AutoRemove | AutoKeep.

Definition keep_flag (p : NonPdfPolicy) : bool :=
  match p with AutoKeep => true | _ => false end.

Definition remove_flag (p : NonPdfPolicy) : bool :=
  match p with AutoRemove => true | _ => false end.

(** What a line of input answers, case ignored: yes ([true]), no
    ([false]), or nothing valid. *)
Definition answer (line : string) : option bool :=
  let choice := Py.lower line in
  if str_in_list choice YES then Some true
  else if str_in_list choice NO then Some false
  else None.

Fixpoint first_valid_answer (lines : list string) : option bool :=
  match lines with
  | [] => None
  | line :: rest =>
      match answer line with
      | Some b => Some b
      | None => first_valid_answer rest
      end
  end.

(** The lines left once the first valid answer has been read. *)
Fixpoint after_answer (lines : list string) : list string :=
  match lines with
  | [] => []
  | line :: rest =>
      match answer line with
      | Some _ => rest
      | None => after_answer rest
      end
  end.

Definition usage_round (file_path : string) : list event :=
  [EvInput (NONPDF file_path); EvStderr "valid choices are 'y' and 'n'";
   EvPrint EmptyString].

(** The events of the prompt on the pending lines: one round of usage
    error per invalid line, then the valid answer or the end of input. *)
Fixpoint prompt_trace (file_path : string) (lines : list string) : list event :=
  match lines with
  | [] => [EvInput (NONPDF file_path)]
  | line :: rest =>
      match answer line with
      | Some true =>
          [EvInput (NONPDF file_path); EvRemove file_path; EvPrint EmptyString]
      | Some false => [EvInput (NONPDF file_path); EvPrint EmptyString]
      | None => usage_round file_path ++ prompt_trace file_path rest
      end
  end.

(** [validate_pdf] only reads and removes files and talks to the
    operator: it neither touches the network nor numbers an entry. *)
Definition validation_event (e : event) : bool :=
  match e with
  | EvOpenRead _ | EvRemove _ | EvInput _ | EvStderr _ | EvPrint _ => true
  | _ => false
  end.

(** The events of a download: those of the validation, the retrieval
    and the failure report. *)
Definition download_event (e : event) : bool :=
  match e with
  | EvRetrieve _ _ | EvTraceback => true
  | _ => validation_event e
  end.

(** The events of the listing: the query and what is printed for an
    entry. *)
Definition listing_event (e : event) : bool :=
  match e with
  | EvUrlopen | EvNumbering _ | EvEntryInfo _ _ _ _ _ _ | EvLinks _ _ => true
  | _ => false
  end.

(** The links the run tried to retrieve, each with the path it was to be
    written to, in order. *)
Definition retrieves (t : list event) : list (string * string) :=
  omap (fun e => match e with
                 | EvRetrieve link path => Some (link, path)
                 | _ => None
                 end) t.

(** The indices printed by the run, in order. *)
Definition numberings (t : list event) : list nat :=
  omap (fun e => match e with
                 | EvNumbering n => Some n
                 | _ => None
                 end) t.

Definition no_numbering (e : event) : bool :=
  match e with
  | EvNumbering _ => false
  | _ => true
  end.

(** Each printed index with the identifier listed under it. *)
Fixpoint numbered (current : option nat) (t : list event)
  : list (nat * string) :=
  match t with
  | [] => []
  | EvNumbering n :: rest => numbered (Some n) rest
  | EvEntryInfo i _ _ _ _ _ :: rest =>
      match current with
      | Some n => (n, i) :: numbered None rest
      | None => numbered None rest
      end
  | _ :: rest => numbered current rest
  end.

(** Whether an entry has a child that takes the branch [k] of the scan. *)
Definition supplies (k : Kind) (entry : Element) : bool :=
  existsb (fun child => Kind_eqb (kind_of_tag (tag child)) k) (children entry).

(** The names that branch [k] assigns have the same values in [v'] as
    in [v]. *)
Definition same_names (k : Kind) (v v' : Vars) : Prop :=
  match k with
  | KId => id_ v' = id_ v
  | KTitle => title v' = title v
  | KPublished =>
      publish_time v' = publish_time v /\ publish_year v' = publish_year v
  | KUpdated =>
      update_time v' = update_time v /\ update_year v' = update_year v
  | KLink | KAuthor | KOther => True
  end.

(** What is printed on the standard error when a retrieval fails with
    [HTTPError] (lines 340-341). *)
Definition failure_report : list event :=
  [EvTraceback; EvStderr DOWNLOAD_FAIL_MESSAGE].

(** Texts joined with hyphens, as the specification words it: the
    first text, then a hyphen before each further one; nothing when
    there is no text. *)
Definition hyphenated (parts : list string) : string :=
  match parts with
  | [] => EmptyString
  | p :: rest => p +:+ fold_right (fun q acc => "-" +:+ q +:+ acc) EmptyString rest
  end.

(** Characters of a template that are no braces, and characters that
    may stand in the name of a plain replacement field. *)
Definition no_brace (c : ascii) : bool :=
  negb (Ascii.eqb c "{") && negb (Ascii.eqb c "}").

Definition plain_char (c : ascii) : bool :=
  no_brace c && negb (Format.is_special c).

Section Observations.

Variable datetime : Type.
Variable strptime : string -> string -> result datetime.
Variable strftime : datetime -> string -> string.
Variable args : Args.

(** The paths planned for the links of an entry, the first link having
    ordinal [k]. *)
Definition planned (slug : string) (k : nat) (links : list string)
  : list (string * string) :=
  zip links (map (local_file_path_of args slug) (seq k (length links))).

(** An entry survives when its children scan without error and
    neither year filter skips it. *)
Definition survives (v0 : Vars) (entry : Element) : bool :=
  match scan_children datetime strptime strftime
          (mkScan v0 [] []) (children entry) with
  | Ok s =>
      match filtered_out (publish_years args) (publish_year (vars s)) with
      | Ok false =>
          match filtered_out (update_years args) (update_year (vars s)) with
          | Ok false => true
          | _ => false
          end
      | _ => false
      end
  | Raise _ => false
  end.

(** An entry is dropped when its children scan without error and one
    of the year filters, tried in order, skips it. *)
Definition dropped (v0 : Vars) (entry : Element) : bool :=
  match scan_children datetime strptime strftime
          (mkScan v0 [] []) (children entry) with
  | Ok s =>
      match filtered_out (publish_years args) (publish_year (vars s)) with
      | Ok true => true
      | Ok false =>
          match filtered_out (update_years args) (update_year (vars s)) with
          | Ok true => true
          | _ => false
          end
      | Raise _ => false
      end
  | Raise _ => false
  end.

End Observations.

(** ** A concrete [datetime] for the examples *)

(** The [datetime] class on the time stamps that occur in the examples
    below, each with the two renderings Python gives it. *)
Module Sample.

Definition datetime : Type := string * string.

Definition table : list (string * datetime) :=
  [("2019-01-01T00:00:00Z", ("Tue Jan 01 2019 12:00:00AM UTC", "2019"));
   ("2020-06-15T08:30:00Z", ("Mon Jun 15 2020 08:30:00AM UTC", "2020"));
   ("2021-03-04T10:00:00Z", ("Thu Mar 04 2021 10:00:00AM UTC", "2021"));
   ("2022-03-04T10:00:00Z", ("Fri Mar 04 2022 10:00:00AM UTC", "2022"));
   ("2023-09-12T15:00:00Z", ("Tue Sep 12 2023 03:00:00PM UTC", "2023"))].

Fixpoint find (t : list (string * datetime)) (text : string)
  : result datetime :=
  match t with
  | [] => Raise ValueError
  | (k, d) :: rest => if String.eqb k text then Ok d else find rest text
  end.

Definition strptime (text fmt : string) : result datetime :=
  if String.eqb fmt in_format then find table text else Raise ValueError.

Definition strftime (d : datetime) (fmt : string) : string :=
  if String.eqb fmt "%Y" then d.2 else d.1.

Definition atom (name : string) : string :=
  "{http://www.w3.org/2005/Atom}" +:+ name.

Definition leaf (name text : string) : Element :=
  mkElement (atom name) (Some text) [] [].

Definition author (name : string) : Element :=
  mkElement (atom "author") None [] [leaf "name" name].

Definition pdf_link (href : string) : Element :=
  mkElement (atom "link") None
            [("title", "pdf"); ("href", href); ("rel", "related");
             ("type", "application/pdf")] [].

Definition page_link (href : string) : Element :=
  mkElement (atom "link") None
            [("href", href); ("rel", "alternate"); ("type", "text/html")] [].

Definition entry (cs : list Element) : Element :=
  mkElement (atom "entry") None [] cs.

Definition run (args : Args) (net : Network) (m : machine) :=
  main datetime strptime strftime args net m.

Definition default_args : Args :=
  mkArgs None None false "{pub}-{auth}-{title}-{id}" "." None false false.

End Sample.

(** *** A feed of five entries, published 2019 to 2023 *)

Module IndexExample.

Definition paper (ident stamp heading who : string) : Element :=
  Sample.entry
    [Sample.leaf "id" ("http://arxiv.org/abs/" +:+ ident);
     Sample.leaf "updated" stamp;
     Sample.leaf "published" stamp;
     Sample.leaf "title" heading;
     Sample.author who;
     Sample.page_link ("http://arxiv.org/abs/" +:+ ident);
     Sample.pdf_link ("http://arxiv.org/pdf/" +:+ ident)].

Definition feed5 : list Element :=
  [Sample.leaf "title" "ArXiv Query";
   paper "1901.00001v1" "2019-01-01T00:00:00Z" "One" "A. One";
   paper "2006.00002v1" "2020-06-15T08:30:00Z" "Two" "B. Two";
   paper "2103.00003v1" "2021-03-04T10:00:00Z" "Three" "C. Three";
   paper "2203.00004v1" "2022-03-04T10:00:00Z" "Four" "D. Four";
   paper "2309.00005v1" "2023-09-12T15:00:00Z" "Five" "E. Five"].

Definition net : Network := mkNetwork (Ok feed5) (fun _ => Raise URLError).

(** [-y 2019,2021,2023] leaves out the second and the fourth entry. *)
Definition args : Args :=
  mkArgs (Some "2019,2021,2023") None false "{pub}-{auth}-{title}-{id}"
         "." None false false.

End IndexExample.

(** *** Examples of downloads *)

Module DownloadExample.

Definition args : Args :=
  mkArgs None None true "{pub}-{auth}-{title}-{id}" "." None false false.

(** Link [a] is refused by the server, link [b] is a document, link
    [c] cannot be reached, link [d] is a page in place of a document. *)
Definition net : Network :=
  mkNetwork (Ok [])
    (fun link =>
       if String.eqb link "a" then Raise HTTPError
       else if String.eqb link "b" then Ok "%PDF-1.5 body"
       else if String.eqb link "c" then Raise URLError
       else Ok "<html>withdrawn</html>").

Definition m0 : machine := Machine ∅ [].

End DownloadExample.

(** *** Examples of runs *)

Module RunExample.

Definition quantum : Element :=
  Sample.entry
    [Sample.leaf "id" "http://arxiv.org/abs/2309.06314";
     Sample.leaf "updated" "2023-09-12T15:00:00Z";
     Sample.leaf "published" "2023-09-12T15:00:00Z";
     Sample.leaf "title" "Quantum Stuff";
     Sample.author "Art Ficial";
     Sample.page_link "http://arxiv.org/abs/2309.06314";
     Sample.pdf_link "c";
     Sample.pdf_link "b"].

Definition feed2 : list Element :=
  [Sample.leaf "title" "ArXiv Query";
   quantum;
   IndexExample.paper "2103.00003v1" "2021-03-04T10:00:00Z" "Three" "C. Three"].

Definition net : Network :=
  mkNetwork (Ok feed2) (retrieve DownloadExample.net).


Definition listing : Args := Sample.default_args.



Definition downloading : Args :=
  mkArgs None None true "{pub}-{auth}-{title}-{id}" "." None false false.

Definition keeping : Args :=
  mkArgs None None true "{pub}-{auth}-{title}-{id}" "." None false true.

Definition m0 : machine := Machine ∅ [].

(** The same article with the links [a] (refused) and [b]. *)
Definition refused : Element :=
  Sample.entry
    [Sample.leaf "id" "http://arxiv.org/abs/2309.06314";
     Sample.leaf "updated" "2023-09-12T15:00:00Z";
     Sample.leaf "published" "2023-09-12T15:00:00Z";
     Sample.leaf "title" "Quantum Stuff";
     Sample.author "Art Ficial";
     Sample.pdf_link "a";
     Sample.pdf_link "b"].

Definition refused_net : Network :=
  mkNetwork
    (Ok [refused;
         IndexExample.paper "2103.00003v1" "2021-03-04T10:00:00Z" "Three"
                            "C. Three"])
    (retrieve DownloadExample.net).

Definition removing : Args :=
  mkArgs None None true "{pub}-{auth}-{title}-{id}" "." None true false.

End RunExample.

(** *** Examples of entries that lack elements *)

Module StaleExample.

(** An entry without [title] and without [published]. *)
Definition untitled : Element :=
  Sample.entry
    [Sample.leaf "id" "http://arxiv.org/abs/2103.00003v1";
     Sample.leaf "updated" "2021-03-04T10:00:00Z";
     Sample.author "C. Three";
     Sample.page_link "http://arxiv.org/abs/2103.00003v1"].

(** An entry without [published]. *)
Definition unpublished : Element :=
  Sample.entry
    [Sample.leaf "id" "http://arxiv.org/abs/2103.00003v1";
     Sample.leaf "updated" "2021-03-04T10:00:00Z";
     Sample.leaf "title" "Three";
     Sample.author "C. Three"].

Definition stale : Network :=
  mkNetwork (Ok [RunExample.quantum; untitled]) (fun _ => Raise URLError).

Definition first_incomplete : Network :=
  mkNetwork (Ok [unpublished; RunExample.quantum]) (fun _ => Raise URLError).

(** [-Y 2023]: only entries updated in 2023. *)
Definition updated_2023 : Args :=
  mkArgs None (Some "2023") false "{pub}-{auth}-{title}-{id}" "." None
         false false.

(** The names as the entry [RunExample.quantum] leaves them. *)
Definition after_quantum : Vars :=
  mkVars (Some "2309.06314") (Some (Some "Quantum Stuff"))
         (Some "Tue Sep 12 2023 03:00:00PM UTC") (Some "2023")
         (Some "Tue Sep 12 2023 03:00:00PM UTC") (Some "2023").

End StaleExample.

(** ** Proof tactics *)

(** Unfold the binds of [result] and compute. *)
Ltac rsimpl :=
  repeat (progress (cbn; unfold mbind, mret, result_bind, result_ret, rbind; cbn)).

(** Unfold the binds of [M] and compute. *)
Ltac msimpl :=
  repeat (progress (cbn; unfold mbind, mret, M_bind, M_ret, bind, ret, emit,
                    lift, raise, trace_of, machine_of, result_of; cbn)).

(** Project an outcome written as a triple. *)
Ltac out_simpl :=
  repeat match goal with
         | |- context [trace_of (?t, ?m, ?r)] =>
             change (trace_of (t, m, r)) with t
         | |- context [machine_of (?t, ?m, ?r)] =>
             change (machine_of (t, m, r)) with m
         | |- context [result_of (?t, ?m, ?r)] =>
             change (result_of (t, m, r)) with r
         end.

(** * Properties *)

(** ** Range specifications *)

Example in_range_ex1 : in_range 8 "3,7-9" = Ok true.
Proof. reflexivity. Qed.

Lemma in_range_list_parsed (n : Z) (terms : list string)
      (S : list RangeSpec.term) :
  Forall2 (fun r t => RangeSpec.parse_term r = Some t) terms S ->
  in_range_list n terms = Ok (RangeSpec.contains S n).
Proof.
  induction 1 as [| r t terms S Hr _ IH]; [reflexivity |].
  cbn [in_range_list RangeSpec.contains existsb].
  unfold RangeSpec.parse_term in Hr.
  destruct (Py.str_in "-" r).
  - destruct (Py.split "-" r) as [| a [| b [| ? ?]]]; try discriminate.
    destruct (Py.int a) as [low |]; [| discriminate].
    destruct (Py.int b) as [high |]; [| discriminate].
    injection Hr as <-. cbn.
    rewrite Z.geb_leb.
    destruct (low <=? n); cbn; [| exact IH].
    destruct (n <=? high); cbn; [reflexivity | exact IH].
  - destruct (Py.int r) as [k |]; [| discriminate].
    injection Hr as <-. cbn.
    destruct (n =? k); cbn; [reflexivity | exact IH].
Qed.

Lemma contains_spec (S : list RangeSpec.term) (n : Z) :
  RangeSpec.contains S n = true <->
  exists t, In t S /\
            (t = RangeSpec.Single n \/
             exists low high, t = RangeSpec.Interval low high /\ low <= n <= high).
Proof.
  unfold RangeSpec.contains. rewrite existsb_exists.
  split; intros (t & Hin & Ht); exists t; (split; [exact Hin |]).
  - destruct t as [k | low high]; cbn in Ht.
    + left. f_equal. lia.
    + right. exists low, high. split; [reflexivity | lia].
  - destruct Ht as [-> | (low & high & -> & Hlo & Hhi)]; cbn; lia.
Qed.

Lemma in_range_3_7_9 (n : Z) :
  in_range n "3,7-9" = Ok (bool_decide (n = 3 \/ 7 <= n <= 9)).
Proof.
  unfold in_range.
  rewrite (in_range_list_parsed n _
             [RangeSpec.Single 3; RangeSpec.Interval 7 9]).
  - f_equal. unfold RangeSpec.contains, existsb, RangeSpec.matches.
    destruct (Z.eqb_spec n 3), (Z.leb_spec 7 n), (Z.leb_spec n 9); cbn;
      symmetry;
      first [ apply bool_decide_eq_true_2; lia
            | apply bool_decide_eq_false_2; lia ].
  - repeat constructor.
Qed.

(** C4. For a range specification [S] parsed from the configured text,
    [in_range] returns whether [n] equals a singleton term of [S] or
    lies in an interval term of [S], both ends included; the text
    ["3,7-9"] matches 3, 7, 8, 9 and no other integer. *)
Theorem in_range_contains (spec : string) (S : list RangeSpec.term) (n : Z) :
  RangeSpec.parse spec = Some S ->
  in_range n spec = Ok (RangeSpec.contains S n) /\
  (in_range n spec = Ok true <->
   exists t, In t S /\
             (t = RangeSpec.Single n \/
              exists low high,
                t = RangeSpec.Interval low high /\ low <= n <= high)) /\
  (forall k, in_range k "3,7-9" = Ok true <-> k = 3 \/ k = 7 \/ k = 8 \/ k = 9).
Proof.
  intros Hp. unfold RangeSpec.parse in Hp. apply mapM_Some in Hp.
  pose proof (in_range_list_parsed n _ _ Hp) as E.
  split; [exact E |]. split.
  - unfold in_range. rewrite E, <- contains_spec.
    split; [intros [= ->]; reflexivity | intros ->; reflexivity].
  - intros k. rewrite in_range_3_7_9. split.
    + intros [= Hk]. apply bool_decide_eq_true_1 in Hk. lia.
    + intros Hk. rewrite bool_decide_eq_true_2; [reflexivity | lia].
Qed.

Lemma in_range_contains_witness :
  RangeSpec.parse "3,7-9"
    = Some [RangeSpec.Single 3; RangeSpec.Interval 7 9] /\
  in_range 8 "3,7-9" = Ok true /\ in_range 5 "3,7-9" = Ok false.
Proof.
  split; [reflexivity |].
  pose proof (in_range_contains "3,7-9"
                [RangeSpec.Single 3; RangeSpec.Interval 7 9]) as H.
  split.
  - exact (proj1 (H 8 eq_refl)).
  - exact (proj1 (H 5 eq_refl)).
Defined.

(** ** Slugs *)

Example slugify_ex1 : slugify "Art I. Ficial!!" = "Art_I_Ficial_".
Proof. reflexivity. Qed.

#[local] Arguments is_word : simpl never.

Lemma append_String (c : ascii) (r rest : string) :
  String c r +:+ rest = String c (r +:+ rest).
Proof. reflexivity. Qed.

Lemma append_empty_l (s : string) : EmptyString +:+ s = s.
Proof. reflexivity. Qed.

Lemma append_empty_r (s : string) : s +:+ EmptyString = s.
Proof. induction s as [| c s IH]; [reflexivity |]. rewrite append_String, IH. reflexivity. Qed.

Lemma sub_nonword_word_run (r rest : string) (f : bool) :
  r <> EmptyString ->
  all_chars (fun c => Bool.eqb (is_word c) true) r = true ->
  sub_nonword f (r +:+ rest) = r +:+ sub_nonword false rest.
Proof.
  revert f. induction r as [| c r IH]; intros f Hne Hall; [congruence |].
  cbn in Hall. apply andb_true_iff in Hall as [Hc Hr].
  apply Bool.eqb_prop in Hc. rewrite !append_String. cbn. rewrite Hc. f_equal.
  destruct r as [| c' r']; [reflexivity |].
  apply IH; [discriminate | exact Hr].
Qed.

Lemma sub_nonword_skip (r rest : string) :
  all_chars (fun c => Bool.eqb (is_word c) false) r = true ->
  sub_nonword true (r +:+ rest) = sub_nonword true rest.
Proof.
  induction r as [| c r IH]; intros Hall; [reflexivity |].
  cbn in Hall. apply andb_true_iff in Hall as [Hc Hr].
  apply Bool.eqb_prop in Hc. rewrite append_String. cbn. rewrite Hc. apply IH, Hr.
Qed.

Lemma sub_nonword_nonword_run (r rest : string) :
  r <> EmptyString ->
  all_chars (fun c => Bool.eqb (is_word c) false) r = true ->
  sub_nonword false (r +:+ rest) = String "_" (sub_nonword true rest).
Proof.
  destruct r as [| c r]; intros Hne Hall; [congruence |].
  cbn in Hall. apply andb_true_iff in Hall as [Hc Hr].
  apply Bool.eqb_prop in Hc. rewrite append_String. cbn. rewrite Hc. f_equal.
  apply sub_nonword_skip, Hr.
Qed.

Lemma sub_nonword_runs (rs : list (bool * string)) :
  Forall is_run rs -> alternating rs ->
  forall f, flag_ok f rs ->
  sub_nonword f (concat_runs rs) = replace_runs rs.
Proof.
  induction rs as [| [b r] rest IH]; intros Hruns Halt f Hf; [reflexivity |].
  inversion Hruns as [| ? ? [Hne Hall] Hrest]; subst. cbn in Hne, Hall.
  assert (Halt' : alternating rest)
    by (destruct rest as [| r2 rest']; [exact I | apply Halt]).
  cbn [concat_runs replace_runs fst snd].
  destruct b.
  - rewrite sub_nonword_word_run by assumption.
    f_equal. apply IH; [assumption .. | discriminate].
  - assert (f = false) as ->.
    { destruct f; [| reflexivity]. specialize (Hf eq_refl). discriminate. }
    rewrite sub_nonword_nonword_run by assumption. cbn. f_equal.
    apply IH; [assumption .. |].
    intros _. destruct rest as [| [b2 r2] rest']; [exact I |].
    cbn in Halt. destruct Halt as [Hd _]. cbn. destruct b2; congruence.
Qed.

Lemma runs_maximal (s : string) : maximal_runs s (runs s).
Proof.
  induction s as [| c t (Hcat & Hruns & Halt)].
  - split; [reflexivity | split; [constructor | exact I]].
  - cbn [runs]. destruct (runs t) as [| [b r] rest] eqn:E.
    + cbn in Hcat. subst t. split; [reflexivity | split; [| exact I]].
      constructor; [| constructor]. split; [discriminate |].
      cbn. rewrite Bool.eqb_reflx. reflexivity.
    + cbn [fst snd]. cbn [concat_runs fst snd] in Hcat.
      inversion Hruns as [| ? ? [Hne Hall] Hrest]; subst.
      cbn [fst snd] in Hne, Hall.
      destruct (Bool.eqb (is_word c) b) eqn:Hb.
      * split; [reflexivity | split].
        -- constructor; [| assumption]. split; [discriminate |].
           cbn. rewrite Hb, Hall. reflexivity.
        -- destruct rest; [exact I | exact Halt].
      * split; [reflexivity | split].
        -- constructor; [| assumption]. split; [discriminate |].
           cbn. rewrite Bool.eqb_reflx. reflexivity.
        -- split; [| exact Halt].
           cbn. intros Heq. rewrite Heq, Bool.eqb_reflx in Hb. discriminate.
Qed.

Lemma sub_nonword_all_word (f : bool) (s : string) :
  all_chars is_word (sub_nonword f s) = true.
Proof.
  revert f. induction s as [| c t IH]; intros f; [reflexivity |].
  cbn. destruct (is_word c) eqn:Hc.
  - cbn. rewrite Hc. apply IH.
  - destruct f; [apply IH |]. cbn. apply IH.
Qed.

Lemma sub_nonword_id (f : bool) (s : string) :
  all_chars is_word s = true -> sub_nonword f s = s.
Proof.
  revert f. induction s as [| c t IH]; intros f Hall; [reflexivity |].
  cbn in Hall. apply andb_true_iff in Hall as [Hc Ht].
  cbn. rewrite Hc. f_equal. apply IH, Ht.
Qed.

Lemma slugify_idempotent (x : string) : slugify (slugify x) = slugify x.
Proof. apply sub_nonword_id, sub_nonword_all_word. Qed.

(** C9. [slugify] replaces every maximal run of characters other than
    ASCII letters, digits and underscore by one underscore and keeps
    the other characters, case included; it is idempotent; and
    ["Art I. Ficial!!"] becomes ["Art_I_Ficial_"]. *)
Theorem slugify_maximal_runs (s : string) (rs : list (bool * string)) :
  maximal_runs s rs ->
  slugify s = replace_runs rs /\
  slugify (slugify s) = slugify s /\
  slugify "Art I. Ficial!!" = "Art_I_Ficial_".
Proof.
  intros (Hcat & Hruns & Halt). split; [| split].
  - subst s. apply sub_nonword_runs; [assumption .. | discriminate].
  - apply slugify_idempotent.
  - reflexivity.
Qed.

Lemma slugify_maximal_runs_witness :
  maximal_runs "Art I. Ficial!!"
    [(true, "Art"); (false, " "); (true, "I"); (false, ". ");
     (true, "Ficial"); (false, "!!")] /\
  slugify "Art I. Ficial!!" = "Art_I_Ficial_".
Proof.
  assert (H : maximal_runs "Art I. Ficial!!"
                [(true, "Art"); (false, " "); (true, "I"); (false, ". ");
                 (true, "Ficial"); (false, "!!")]).
  { split; [reflexivity |]. split.
    - repeat constructor; discriminate.
    - cbn. repeat split; discriminate. }
  split; [exact H |].
  exact (proj1 (slugify_maximal_runs _ _ H)).
Defined.

(** ** Validation of a fetched file *)

Lemma in_bind {A B} (c : M A) (k : A -> M B) (m : machine) (e : event) :
  In e (trace_of ((c ≫= k) m)) ->
  In e (trace_of (c m)) \/
  exists t1 m1 a, c m = (t1, m1, Ok a) /\ In e (trace_of (k a m1)).
Proof.
  unfold mbind, M_bind, bind, trace_of.
  destruct (c m) as [[t1 m1] [a | e1]]; cbn; [| auto].
  destruct (k a m1) as [[t2 m2] r2] eqn:Hk. cbn.
  intros H. apply in_app_or in H as [H | H]; [auto |].
  right. exists t1, m1, a. rewrite Hk. auto.
Qed.

Lemma in_bind_lift {A B} (r : result A) (k : A -> M B) (m : machine)
      (e : event) :
  In e (trace_of ((lift r ≫= k) m)) ->
  exists a, r = Ok a /\ In e (trace_of (k a m)).
Proof.
  intros H. apply in_bind in H as [[] | (t1 & m1 & a & Hc & H)].
  unfold lift in Hc. injection Hc as <- <- ->. eauto.
Qed.

Lemma in_bind_emit {B} (e' : event) (k : M B) (m : machine) (e : event) :
  In e (trace_of ((emit e' ≫= fun _ => k) m)) ->
  e = e' \/ In e (trace_of (k m)).
Proof.
  intros H. apply in_bind in H as [[H | []] | (t1 & m1 & a & Hc & H)].
  - auto.
  - unfold emit in Hc. injection Hc as <- <-. auto.
Qed.

#[local] Arguments str_in_list : simpl never.

Lemma prompt_loop_spec (file_path content : string)
      (files : gmap string string) (lines : list string) (fuel : nat) :
  files !! file_path = Some content ->
  (length lines <= fuel)%nat ->
  prompt_loop fuel file_path (Machine files lines) =
  (prompt_trace file_path lines,
   Machine (if first_valid_answer lines is Some true
            then delete file_path files else files)
           (after_answer lines),
   if first_valid_answer lines is Some _ then Ok tt else Raise EOFError).
Proof.
  intros Hfile. revert fuel.
  induction lines as [| line rest IH]; intros fuel Hfuel.
  - destruct fuel; reflexivity.
  - destruct fuel as [| fuel]; [cbn in Hfuel; lia |].
    cbn [prompt_trace first_valid_answer after_answer].
    specialize (IH fuel ltac:(cbn in Hfuel; lia)).
    unfold answer. cbn [prompt_loop]. unfold prompt_once at 1.
    unfold input, remove. msimpl.
    destruct (str_in_list (Py.lower line) YES);
      [| destruct (str_in_list (Py.lower line) NO)]; msimpl.
    + rewrite Hfile. reflexivity.
    + reflexivity.
    + fold (prompt_loop fuel file_path). rewrite IH. reflexivity.
Qed.

Lemma validate_pdf_checked (file_path content : string) (rm : bool)
      (files : gmap string string) (lines : list string) :
  files !! file_path = Some content ->
  validate_pdf file_path false rm (Machine files lines) =
  if String.eqb (String.substring 0 4 content) "%PDF" then
    ([EvOpenRead file_path], Machine files lines, Ok tt)
  else if rm then
    ([EvOpenRead file_path; EvRemove file_path],
     Machine (delete file_path files) lines, Ok tt)
  else
    (EvOpenRead file_path :: prompt_trace file_path lines,
     Machine (if first_valid_answer lines is Some true
              then delete file_path files else files)
             (after_answer lines),
     if first_valid_answer lines is Some _ then Ok tt else Raise EOFError).
Proof.
  intros Hfile. unfold validate_pdf, open_read4. msimpl. rewrite Hfile.
  destruct (String.eqb (String.substring 0 4 content) "%PDF"); [reflexivity |].
  destruct rm.
  - unfold remove. msimpl. rewrite Hfile. reflexivity.
  - rewrite (prompt_loop_spec file_path content);
      [reflexivity | assumption | cbn; lia].
Qed.

Lemma prompt_trace_app (file_path : string) (bad rest : list string) :
  Forall (fun line => answer line = None) bad ->
  prompt_trace file_path (bad ++ rest) =
  concat (map (fun _ => usage_round file_path) bad)
    ++ prompt_trace file_path rest.
Proof.
  induction 1 as [| line bad Hline _ IH]; [reflexivity |].
  cbn [app prompt_trace map concat]. rewrite Hline, IH.
  rewrite <- app_assoc. reflexivity.
Qed.

(** C5. A fetched file that starts with the bytes [%PDF] is never
    deleted, whatever the policy.  A fetched file that does not is
    deleted exactly when the policy is AutoRemove, or the policy is
    Prompt and the first valid answer of the operator, case ignored, is
    empty, [y] or [yes]; otherwise it is left as it is.  Under Prompt
    every other line of input gets a usage error and a new prompt,
    however many such lines there are. *)
Theorem validate_pdf_disposition (file_path content : string)
        (policy : NonPdfPolicy) (m : machine) :
  fs m !! file_path = Some content ->
  let out := validate_pdf file_path (keep_flag policy) (remove_flag policy) m in
  let deleted := fs (machine_of out) !! file_path = None in
  (String.substring 0 4 content = "%PDF" -> fs (machine_of out) = fs m) /\
  (String.substring 0 4 content <> "%PDF" ->
   (deleted <->
    policy = AutoRemove \/
    (policy = Prompt /\ first_valid_answer (stdin m) = Some true)) /\
   (~ deleted -> fs (machine_of out) = fs m) /\
   (policy = Prompt ->
    forall bad rest,
      Forall (fun line => answer line = None) bad ->
      stdin m = bad ++ rest ->
      trace_of out =
      EvOpenRead file_path
        :: concat (map (fun _ => usage_round file_path) bad)
        ++ prompt_trace file_path rest)).
Proof.
  destruct m as [files lines]. cbn [fs stdin]. cbv zeta. intros Hfile.
  destruct policy; cbn [keep_flag remove_flag];
    try rewrite (validate_pdf_checked _ content) by assumption.
  - (* Prompt *)
    split.
    + intros Hpdf. rewrite Hpdf. reflexivity.
    + intros Hnot. apply String.eqb_neq in Hnot. rewrite Hnot.
      unfold machine_of, trace_of. cbn [fst snd fs].
      split; [| split].
      * destruct (first_valid_answer lines) as [[|] |].
        -- rewrite lookup_delete_eq. split; [intros _; right; eauto | reflexivity].
        -- rewrite Hfile. split; [discriminate |].
           intros [? | [_ ?]]; discriminate.
        -- rewrite Hfile. split; [discriminate |].
           intros [? | [_ ?]]; discriminate.
      * destruct (first_valid_answer lines) as [[|] |]; try reflexivity.
        rewrite lookup_delete_eq. intros H. contradiction H. reflexivity.
      * intros _ bad rest Hbad ->. rewrite prompt_trace_app by assumption.
        reflexivity.
  - (* AutoRemove *)
    split.
    + intros Hpdf. rewrite Hpdf. reflexivity.
    + intros Hnot. apply String.eqb_neq in Hnot. rewrite Hnot.
      unfold machine_of. cbn [fst snd fs]. rewrite lookup_delete_eq.
      split; [| split].
      * split; [intros _; left; reflexivity | reflexivity].
      * intros H. contradiction H. reflexivity.
      * discriminate.
  - (* AutoKeep *)
    cbn. rewrite Hfile. split; [reflexivity |]. intros _.
    split; [| split]; [| reflexivity | discriminate].
    split; [discriminate |]. intros [? | [? _]]; discriminate.
Qed.

Lemma validate_pdf_disposition_witness :
  let m := Machine {[ "./X.pdf" := "<html>withdrawn</html>" ]} ["maybe"; "Yes"] in
  fs (machine_of (validate_pdf "./X.pdf" false false m)) !! "./X.pdf" = None /\
  trace_of (validate_pdf "./X.pdf" false false m) =
  [EvOpenRead "./X.pdf";
   EvInput (NONPDF "./X.pdf"); EvStderr "valid choices are 'y' and 'n'";
   EvPrint EmptyString;
   EvInput (NONPDF "./X.pdf"); EvRemove "./X.pdf"; EvPrint EmptyString].
Proof.
  intros m.
  assert (Hfile : fs m !! "./X.pdf" = Some "<html>withdrawn</html>")
    by reflexivity.
  assert (Hnot : String.substring 0 4 "<html>withdrawn</html>" <> "%PDF")
    by discriminate.
  destruct (validate_pdf_disposition "./X.pdf" _ Prompt m Hfile)
    as [_ H].
  destruct (H Hnot) as (Hdel & _ & Htrace).
  split.
  - apply Hdel. right. split; reflexivity.
  - apply (Htrace eq_refl ["maybe"] ["Yes"]); [| reflexivity].
    repeat constructor.
Defined.

(** The file is opened exactly when [keep_non_pdf] is not set. *)
Lemma validate_pdf_read_iff (file_path : string)
      (keep_non_pdf remove_non_pdf : bool) (m : machine) :
  In (EvOpenRead file_path)
     (trace_of (validate_pdf file_path keep_non_pdf remove_non_pdf m))
  <-> keep_non_pdf = false.
Proof.
  destruct keep_non_pdf.
  - cbn. split; [contradiction | discriminate].
  - split; [reflexivity |]. intros _.
    unfold validate_pdf, open_read4. msimpl.
    destruct (fs m !! file_path) as [content |]; [| left; reflexivity].
    cbn.
    match goal with
    | |- context [let (_, _) := ?c in _] => destruct c as [[t2 m2] r2]
    end.
    left. reflexivity.
Qed.

Lemma prompt_once_events (file_path : string) (m : machine) :
  forallb validation_event (trace_of (prompt_once file_path m)) = true.
Proof.
  unfold prompt_once, input, remove. msimpl.
  destruct (stdin m) as [| line rest]; [reflexivity |]. msimpl.
  destruct (str_in_list (Py.lower line) YES); msimpl.
  - destruct (fs m !! file_path); reflexivity.
  - destruct (str_in_list (Py.lower line) NO); reflexivity.
Qed.

Lemma prompt_loop_events (fuel : nat) (file_path : string) (m : machine) :
  forallb validation_event (trace_of (prompt_loop fuel file_path m)) = true.
Proof.
  revert m. induction fuel as [| fuel IH]; intros m;
    cbn [prompt_loop]; unfold mbind, M_bind, bind;
    pose proof (prompt_once_events file_path m) as H1;
    destruct (prompt_once file_path m) as [[t1 m1] [[|] | e]];
    cbn in H1 |- *; rewrite ?app_nil_r; try exact H1.
  specialize (IH m1).
  destruct (prompt_loop fuel file_path m1) as [[t2 m2] r2].
  cbn in IH |- *. rewrite forallb_app, H1, IH. reflexivity.
Qed.

Lemma validate_pdf_events (file_path : string) (keep rm : bool) (m : machine) :
  forallb validation_event (trace_of (validate_pdf file_path keep rm m)) = true.
Proof.
  unfold validate_pdf. destruct keep; [reflexivity |].
  unfold open_read4. msimpl.
  destruct (fs m !! file_path) as [content |] eqn:Hfile; [| reflexivity].
  cbn. destruct (String.eqb (String.substring 0 4 content) "%PDF");
    [reflexivity |].
  destruct rm.
  - unfold remove. rewrite Hfile. reflexivity.
  - pose proof (prompt_loop_events (length (stdin m)) file_path m) as H.
    destruct (prompt_loop (length (stdin m)) file_path m) as [[t m'] r].
    exact H.
Qed.

(** ** The download loop *)

Lemma retrieves_app (t1 t2 : list event) :
  retrieves (t1 ++ t2) = retrieves t1 ++ retrieves t2.
Proof. apply omap_app. Qed.

Lemma retrieves_cons_retrieve (link path : string) (t : list event) :
  retrieves (EvRetrieve link path :: t) = (link, path) :: retrieves t.
Proof. reflexivity. Qed.

Lemma retrieves_validation (t : list event) :
  forallb validation_event t = true -> retrieves t = [].
Proof.
  induction t as [| e t IH]; [reflexivity |]. cbn.
  intros H. apply andb_true_iff in H as [He Ht].
  destruct e; try discriminate; cbn; apply IH, Ht.
Qed.

Section Download.

Variable args : Args.
Variable net : Network.

(** One turn of the loop, case by case. *)
Lemma download_links_step (slug : string) (k : nat) (link : string)
      (rest : list string) (m : machine) :
  let path := local_file_path_of args slug k in
  download_links args net slug k (link :: rest) m =
  match retrieve net link with
  | Ok body =>
      match validate_pdf path (keep_non_pdf args) (remove_non_pdf args)
              (Machine (<[path := body]> (fs m)) (stdin m)) with
      | (t, m2, Ok _) =>
          let out := download_links args net slug (S k) rest m2 in
          (EvRetrieve link path :: t ++ trace_of out,
           machine_of out, result_of out)
      | (t, m2, Raise e) => (EvRetrieve link path :: t, m2, Raise e)
      end
  | Raise e =>
      if exn_eqb e HTTPError then
        let out := download_links args net slug (S k) rest m in
        (EvRetrieve link path :: failure_report ++ trace_of out,
         machine_of out, result_of out)
      else ([EvRetrieve link path], m, Raise e)
  end.
Proof.
  cbv zeta. cbn [download_links].
  unfold mbind, M_bind, bind, try_except_else, urlretrieve.
  destruct (retrieve net link) as [body | e].
  - destruct (validate_pdf _ _ _ _) as [[t m2] [[] | e]]; [| reflexivity].
    destruct (download_links args net slug (S k) rest m2) as [[t' m'] r'].
    reflexivity.
  - destruct (exn_eqb e HTTPError); [| reflexivity].
    unfold emit. cbn.
    destruct (download_links args net slug (S k) rest m) as [[t' m'] r'].
    reflexivity.
Qed.

Lemma retrieves_planned (slug : string) (links : list string) :
  forall (k : nat) (m : machine),
    let out := download_links args net slug k links m in
    (exists n, retrieves (trace_of out) = take n (planned args slug k links)) /\
    (result_of out = Ok tt ->
     retrieves (trace_of out) = planned args slug k links).
Proof.
  induction links as [| link rest IH]; intros k m; cbv zeta.
  - split; [exists O |]; reflexivity.
  - rewrite download_links_step. cbv zeta.
    change (planned args slug k (link :: rest))
      with ((link, local_file_path_of args slug k) :: planned args slug (S k) rest).
    destruct (retrieve net link) as [body | e].
    + pose proof (validate_pdf_events (local_file_path_of args slug k)
                    (keep_non_pdf args) (remove_non_pdf args)
                    (Machine (<[local_file_path_of args slug k := body]> (fs m))
                             (stdin m))) as Hv.
      apply retrieves_validation in Hv.
      destruct (validate_pdf _ _ _ _) as [[t m2] [[] | e]];
        change (retrieves t = []) in Hv; out_simpl;
        rewrite retrieves_cons_retrieve, ?retrieves_app, Hv.
      * destruct (IH (S k) m2) as [[n Hn] Hok]. split.
        -- exists (S n). cbn [take app]. f_equal. exact Hn.
        -- intros H. cbn [app]. f_equal. apply Hok, H.
      * split; [exists 1%nat; reflexivity | discriminate].
    + destruct (exn_eqb e HTTPError); out_simpl;
        rewrite retrieves_cons_retrieve.
      * destruct (IH (S k) m) as [[n Hn] Hok]. split.
        -- exists (S n). cbn [take]. f_equal. exact Hn.
        -- intros H. f_equal. apply Hok, H.
      * split; [exists 1%nat; reflexivity | discriminate].
Qed.

End Download.

Section DownloadClaims.

Variable args : Args.
Variable net : Network.

(** C1, as the code has it.  The signature check (opening the file and
    reading its first four bytes) is performed exactly when
    [keep_non_pdf] is not set: so it is for a file just fetched by the
    download loop; under AutoKeep [validate_pdf] returns at once,
    without reading the file, prompting or removing anything. *)
Theorem validate_pdf_checks_unless_keep (file_path : string)
        (keep remove_ : bool) (m : machine) :
  (In (EvOpenRead file_path) (trace_of (validate_pdf file_path keep remove_ m))
   <-> keep = false) /\
  validate_pdf file_path true remove_ m = ([], m, Ok tt) /\
  (forall slug k link body,
      retrieve net link = Ok body ->
      In (EvOpenRead (local_file_path_of args slug k))
         (trace_of (download_links args net slug k [link] m))
      <-> keep_non_pdf args = false).
Proof.
  split; [apply validate_pdf_read_iff |]. split; [reflexivity |].
  intros slug k link body Hbody.
  rewrite download_links_step. cbv zeta. rewrite Hbody.
  pose proof (validate_pdf_read_iff (local_file_path_of args slug k)
                (keep_non_pdf args) (remove_non_pdf args)
                (Machine (<[local_file_path_of args slug k := body]> (fs m))
                         (stdin m))) as H.
  destruct (validate_pdf _ _ _ _) as [[t m2] [[] | e]];
    change (In (EvOpenRead (local_file_path_of args slug k)) t
            <-> keep_non_pdf args = false) in H;
    rewrite <- H; out_simpl; cbn [download_links ret trace_of fst];
    rewrite ?app_nil_r; cbn [In].
  - split; [intros [? | ?]; [discriminate | assumption] | auto].
  - split; [intros [? | ?]; [discriminate | assumption] | auto].
Qed.

(** C2, as the code has it.  A retrieval that fails with [HTTPError]
    is reported on the standard error (traceback and failure message)
    and the loop goes on with the next link, from the same machine;
    when every link of the entry fails so, each is attempted and the
    loop ends normally, so that the entry loop goes on.  Any other
    exception of the retrieval is not caught: it ends the loop at that
    link and propagates. *)
Theorem http_error_reported_and_skipped (slug : string) (k : nat)
        (link : string) (rest : list string) (m : machine) :
  (retrieve net link = Raise HTTPError ->
   let out := download_links args net slug (S k) rest m in
   download_links args net slug k (link :: rest) m =
   (EvRetrieve link (local_file_path_of args slug k)
      :: failure_report ++ trace_of out,
    machine_of out, result_of out)) /\
  (Forall (fun l => retrieve net l = Raise HTTPError) (link :: rest) ->
   let out := download_links args net slug k (link :: rest) m in
   result_of out = Ok tt /\ machine_of out = m /\
   map fst (retrieves (trace_of out)) = link :: rest) /\
  (forall e, retrieve net link = Raise e -> e <> HTTPError ->
             download_links args net slug k (link :: rest) m =
             ([EvRetrieve link (local_file_path_of args slug k)], m, Raise e)).
Proof.
  split; [| split].
  - intros H. rewrite download_links_step. cbv zeta. rewrite H. reflexivity.
  - generalize (link :: rest). clear link rest. intros links.
    revert k m. induction links as [| l links IH]; intros k m Hall; cbv zeta.
    + repeat split.
    + inversion Hall as [| ? ? Hl Hrest]; subst.
      rewrite download_links_step. cbv zeta. rewrite Hl. cbn [exn_eqb].
      destruct (IH (S k) m Hrest) as (Hr & Hm & Ht). out_simpl.
      rewrite retrieves_cons_retrieve. cbn [map fst].
      change (retrieves (failure_report ++ ?t)) with (retrieves t).
      repeat split; [exact Hr | exact Hm | f_equal; exact Ht].
  - intros e He Hne. rewrite download_links_step. cbv zeta. rewrite He.
    destruct e; try reflexivity. congruence.
Qed.

End DownloadClaims.

Lemma validate_pdf_checks_unless_keep_witness :
  In (EvOpenRead "./X.pdf")
     (trace_of (download_links DownloadExample.args DownloadExample.net
                               "X" 1 ["d"] DownloadExample.m0)) /\
  ~ In (EvOpenRead "./X.pdf")
       (trace_of (download_links RunExample.keeping RunExample.net
                                 "X" 1 ["d"] RunExample.m0)).
Proof.
  destruct (validate_pdf_checks_unless_keep
              DownloadExample.args DownloadExample.net
              "./X.pdf" false false DownloadExample.m0) as (_ & _ & Hprompt).
  destruct (validate_pdf_checks_unless_keep
              RunExample.keeping RunExample.net
              "./X.pdf" true false RunExample.m0) as (_ & _ & Hkeep).
  split.
  - apply (Hprompt "X" 1%nat "d" "<html>withdrawn</html>" eq_refl). reflexivity.
  - intros H.
    apply (Hkeep "X" 1%nat "d" "<html>withdrawn</html>" eq_refl) in H.
    discriminate.
Defined.

Lemma http_error_reported_and_skipped_witness :
  download_links DownloadExample.args DownloadExample.net "X" 1 ["a"; "b"]
                 DownloadExample.m0
  = ([EvRetrieve "a" "./X.pdf"; EvTraceback; EvStderr DOWNLOAD_FAIL_MESSAGE;
      EvRetrieve "b" "./X--2.pdf"; EvOpenRead "./X--2.pdf"],
     Machine {[ "./X--2.pdf" := "%PDF-1.5 body" ]} [], Ok tt) /\
  download_links DownloadExample.args DownloadExample.net "X" 1 ["c"; "b"]
                 DownloadExample.m0
  = ([EvRetrieve "c" "./X.pdf"], DownloadExample.m0, Raise URLError).
Proof.
  destruct (http_error_reported_and_skipped
              DownloadExample.args DownloadExample.net "X" 1 "a" ["b"]
              DownloadExample.m0) as (Ha & _ & _).
  destruct (http_error_reported_and_skipped
              DownloadExample.args DownloadExample.net "X" 1 "c" ["b"]
              DownloadExample.m0) as (_ & _ & Hc).
  split.
  - exact (Ha eq_refl).
  - apply (Hc URLError eq_refl). discriminate.
Defined.

(** *** The ordinal is local to the entry *)

Section EntryDownload.

Variable datetime : Type.
Variable strptime : string -> string -> result datetime.
Variable strftime : datetime -> string -> string.
Variable args : Args.
Variable net : Network.

(** What [render_and_download] retrieves is what the loop over the PDF
    links of the entry retrieves, started at ordinal 1 whatever the
    display index, when the loop is reached, and nothing when it is
    not. *)
Lemma render_and_download_retrieves (s : Scan) (idx : nat) (m : machine)
      (slug : string) :
  make_slug (output_filename_template args) (vars s) (authors s) = Ok slug ->
  let run := render_and_download args net s idx m in
  let out := download_links args net slug 1 (pdf_links_of (link_elements s)) m in
  (retrieves (trace_of run) = [] \/
   retrieves (trace_of run) = retrieves (trace_of out)) /\
  (result_of run = Ok tt -> selected args idx = Ok true ->
   retrieves (trace_of run) = retrieves (trace_of out) /\
   result_of out = Ok tt).
Proof.
  intros Hslug. cbv zeta. unfold render_and_download. cbv zeta.
  rewrite Hslug. msimpl.
  destruct (id_ (vars s)) as [i |]; cbn;
    [| split; [left; reflexivity | discriminate]].
  destruct (title (vars s)) as [t |]; cbn;
    [| split; [left; reflexivity | discriminate]].
  destruct (publish_time (vars s)) as [pt |]; cbn;
    [| split; [left; reflexivity | discriminate]].
  destruct (update_time (vars s)) as [ut |]; cbn;
    [| split; [left; reflexivity | discriminate]].
  destruct (selected args idx) as [[|] | e]; cbn.
  - destruct (download_links args net slug 1 (pdf_links_of (link_elements s)) m)
      as [[t' m'] r']. cbn.
    split; [right; reflexivity |]. intros Hr _. split; [reflexivity | exact Hr].
  - split; [left; reflexivity |]. intros _ H. discriminate H.
  - split; [left; reflexivity |]. intros H. discriminate H.
Qed.

(** The same for the body of the entry loop: the entry that is given
    the display index [S st.2] has its links retrieved from ordinal
    1. *)
Lemma process_entry_retrieves (st : Vars * nat) (entry : Element) (m : machine)
      (s : Scan) (slug : string) :
  scan_children datetime strptime strftime (mkScan st.1 [] []) (children entry)
  = Ok s ->
  make_slug (output_filename_template args) (vars s) (authors s) = Ok slug ->
  let step := process_entry datetime strptime strftime args net st entry m in
  let out := download_links args net slug 1 (pdf_links_of (link_elements s)) m in
  (retrieves (trace_of step) = [] \/
   retrieves (trace_of step) = retrieves (trace_of out)) /\
  (forall v, result_of step = Ok (v, S st.2) ->
             selected args (S st.2) = Ok true ->
             retrieves (trace_of step) = retrieves (trace_of out) /\
             result_of out = Ok tt).
Proof.
  intros Hscan Hslug. cbv zeta. unfold process_entry. rewrite Hscan. msimpl.
  destruct (filtered_out (publish_years args) _) as [[|] | e]; cbn;
    [split; [left; reflexivity | intros v [= _ H]; lia]
    | | split; [left; reflexivity | discriminate]].
  destruct (filtered_out (update_years args) _) as [[|] | e]; cbn;
    [split; [left; reflexivity | intros v [= _ H]; lia]
    | | split; [left; reflexivity | discriminate]].
  pose proof (render_and_download_retrieves s (S st.2) m slug Hslug) as H.
  cbv zeta in H.
  destruct (render_and_download args net s (S st.2) m) as [[t m'] [[] | e]];
    unfold trace_of, result_of in H; cbn [fst snd] in H; cbn;
    change (omap _ ?u) with (retrieves u) in *;
    rewrite ?retrieves_app, ?app_nil_r; destruct H as [H1 H2].
  - split; [exact H1 |]. intros v _ Hsel. apply H2; [reflexivity | exact Hsel].
  - split; [exact H1 | discriminate].
Qed.

End EntryDownload.

(** C7. The links of an entry are written, in link order, to
    [{output_dir}/{slug}.pdf] for the first and
    [{output_dir}/{slug}--{k}.pdf] for the k-th (k at least 2).  The
    ordinal grows by one per link, whatever the outcome of the
    retrieval: the attempts made are an initial part of the planned
    list, and all of it when the loop ends normally.  The ordinal is
    local to the entry: whatever the display index of the entry and
    whatever came before it in the run, its links are retrieved from
    ordinal 1, so that the first link of every entry goes to
    [{output_dir}/{slug}.pdf].  Two links give [{slug}.pdf] then
    [{slug}--2.pdf]. *)
Theorem download_paths
        (datetime : Type) (strptime : string -> string -> result datetime)
        (strftime : datetime -> string -> string)
        (args : Args) (net : Network)
        (slug : string) (links : list string) (m : machine) :
  let out := download_links args net slug 1 links m in
  (exists n, retrieves (trace_of out) = take n (planned args slug 1 links)) /\
  (result_of out = Ok tt ->
   retrieves (trace_of out) = planned args slug 1 links) /\
  local_file_path_of args slug 1 = output_dir args +:+ "/" +:+ slug +:+ ".pdf" /\
  (forall k, (2 <= k)%nat ->
             local_file_path_of args slug k =
             output_dir args +:+ "/" +:+ slug +:+ "--" +:+ Py.str k +:+ ".pdf") /\
  (forall l1 l2,
      planned args slug 1 [l1; l2] =
      [(l1, output_dir args +:+ "/" +:+ slug +:+ ".pdf");
       (l2, output_dir args +:+ "/" +:+ slug +:+ "--" +:+ "2" +:+ ".pdf")]) /\
  (forall s idx m',
      make_slug (output_filename_template args) (vars s) (authors s) = Ok slug ->
      let run := render_and_download args net s idx m' in
      (exists n, retrieves (trace_of run)
                 = take n (planned args slug 1 (pdf_links_of (link_elements s)))) /\
      (result_of run = Ok tt -> selected args idx = Ok true ->
       retrieves (trace_of run)
       = planned args slug 1 (pdf_links_of (link_elements s)))) /\
  (forall st entry m' s,
      scan_children datetime strptime strftime
                    (mkScan st.1 [] []) (children entry) = Ok s ->
      make_slug (output_filename_template args) (vars s) (authors s) = Ok slug ->
      let step := process_entry datetime strptime strftime args net st entry m' in
      (exists n, retrieves (trace_of step)
                 = take n (planned args slug 1 (pdf_links_of (link_elements s)))) /\
      (forall v, result_of step = Ok (v, S st.2) ->
                 selected args (S st.2) = Ok true ->
                 retrieves (trace_of step)
                 = planned args slug 1 (pdf_links_of (link_elements s)))).
Proof.
  cbv zeta. pose proof (retrieves_planned args net slug links 1 m) as [Hn Hok].
  split; [exact Hn |]. split; [exact Hok |]. split; [reflexivity |].
  split.
  { intros k Hk. unfold local_file_path_of.
    destruct (Nat.ltb_spec 1 k); [reflexivity | lia]. }
  split; [reflexivity |]. split.
  - intros s idx m' Hslug.
    destruct (render_and_download_retrieves args net s idx m' slug Hslug)
      as [Hpre Hfull].
    destruct (retrieves_planned args net slug (pdf_links_of (link_elements s))
                1 m') as [[n Hn'] Hok'].
    split.
    + destruct Hpre as [-> | ->]; [exists O; reflexivity | exists n; exact Hn'].
    + intros Hr Hsel. destruct (Hfull Hr Hsel) as [-> Hout]. apply Hok', Hout.
  - intros st entry m' s Hscan Hslug.
    destruct (process_entry_retrieves datetime strptime strftime args net
                st entry m' s slug Hscan Hslug) as [Hpre Hfull].
    destruct (retrieves_planned args net slug (pdf_links_of (link_elements s))
                1 m') as [[n Hn'] Hok'].
    split.
    + destruct Hpre as [-> | ->]; [exists O; reflexivity | exists n; exact Hn'].
    + intros v Hr Hsel. destruct (Hfull v Hr Hsel) as [-> Hout].
      apply Hok', Hout.
Qed.

Lemma download_paths_witness :
  retrieves (trace_of (download_links DownloadExample.args DownloadExample.net
                         "X" 1 ["a"; "b"] DownloadExample.m0))
  = [("a", "./X.pdf"); ("b", "./X--2.pdf")] /\
  local_file_path_of DownloadExample.args "X" 2 = "./X--2.pdf" /\
  retrieves (trace_of (process_entry Sample.datetime Sample.strptime
                         Sample.strftime RunExample.downloading
                         RunExample.refused_net (unbound, 4%nat)
                         RunExample.refused RunExample.m0))
  = [("a", "./2023-Art_Ficial-Quantum_Stuff-2309.06314.pdf");
     ("b", "./2023-Art_Ficial-Quantum_Stuff-2309.06314--2.pdf")].
Proof.
  destruct (download_paths Sample.datetime Sample.strptime Sample.strftime
              DownloadExample.args DownloadExample.net
              "X" ["a"; "b"] DownloadExample.m0) as (_ & Hok & _ & Hk & _).
  destruct (download_paths Sample.datetime Sample.strptime Sample.strftime
              RunExample.downloading RunExample.refused_net
              "2023-Art_Ficial-Quantum_Stuff-2309.06314" [] RunExample.m0)
    as (_ & _ & _ & _ & _ & _ & Hentry).
  split; [exact (Hok eq_refl) |]. split; [exact (Hk 2%nat (le_n 2)) |].
  edestruct (Hentry (unbound, 4%nat) RunExample.refused RunExample.m0)
    as [_ Hfull]; [vm_compute; reflexivity | vm_compute; reflexivity |].
  rewrite (Hfull _ ltac:(vm_compute; reflexivity) eq_refl).
  vm_compute. reflexivity.
Defined.

(** A whole run: link [a] of the first entry is refused, link [b] is
    fetched and kept, and the second entry is numbered and fetched (a
    page, removed under [--remove-non-pdf]). *)
Example http_error_run_goes_on :
  let out := Sample.run RunExample.removing RunExample.refused_net RunExample.m0 in
  numberings (trace_of out) = [1; 2]%nat /\
  map fst (retrieves (trace_of out))
  = ["a"; "b"; "http://arxiv.org/pdf/2103.00003v1"] /\
  fs (machine_of out)
  = {[ "./2023-Art_Ficial-Quantum_Stuff-2309.06314--2.pdf" := "%PDF-1.5 body" ]} /\
  exists v, result_of out = Ok (v, 2%nat).
Proof.
  cbv zeta. split; [reflexivity |]. split; [reflexivity |].
  split; [vm_compute; reflexivity |]. eexists. vm_compute. reflexivity.
Qed.

(** ** Rendering the file name *)

Lemma mapM_as_str_Some (names : list string) :
  mapM as_str (map Some names) = Ok names.
Proof.
  induction names as [| n names IH]; [reflexivity |].
  cbn. rewrite IH. reflexivity.
Qed.

Lemma join_hyphenated (parts : list string) :
  Py.join "-" parts = hyphenated parts.
Proof.
  destruct parts as [| p rest]; [reflexivity |].
  revert p. induction rest as [| q rest IH]; intros p.
  - cbn. rewrite append_empty_r. reflexivity.
  - change (Py.join "-" (p :: q :: rest))
      with (p +:+ "-" +:+ Py.join "-" (q :: rest)).
    rewrite IH. reflexivity.
Qed.

(** C8. The slugs of the authors are joined with a hyphen, and the
    joined text is what the template receives for [{auth}]: the first
    slug, then a hyphen before each further one, for any number of
    authors, whatever the template.  The template
    [{pub}-{auth}-{title}-{id}] with publish year 2023, author
    Art Ficial, title Quantum Stuff and identifier 2309.06314 renders as
    [2023-Art_Ficial-Quantum_Stuff-2309.06314]; with the authors
    Art I. Ficial and Bee Cee it renders as
    [2023-Art_I_Ficial-Bee_Cee-Quantum_Stuff-2309.06314]. *)
Theorem slug_rendering (template i t py uy : string) (pt ut : option string)
        (names : list string) :
  let v := mkVars (Some i) (Some (Some t)) pt (Some py) ut (Some uy) in
  make_slug template v (map Some names) =
  Format.format template
    [("id", i); ("auth", Py.join "-" (map slugify names));
     ("title", slugify t); ("pub", py); ("updt", uy)] /\
  make_slug "{auth}" v (map Some names) = Ok (Py.join "-" (map slugify names)) /\
  make_slug "{pub}-{auth}-{title}-{id}"
            (mkVars (Some "2309.06314") (Some (Some "Quantum Stuff")) pt
                    (Some "2023") ut (Some uy))
            [Some "Art Ficial"]
  = Ok "2023-Art_Ficial-Quantum_Stuff-2309.06314" /\
  make_slug template v (map Some names) =
  Format.format template
    [("id", i); ("auth", hyphenated (map slugify names));
     ("title", slugify t); ("pub", py); ("updt", uy)] /\
  make_slug "{auth}" v (map Some names) = Ok (hyphenated (map slugify names)) /\
  make_slug "{auth}" v [] = Ok EmptyString /\
  (forall a, make_slug "{auth}" v [Some a] = Ok (slugify a)) /\
  (forall a b c,
      make_slug "{auth}" v [Some a; Some b; Some c]
      = Ok (slugify a +:+ "-" +:+ slugify b +:+ "-" +:+ slugify c)) /\
  make_slug "{pub}-{auth}-{title}-{id}"
            (mkVars (Some "2309.06314") (Some (Some "Quantum Stuff")) pt
                    (Some "2023") ut (Some uy))
            [Some "Art I. Ficial"; Some "Bee Cee"]
  = Ok "2023-Art_I_Ficial-Bee_Cee-Quantum_Stuff-2309.06314".
Proof.
  cbv zeta.
  assert (Hany : forall tpl ns,
             make_slug tpl
                       (mkVars (Some i) (Some (Some t)) pt (Some py) ut (Some uy))
                       (map Some ns) =
             Format.format tpl
               [("id", i); ("auth", Py.join "-" (map slugify ns));
                ("title", slugify t); ("pub", py); ("updt", uy)]).
  { intros tpl ns. unfold make_slug.
    cbn [title id_ publish_year update_year name as_str].
    rewrite mapM_as_str_Some. reflexivity. }
  assert (Hauth : forall ns,
             make_slug "{auth}"
                       (mkVars (Some i) (Some (Some t)) pt (Some py) ut (Some uy))
                       (map Some ns) = Ok (Py.join "-" (map slugify ns))).
  { intros ns. rewrite Hany.
    transitivity (Ok (A := string)
                    (Py.join "-" (map slugify ns) +:+ EmptyString));
      [reflexivity | rewrite append_empty_r; reflexivity]. }
  split; [apply Hany |]. split; [apply Hauth |]. split; [reflexivity |].
  split; [rewrite <- join_hyphenated; apply Hany |].
  split; [rewrite <- join_hyphenated; apply Hauth |].
  split; [exact (Hauth []) |].
  split; [intros a; exact (Hauth [a]) |].
  split; [intros a b c; exact (Hauth [a; b; c]) |].
  reflexivity.
Qed.

Lemma slug_rendering_witness :
  make_slug "{auth}"
            (mkVars (Some "1") (Some (Some "T")) None (Some "2023") None
                    (Some "2023"))
            [Some "Art I. Ficial"; Some "Bee Cee"; Some "D. E."]
  = Ok "Art_I_Ficial-Bee_Cee-D_E_".
Proof.
  destruct (slug_rendering "{auth}" "1" "T" "2023" "2023" None None
              ["Art I. Ficial"; "Bee Cee"; "D. E."]) as (_ & _ & _ & _ & H & _).
  exact H.
Defined.

Example slug_two_authors :
  make_slug "{auth}"
            (mkVars (Some "1") (Some (Some "T")) None (Some "2023") None
                    (Some "2023"))
            [Some "Art I. Ficial"; Some "Bee Cee"]
  = Ok "Art_I_Ficial-Bee_Cee".
Proof. reflexivity. Qed.

(** ** Display indices *)

Lemma numberings_app (t1 t2 : list event) :
  numberings (t1 ++ t2) = numberings t1 ++ numberings t2.
Proof. apply omap_app. Qed.

Lemma numberings_none (t : list event) :
  forallb no_numbering t = true -> numberings t = [].
Proof.
  induction t as [| e t IH]; [reflexivity |]. cbn.
  intros H. apply andb_true_iff in H as [He Ht].
  destruct e; try discriminate; cbn; apply IH, Ht.
Qed.

Lemma forallb_weaken (p q : event -> bool) (t : list event) :
  (forall e, p e = true -> q e = true) ->
  forallb p t = true -> forallb q t = true.
Proof.
  intros Hpq. rewrite !forallb_forall. intros H e He. apply Hpq, H, He.
Qed.

Lemma download_event_no_numbering (e : event) :
  download_event e = true -> no_numbering e = true.
Proof. destruct e; (discriminate || reflexivity). Qed.

Section Indexing.

Variable datetime : Type.
Variable strptime : string -> string -> result datetime.
Variable strftime : datetime -> string -> string.
Variable args : Args.
Variable net : Network.

Lemma download_links_events (slug : string) (links : list string) :
  forall (k : nat) (m : machine),
    forallb download_event
            (trace_of (download_links args net slug k links m)) = true.
Proof.
  induction links as [| link rest IH]; intros k m; [reflexivity |].
  rewrite download_links_step. cbv zeta.
  destruct (retrieve net link) as [body | e].
  - pose proof (validate_pdf_events (local_file_path_of args slug k)
                  (keep_non_pdf args) (remove_non_pdf args)
                  (Machine (<[local_file_path_of args slug k := body]> (fs m))
                           (stdin m))) as Hv.
    apply (forallb_weaken _ download_event) in Hv;
      [| intros e He; destruct e; (discriminate || reflexivity)].
    destruct (validate_pdf _ _ _ _) as [[t m2] [[] | e]];
      change (forallb download_event t = true) in Hv; out_simpl;
      cbn [forallb download_event andb]; rewrite ?forallb_app, ?Hv;
      [apply IH | reflexivity].
  - destruct (exn_eqb e HTTPError); out_simpl; [| reflexivity].
    cbn. apply IH.
Qed.

Lemma download_links_no_numbering (slug : string) (links : list string)
      (k : nat) (m : machine) :
  forallb no_numbering
          (trace_of (download_links args net slug k links m)) = true.
Proof.
  eapply forallb_weaken;
    [apply download_event_no_numbering | apply download_links_events].
Qed.

Lemma render_and_download_no_numbering (s : Scan) (k : nat) (m : machine) :
  forallb no_numbering
          (trace_of (render_and_download args net s k m)) = true.
Proof.
  unfold render_and_download. msimpl.
  repeat match goal with
         | |- context [match ?x with Ok _ => _ | Raise _ => _ end] =>
             destruct x; cbn; try reflexivity
         end.
  match goal with
  | |- context [if ?go then _ else _] => destruct go; [| reflexivity]
  end.
  match goal with
  | |- context [download_links ?a ?n ?sl ?k ?l ?m] =>
      pose proof (download_links_no_numbering sl l k m) as H;
      destruct (download_links a n sl k l m) as [[t m'] r]
  end.
  exact H.
Qed.

Abbreviation process_entry' := (process_entry datetime strptime strftime args net).
Abbreviation entries_loop' := (entries_loop datetime strptime strftime args net).

(** The counter moves, and an index is printed, exactly for a
    surviving entry. *)
Lemma process_entry_numbering (st : Vars * nat) (entry : Element)
      (m : machine) :
  let out := process_entry' st entry m in
  numberings (trace_of out)
  = (if survives datetime strptime strftime args st.1 entry then [S st.2] else []) /\
  (forall st', result_of out = Ok st' ->
               st'.2 = if survives datetime strptime strftime args st.1 entry then S st.2 else st.2).
Proof.
  cbv zeta. unfold process_entry, survives. msimpl.
  destruct (scan_children _ _ _ _ _) as [s | e]; cbn;
    [| split; [reflexivity | discriminate]].
  destruct (filtered_out (publish_years args) _) as [[|] | e]; cbn;
    [split; [reflexivity | intros ? [= <-]; reflexivity]
    | | split; [reflexivity | discriminate]].
  destruct (filtered_out (update_years args) _) as [[|] | e]; cbn;
    [split; [reflexivity | intros ? [= <-]; reflexivity]
    | | split; [reflexivity | discriminate]].
  pose proof (render_and_download_no_numbering s (S st.2) m) as H.
  apply numberings_none in H.
  destruct (render_and_download args net s (S st.2) m) as [[t m'] [[] | e]];
    change (numberings t = []) in H; cbn;
    change (omap _ ?u) with (numberings u);
    rewrite ?numberings_app, H.
  - split; [reflexivity | intros ? [= <-]; reflexivity].
  - split; [reflexivity | discriminate].
Qed.

Lemma entries_loop_numbering (entries : list Element) :
  forall (st : Vars * nat) (m : machine),
    let out := entries_loop' st entries m in
    numberings (trace_of out)
    = seq (S st.2) (length (numberings (trace_of out))) /\
    (forall st', result_of out = Ok st' ->
                 st'.2 = (st.2 + length (numberings (trace_of out)))%nat).
Proof.
  induction entries as [| entry rest IH]; intros st m; cbv zeta.
  - split; [reflexivity |]. intros st' [= <-]. cbn. lia.
  - cbn [entries_loop]. unfold mbind, M_bind, bind.
    destruct (process_entry_numbering st entry m) as [Hn Hst].
    destruct (process_entry' st entry m) as [[t1 m1] [st1 |e]];
      unfold trace_of, result_of in Hn, Hst; cbn [fst snd] in Hn, Hst.
    + specialize (Hst st1 eq_refl).
      destruct (IH st1 m1) as [Hn2 Hst2].
      destruct (entries_loop' st1 rest m1) as [[t2 m2] r2].
      unfold trace_of, result_of in *. cbn [fst snd] in *.
      rewrite numberings_app, length_app, Hn.
      destruct (survives datetime strptime strftime args st.1 entry); cbn [app length].
      * rewrite Hst in Hn2, Hst2. split.
        -- change (1 + ?n)%nat with (S n). cbn [seq]. f_equal. exact Hn2.
        -- intros st' H. rewrite (Hst2 st' H). cbn. lia.
      * rewrite Hst in Hn2, Hst2. split; [exact Hn2 | exact Hst2].
    + unfold trace_of, result_of. cbn [fst snd]. rewrite Hn.
      split; [| discriminate].
      destruct (survives datetime strptime strftime args st.1 entry); reflexivity.
Qed.

End Indexing.

(** C6. The indices printed by a run are 1, 2, 3, ... without gap, in
    feed order: the counter starts at 0 and moves, by one, exactly when
    an entry survives the year filters, and the new value is printed
    for that entry.  On five entries of which the filter leaves out the
    second and the fourth, the indices 1, 2, 3 go to the first, third
    and fifth entry. *)
Theorem display_indices
        (datetime : Type) (strptime : string -> string -> result datetime)
        (strftime : datetime -> string -> string)
        (args : Args) (net : Network) (m : machine) :
  let out := main datetime strptime strftime args net m in
  numberings (trace_of out) = seq 1 (length (numberings (trace_of out))) /\
  (forall v n, result_of out = Ok (v, n) ->
               n = length (numberings (trace_of out))) /\
  (forall st entry m',
      let step := process_entry datetime strptime strftime args net st entry m' in
      numberings (trace_of step)
      = (if survives datetime strptime strftime args st.1 entry
         then [S st.2] else []) /\
      (forall st', result_of step = Ok st' ->
                   st'.2 = if survives datetime strptime strftime args st.1 entry
                           then S st.2 else st.2)) /\
  numbered None (trace_of (Sample.run IndexExample.args IndexExample.net m))
  = [(1%nat, "1901.00001v1"); (2%nat, "2103.00003v1"); (3%nat, "2309.00005v1")].
Proof.
  cbv zeta. split; [| split; [| split]].
  - unfold main. msimpl. destruct (feed net) as [root | e]; [| reflexivity].
    cbn.
    destruct (entries_loop_numbering datetime strptime strftime args net
                (filter (fun child => Py.str_in "entry" (tag child)) root)
                (unbound, O) m) as [H _].
    destruct (entries_loop _ _ _ _ _ _ _ _) as [[t m'] r]. exact H.
  - intros v n. unfold main. msimpl.
    destruct (feed net) as [root | e]; [| discriminate].
    cbn.
    destruct (entries_loop_numbering datetime strptime strftime args net
                (filter (fun child => Py.str_in "entry" (tag child)) root)
                (unbound, O) m) as [_ H].
    destruct (entries_loop _ _ _ _ _ _ _ _) as [[t m'] r].
    intros Hr. exact (H (v, n) Hr).
  - intros st entry m'. apply process_entry_numbering.
  - vm_compute. reflexivity.
Qed.

Lemma display_indices_witness :
  let out := Sample.run IndexExample.args IndexExample.net (Machine ∅ []) in
  numberings (trace_of out) = [1; 2; 3]%nat /\
  exists v, result_of out = Ok (v, 3%nat).
Proof.
  intros out.
  destruct (display_indices Sample.datetime Sample.strptime Sample.strftime
              IndexExample.args IndexExample.net (Machine ∅ []))
    as (Hseq & Hcount & _ & _).
  split.
  - exact Hseq.
  - eexists. vm_compute. reflexivity.
Defined.

(** ** Configuration errors *)

Lemma int_raises_ValueError (s : string) (e : exn) :
  Py.int s = Raise e -> e = ValueError.
Proof.
  unfold Py.int.
  destruct (match Py.strip (list_ascii_of_string s) with
            | [] => None
            | c :: t => _
            end); [discriminate | intros [= <-]; reflexivity].
Qed.


Example in_range_term_after_match : in_range 3 "3,abc" = Ok true.
Proof. reflexivity. Qed.

Example in_range_bound_not_read : in_range 3 "7-x" = Ok false.
Proof. reflexivity. Qed.


Lemma format_field_name (kw : list (string * string)) (name : string) :
  all_chars plain_char name = true ->
  forall acc post,
    Format.format_from kw (Format.Field acc) (name +:+ String "}" post)
    = (v ← Format.resolve kw (acc +:+ name);
       r ← Format.format_from kw Format.Lit post;
       Ok (v +:+ r)).
Proof.
  induction name as [| c name IH]; intros Hname acc post.
  - rewrite append_empty_l, append_empty_r. reflexivity.
  - cbn in Hname. apply andb_true_iff in Hname as [Hc Hname].
    unfold plain_char, no_brace in Hc.
    apply andb_true_iff in Hc as [Hc H3]. apply andb_true_iff in Hc as [H1 H2].
    apply negb_true_iff in H1, H2, H3.
    rewrite append_String. cbn [Format.format_from]. rewrite H1, H2, H3.
    rewrite (IH Hname).
    replace ((acc +:+ String c EmptyString) +:+ name)
      with (acc +:+ String c name); [reflexivity |].
    clear. induction acc as [| a acc IHa]; [reflexivity |].
    rewrite !append_String, IHa. reflexivity.
Qed.


Section Startup.

Variable datetime : Type.
Variable strptime : string -> string -> result datetime.
Variable strftime : datetime -> string -> string.
Variable args : Args.
Variable net : Network.

Abbreviation main' := (main datetime strptime strftime args net).
Abbreviation entries_loop' := (entries_loop datetime strptime strftime args net).
Abbreviation process_entry' := (process_entry datetime strptime strftime args net).


End Startup.



(** C2 as stated fails: link [c] cannot be reached ([URLError]); the
    failure is not reported, the sibling link [b] is not attempted and
    the next entry is not processed. *)
Lemma network_error_aborts_run :
  let out := Sample.run RunExample.downloading RunExample.net RunExample.m0 in
  retrieve RunExample.net "c" = Raise URLError /\
  result_of out = Raise URLError /\
  retrieves (trace_of out)
  = [("c", "./2023-Art_Ficial-Quantum_Stuff-2309.06314.pdf")] /\
  ~ In EvTraceback (trace_of out) /\
  numberings (trace_of out) = [1%nat].
Proof.
  cbv zeta. repeat split; try reflexivity.
  vm_compute. intros H.
  repeat (destruct H as [H | H]; [discriminate |]). exact H.
Qed.

(** C1 as stated fails: under [--keep-non-pdf] the page fetched from
    link [d] is written and left there without being opened. *)
Lemma signature_check_skipped_when_keeping :
  download_links RunExample.keeping RunExample.net "X" 1 ["d"] RunExample.m0
  = ([EvRetrieve "d" "./X.pdf"],
     Machine {[ "./X.pdf" := "<html>withdrawn</html>" ]} [], Ok tt) /\
  ~ In (EvOpenRead "./X.pdf")
       (trace_of (download_links RunExample.keeping RunExample.net "X" 1 ["d"]
                                 RunExample.m0)).
Proof.
  split; [reflexivity |].
  intros [H | []]. discriminate.
Qed.

(** ** Names that outlive their entry *)

Lemma same_names_refl (k : Kind) (v : Vars) : same_names k v v.
Proof. destruct k; cbn; auto. Qed.

Lemma same_names_trans (k : Kind) (v1 v2 v3 : Vars) :
  same_names k v1 v2 -> same_names k v2 v3 -> same_names k v1 v3.
Proof.
  destruct k; cbn; try tauto; try congruence.
  all: intros [? ?] [? ?]; split; congruence.
Qed.

Section Names.

Variable datetime : Type.
Variable strptime : string -> string -> result datetime.
Variable strftime : datetime -> string -> string.
Variable args : Args.
Variable net : Network.

Abbreviation scan_child' := (scan_child datetime strptime strftime).
Abbreviation scan_children' := (scan_children datetime strptime strftime).

Lemma scan_child_same (k : Kind) (s s' : Scan) (child : Element) :
  scan_child' s child = Ok s' ->
  Kind_eqb (kind_of_tag (tag child)) k = false ->
  same_names k (vars s) (vars s').
Proof.
  unfold scan_child. intros Hscan Hk.
  destruct (kind_of_tag (tag child)).
  - destruct (text child); [| discriminate]. injection Hscan as <-.
    destruct k; try discriminate; cbn; auto.
  - injection Hscan as <-. destruct k; try discriminate; cbn; auto.
  - injection Hscan as <-. apply same_names_refl.
  - injection Hscan as <-. apply same_names_refl.
  - revert Hscan. rsimpl.
    destruct (text child) as [t |]; [| discriminate]. cbn.
    destruct (strptime t in_format); [| discriminate]. cbn.
    intros [= <-]. destruct k; try discriminate; cbn; auto.
  - revert Hscan. rsimpl.
    destruct (text child) as [t |]; [| discriminate]. cbn.
    destruct (strptime t in_format); [| discriminate]. cbn.
    intros [= <-]. destruct k; try discriminate; cbn; auto.
  - injection Hscan as <-. apply same_names_refl.
Qed.

Lemma scan_children_same (k : Kind) (cs : list Element) :
  forall s s',
    scan_children' s cs = Ok s' ->
    existsb (fun child => Kind_eqb (kind_of_tag (tag child)) k) cs = false ->
    same_names k (vars s) (vars s').
Proof.
  induction cs as [| child rest IH]; intros s s' Hscan Hk.
  - injection Hscan as <-. apply same_names_refl.
  - cbn in Hk. apply orb_false_iff in Hk as [Hchild Hrest].
    cbn [scan_children] in Hscan. unfold mbind, result_bind, rbind in Hscan.
    destruct (scan_child' s child) as [s1 |] eqn:H1; [| discriminate].
    eapply same_names_trans.
    + eapply scan_child_same; eassumption.
    + eapply IH; eassumption.
Qed.

Lemma make_slug_unbound (template : string) (v : Vars)
      (names : list (option string)) :
  publish_year v = None \/ update_year v = None ->
  exists e, make_slug template v names = Raise e.
Proof.
  intros H. unfold make_slug. rsimpl.
  destruct (title v) as [[t |] |]; cbn; eauto.
  destruct (mapM as_str names); cbn; eauto.
  destruct (id_ v); cbn; eauto.
  destruct (publish_year v); cbn; eauto.
  - destruct (update_year v); cbn; eauto.
    destruct H; discriminate.
Qed.

Abbreviation process_entry' := (process_entry datetime strptime strftime args net).

Lemma process_entry_state (st : Vars * nat) (entry : Element) (m : machine)
      (s : Scan) (st' : Vars * nat) :
  scan_children' (mkScan st.1 [] []) (children entry) = Ok s ->
  result_of (process_entry' st entry m) = Ok st' ->
  st'.1 = vars s.
Proof.
  intros Hscan. unfold process_entry. msimpl. rewrite Hscan. cbn.
  destruct (filtered_out (publish_years args) _) as [[|] | e]; cbn;
    [intros [= <-]; reflexivity | | discriminate].
  destruct (filtered_out (update_years args) _) as [[|] | e]; cbn;
    [intros [= <-]; reflexivity | | discriminate].
  destruct (render_and_download args net s (S st.2) m) as [[t m'] [[] | e]];
    cbn; [intros [= <-]; reflexivity | discriminate].
Qed.

Lemma process_entry_slug (st : Vars * nat) (entry : Element) (m : machine)
      (s : Scan) i a t pt ut slug :
  scan_children' (mkScan st.1 [] []) (children entry) = Ok s ->
  In (EvEntryInfo i a t pt ut slug) (trace_of (process_entry' st entry m)) ->
  make_slug (output_filename_template args) (vars s) (authors s) = Ok slug.
Proof.
  intros Hscan Hin. unfold process_entry in Hin.
  apply in_bind_lift in Hin as (s0 & Hs & Hin).
  rewrite Hscan in Hs. injection Hs as <-. cbv zeta in Hin.
  apply in_bind_lift in Hin as (skip & _ & Hin).
  destruct skip; [contradiction |].
  apply in_bind_lift in Hin as (skip & _ & Hin).
  destruct skip; [contradiction |].
  apply in_bind_emit in Hin as [Hin | Hin]; [discriminate |].
  apply in_bind in Hin as [Hin | (? & ? & ? & _ & [])].
  unfold render_and_download in Hin. cbv zeta in Hin.
  apply in_bind_lift in Hin as (slug' & Hslug & Hin).
  do 4 apply in_bind_lift in Hin as (? & _ & Hin).
  apply in_bind_emit in Hin as [Hin | Hin];
    [injection Hin as _ _ _ _ _ ->; exact Hslug |].
  apply in_bind_emit in Hin as [Hin | Hin]; [discriminate |].
  apply in_bind_lift in Hin as (go & _ & Hin).
  destruct go; [| contradiction].
  pose proof (download_links_events args net slug'
                (pdf_links_of (link_elements s)) 1 m) as Hd.
  rewrite forallb_forall in Hd. specialize (Hd _ Hin). discriminate.
Qed.

Abbreviation main' := (main datetime strptime strftime args net).
Abbreviation survives' := (survives datetime strptime strftime args).

Lemma first_entry_raises (entry : Element) (m : machine) :
  supplies KPublished entry = false \/ supplies KUpdated entry = false ->
  dropped datetime strptime strftime args unbound entry = false ->
  exists e, result_of (process_entry' (unbound, O) entry m) = Raise e.
Proof.
  intros Hlacks Hdrop. unfold dropped in Hdrop.
  unfold process_entry. msimpl.
  destruct (scan_children' _ _) as [s |] eqn:Hscan; cbn; [| eauto].
  assert (Hyear : publish_year (vars s) = None \/ update_year (vars s) = None).
  { destruct Hlacks as [H | H];
      apply (scan_children_same _ _ _ _ Hscan) in H; cbn in H;
      destruct H as [_ H]; auto. }
  destruct (filtered_out (publish_years args) _) as [[|] | e]; cbn;
    [discriminate | | eauto].
  destruct (filtered_out (update_years args) _) as [[|] | e]; cbn;
    [discriminate | | eauto].
  unfold render_and_download. msimpl.
  destruct (make_slug_unbound (output_filename_template args) _ (authors s) Hyear)
    as [e He].
  rewrite He. cbn. eauto.
Qed.

(** C10, as the code has it.  The names assigned in the entry loop are
    not reset between entries.  For an entry that lacks the element
    of a name, the name keeps the value it had before the entry; the
    year filters and the file name of that entry are computed from
    the names as they are after the scan, and those names go on to the
    next entry.  If the first entry lacks a [published] or an
    [updated] element, the run ends with an uncaught exception,
    unless a year filter drops that entry before the missing name is
    read. *)
Theorem names_outlive_entry (st : Vars * nat) (entry : Element) (m : machine) :
  (forall s,
      scan_children' (mkScan st.1 [] []) (children entry) = Ok s ->
      (forall k, supplies k entry = false -> same_names k st.1 (vars s)) /\
      (survives' st.1 entry = true <->
       filtered_out (publish_years args) (publish_year (vars s)) = Ok false /\
       filtered_out (update_years args) (update_year (vars s)) = Ok false) /\
      (forall i a t pt ut slug,
          In (EvEntryInfo i a t pt ut slug)
             (trace_of (process_entry' st entry m)) ->
          make_slug (output_filename_template args) (vars s) (authors s)
          = Ok slug) /\
      (forall st', result_of (process_entry' st entry m) = Ok st' ->
                   st'.1 = vars s)) /\
  (forall root rest,
      feed net = Ok root ->
      filter (fun child => Py.str_in "entry" (tag child)) root = entry :: rest ->
      supplies KPublished entry = false \/ supplies KUpdated entry = false ->
      dropped datetime strptime strftime args unbound entry = false ->
      exists e, result_of (main' m) = Raise e).
Proof.
  split.
  - intros s Hscan. split; [| split; [| split]].
    + intros k Hk.
      exact (scan_children_same k _ _ _ Hscan Hk).
    + unfold survives. rewrite Hscan.
      destruct (filtered_out (publish_years args) _) as [[|] | e];
        [split; [discriminate | intros [? _]; discriminate] |
        | split; [discriminate | intros [? _]; discriminate]].
      destruct (filtered_out (update_years args) _) as [[|] | e];
        [split; [discriminate | intros [_ ?]; discriminate]
        | split; auto
        | split; [discriminate | intros [_ ?]; discriminate]].
    + intros i a t pt ut slug. apply process_entry_slug, Hscan.
    + intros st'. apply process_entry_state, Hscan.
  - intros root rest Hfeed Hentries Hlacks Hdrop.
    destruct (first_entry_raises entry m Hlacks Hdrop) as [e He].
    exists e. unfold main. msimpl. rewrite Hfeed. cbn. rewrite Hentries.
    cbn [entries_loop]. unfold mbind, M_bind, bind.
    unfold result_of in He.
    destruct (process_entry' (unbound, O) entry m) as [[t1 m1] r1].
    cbn in He. subst r1. reflexivity.
Qed.

End Names.

Lemma names_outlive_entry_witness :
  (exists s,
      scan_children Sample.datetime Sample.strptime Sample.strftime
                    (mkScan StaleExample.after_quantum [] [])
                    (children StaleExample.untitled) = Ok s /\
      title (vars s) = Some (Some "Quantum Stuff") /\
      publish_year (vars s) = Some "2023" /\
      update_year (vars s) = Some "2021") /\
  In (EvEntryInfo "2103.00003v1" [Some "C. Three"] (Some "Quantum Stuff")
                  "Tue Sep 12 2023 03:00:00PM UTC"
                  "Thu Mar 04 2021 10:00:00AM UTC"
                  "2023-C_Three-Quantum_Stuff-2103.00003v1")
     (trace_of (Sample.run RunExample.listing StaleExample.stale RunExample.m0)) /\
  (exists e,
      result_of (Sample.run RunExample.listing StaleExample.first_incomplete
                            RunExample.m0) = Raise e).
Proof.
  split; [| split].
  - eexists. split; [vm_compute; reflexivity |].
    destruct (names_outlive_entry Sample.datetime Sample.strptime Sample.strftime
                RunExample.listing StaleExample.stale
                (StaleExample.after_quantum, 1%nat) StaleExample.untitled
                RunExample.m0) as [H _].
    destruct (H _ eq_refl) as (Hsame & _).
    split; [exact (Hsame KTitle eq_refl) |].
    split; [exact (proj2 (Hsame KPublished eq_refl)) | reflexivity].
  - vm_compute. do 5 right. left. reflexivity.
  - destruct (names_outlive_entry Sample.datetime Sample.strptime Sample.strftime
                RunExample.listing StaleExample.first_incomplete
                (unbound, O) StaleExample.unpublished RunExample.m0) as [_ H].
    apply (H [StaleExample.unpublished; RunExample.quantum] [RunExample.quantum]);
      [reflexivity | reflexivity | | reflexivity].
    left. reflexivity.
Defined.

(** C10 as stated fails in its last part: the first entry has no
    [published] element, the update-year filter drops it before
    [publish_year] is read, and the run ends normally, the second entry
    being the one numbered 1. *)
Lemma first_entry_without_published_dropped :
  let out := Sample.run StaleExample.updated_2023 StaleExample.first_incomplete
                        RunExample.m0 in
  supplies KPublished StaleExample.unpublished = false /\
  result_of out = Ok (StaleExample.after_quantum, 1%nat) /\
  numbered None (trace_of out) = [(1%nat, "2309.06314")].
Proof.
  cbv zeta. repeat split; reflexivity.
Qed.

(** * Further properties of the code *)

(** ** Decimal numerals *)

Lemma digits_of_uint (d : Decimal.uint) :
  forall (acc : nat) (b : bool),
    d <> Decimal.Nil \/ b = true ->
    Py.digits_value b (Z.of_nat acc)
                    (list_ascii_of_string (NilEmpty.string_of_uint d))
    = Some (Z.of_nat (Nat.of_uint_acc d acc)).
Proof.
  induction d; intros acc b Hb;
    [destruct Hb as [H | ->]; [congruence | reflexivity] | ..];
    cbn [NilEmpty.string_of_uint list_ascii_of_string Py.digits_value
         Nat.of_uint_acc];
    match goal with
    | |- context [Py.is_digit ?c] => change (Py.is_digit c) with true
    end; cbv iota;
    match goal with
    | |- Py.digits_value true ?z _ = Some (Z.of_nat (Nat.of_uint_acc _ ?n)) =>
        replace z with (Z.of_nat n);
        [apply IHd; right; reflexivity
        | rewrite ?Nat2Z.inj_succ, Nat.tail_mul_spec, Nat2Z.inj_mul;
          match goal with
          | |- context [Py.digit_value ?c] =>
              let v := eval vm_compute in (Py.digit_value c) in
              change (Py.digit_value c) with v
          end; lia]
    end.
Qed.

Lemma uint_chars_digits (d : Decimal.uint) :
  Forall (fun c => Py.is_digit c = true)
         (list_ascii_of_string (NilEmpty.string_of_uint d)).
Proof. induction d; cbn; constructor; (reflexivity || assumption). Qed.

Lemma str_digits (n : nat) :
  Forall (fun c => Py.is_digit c = true) (list_ascii_of_string (Py.str n)) /\
  Py.str n <> EmptyString.
Proof.
  unfold Py.str, NilZero.string_of_uint.
  destruct (Nat.to_uint n) eqn:E;
    try (split; [rewrite <- E at 1; try apply uint_chars_digits | discriminate]).
  all: try (split; [repeat constructor | discriminate]).
  all: split; [apply (uint_chars_digits (_ u)) | discriminate].
Qed.

Lemma digit_not_space (c : ascii) : Py.is_digit c = true -> Py.is_space c = false.
Proof.
  destruct c as [[|] [|] [|] [|] [|] [|] [|] [|]];
    first [discriminate | reflexivity].
Qed.

Lemma digit_not_sign (c : ascii) :
  Py.is_digit c = true ->
  Ascii.eqb c "+" = false /\ Ascii.eqb c "-" = false /\
  Ascii.eqb c "," = false /\ Ascii.eqb c "_" = false.
Proof.
  destruct c as [[|] [|] [|] [|] [|] [|] [|] [|]];
    first [discriminate | repeat split; reflexivity].
Qed.

Lemma lstrip_digits (l : list ascii) :
  Forall (fun c => Py.is_digit c = true) l -> Py.lstrip l = l.
Proof.
  destruct 1 as [| c l Hc _]; [reflexivity |].
  cbn. rewrite (digit_not_space c Hc). reflexivity.
Qed.

Lemma strip_digits (l : list ascii) :
  Forall (fun c => Py.is_digit c = true) l -> Py.strip l = l.
Proof.
  intros H. unfold Py.strip. rewrite (lstrip_digits l H).
  rewrite lstrip_digits; [apply rev_involutive |].
  apply Forall_rev, H.
Qed.

(** [int(str(n))] is [n]. *)
Lemma int_str (n : nat) : Py.int (Py.str n) = Ok (Z.of_nat n).
Proof.
  destruct (str_digits n) as [Hd Hne].
  unfold Py.int. rewrite (strip_digits _ Hd).
  assert (Hv : Py.digits_value false 0 (list_ascii_of_string (Py.str n))
               = Some (Z.of_nat n)).
  { unfold Py.str, NilZero.string_of_uint.
    rewrite <- (DecimalNat.Unsigned.of_to n) at 2. unfold Nat.of_uint.
    destruct (Nat.to_uint n) eqn:E; [reflexivity | ..];
      apply (digits_of_uint _ 0%nat false); left; discriminate. }
  destruct (list_ascii_of_string (Py.str n)) as [| c t] eqn:E.
  - destruct (Py.str n); [congruence | discriminate].
  - inversion Hd as [| ? ? Hc _]; subst.
    destruct (digit_not_sign c Hc) as (-> & -> & _).
    rewrite Hv. reflexivity.
Qed.

Lemma str_inj (n k : nat) : Py.str n = Py.str k -> n = k.
Proof.
  intros H. apply Nat2Z.inj.
  pose proof (int_str n) as Hn. rewrite H, int_str in Hn. congruence.
Qed.

Lemma all_chars_Forall (p : ascii -> bool) (s : string) :
  all_chars p s = true <-> Forall (fun c => p c = true) (list_ascii_of_string s).
Proof.
  induction s as [| c s IH]; cbn.
  - split; [constructor | reflexivity].
  - rewrite andb_true_iff, IH. split.
    + intros [? ?]. constructor; assumption.
    + inversion 1; subst. split; assumption.
Qed.

Lemma all_chars_weaken (p q : ascii -> bool) (s : string) :
  (forall c, p c = true -> q c = true) ->
  all_chars p s = true -> all_chars q s = true.
Proof.
  intros Hpq. induction s as [| c s IH]; [reflexivity |]. cbn.
  rewrite !andb_true_iff. intros [Hc Hs]. split; [apply Hpq, Hc | apply IH, Hs].
Qed.

Lemma str_all_digits (n : nat) : all_chars Py.is_digit (Py.str n) = true.
Proof. apply all_chars_Forall, str_digits. Qed.

(** A string without the separator is not split. *)
Lemma split_without_sep (sep : ascii) (s : string) :
  all_chars (fun c => negb (Ascii.eqb c sep)) s = true ->
  Py.split sep s = [s].
Proof.
  induction s as [| c s IH]; [reflexivity |]. cbn.
  rewrite andb_true_iff, negb_true_iff. intros [Hc Hs].
  rewrite Hc, (IH Hs). reflexivity.
Qed.

(** [c in s] for a single character. *)
Lemma str_in_char_false (c : ascii) (s : string) :
  all_chars (fun x => negb (Ascii.eqb x c)) s = true ->
  Py.str_in (String c EmptyString) s = false.
Proof.
  induction s as [| x s IH]; [reflexivity |]. cbn.
  rewrite andb_true_iff, negb_true_iff. intros [Hx Hs].
  rewrite (IH Hs). destruct (ascii_dec c x) as [-> | _]; [| reflexivity].
  rewrite Ascii.eqb_refl in Hx. discriminate.
Qed.

(** A decimal numeral as a range specification matches its number only. *)
Lemma in_range_numeral (j k : nat) :
  in_range (Z.of_nat j) (Py.str k) = Ok (Nat.eqb j k).
Proof.
  pose proof (str_all_digits k) as Hd.
  unfold in_range. rewrite split_without_sep.
  2: { revert Hd. apply all_chars_weaken. intros c Hc.
       destruct (digit_not_sign c Hc) as (_ & _ & -> & _). reflexivity. }
  cbn [in_range_list]. rewrite str_in_char_false.
  2: { revert Hd. apply all_chars_weaken. intros c Hc.
       destruct (digit_not_sign c Hc) as (_ & -> & _). reflexivity. }
  rewrite int_str. rsimpl.
  destruct (Z.eqb_spec (Z.of_nat j) (Z.of_nat k)) as [H | H];
    destruct (Nat.eqb_spec j k) as [H' | H']; try reflexivity; lia.
Qed.

(** ** [nonnegative_int] *)

(** X1. [nonnegative_int] returns a value exactly for the texts that
    [int()] reads as an integer that is not negative, and the value is
    that integer; every other text is refused with an
    [ArgumentTypeError], no exception being left unhandled. *)
Theorem nonnegative_int_accepts (val : string) (n : Z) :
  (nonnegative_int val = inl n <-> Py.int val = Ok n /\ 0 <= n) /\
  (forall e, nonnegative_int val <> inr (Unhandled e)) /\
  (Py.int val = Ok n -> n < 0 ->
   nonnegative_int val
   = inr (ArgumentTypeError (dquote +:+ str_int n +:+ dquote +:+ " is not >= 0"))).
Proof.
  unfold nonnegative_int. split; [| split].
  - destruct (Py.int val) as [k | e].
    + destruct (Z.ltb_spec k 0).
      * split; [discriminate | intros [[= ->] ?]; lia].
      * split; [intros [= ->]; auto | intros [[= ->] _]; reflexivity].
    + split; [destruct (exn_eqb e ValueError); discriminate
             | intros [? _]; discriminate].
  - intros e. destruct (Py.int val) as [k | e'] eqn:E.
    + destruct (k <? 0); discriminate.
    + apply int_raises_ValueError in E as ->. discriminate.
  - intros -> Hn. destruct (Z.ltb_spec n 0); [reflexivity | lia].
Qed.

Lemma nonnegative_int_accepts_witness :
  nonnegative_int " +1_000 " = inl 1000 /\
  nonnegative_int "-0" = inl 0 /\
  nonnegative_int " -05"
  = inr (ArgumentTypeError (dquote +:+ "-5" +:+ dquote +:+ " is not >= 0")).
Proof.
  split; [| split].
  - apply (nonnegative_int_accepts " +1_000 " 1000). split; [reflexivity | lia].
  - apply (nonnegative_int_accepts "-0" 0). split; [reflexivity | lia].
  - apply (nonnegative_int_accepts " -05" (-5)); [reflexivity | lia].
Defined.

(** X2. Every natural number written in decimal, as [str] writes it, is
    accepted by [nonnegative_int] with its own value. *)
Theorem nonnegative_int_str (n : nat) :
  nonnegative_int (Py.str n) = inl (Z.of_nat n).
Proof.
  unfold nonnegative_int. rewrite int_str.
  destruct (Z.ltb_spec (Z.of_nat n) 0); [lia | reflexivity].
Qed.

(** ** More on [in_range] *)

Lemma split_nonempty (sep : ascii) (s : string) : Py.split sep s <> [].
Proof.
  destruct s as [| c s]; [discriminate |]. cbn.
  destruct (Ascii.eqb c sep); [discriminate |].
  destruct (Py.split sep s); discriminate.
Qed.

(** Splitting at a separator splits the two sides. *)
Lemma split_app (sep : ascii) (s1 s2 : string) :
  Py.split sep (s1 +:+ String sep s2) = Py.split sep s1 ++ Py.split sep s2.
Proof.
  induction s1 as [| c s1 IH].
  - rewrite append_empty_l. cbn. rewrite Ascii.eqb_refl. reflexivity.
  - rewrite append_String. cbn [Py.split]. rewrite IH.
    destruct (Ascii.eqb c sep); [reflexivity |].
    pose proof (split_nonempty sep s1) as Hne.
    destruct (Py.split sep s1) as [| w ws]; [congruence | reflexivity].
Qed.

Lemma in_range_list_app (n : Z) (terms1 terms2 : list string)
      (S1 : list RangeSpec.term) :
  Forall2 (fun r t => RangeSpec.parse_term r = Some t) terms1 S1 ->
  in_range_list n (terms1 ++ terms2)
  = if RangeSpec.contains S1 n then Ok true else in_range_list n terms2.
Proof.
  induction 1 as [| r t terms S Hr _ IH]; [reflexivity |].
  cbn [app in_range_list RangeSpec.contains existsb].
  unfold RangeSpec.parse_term in Hr.
  destruct (Py.str_in "-" r).
  - destruct (Py.split "-" r) as [| a [| b [| ? ?]]]; try discriminate.
    destruct (Py.int a) as [low |]; [| discriminate].
    destruct (Py.int b) as [high |]; [| discriminate].
    injection Hr as <-. cbn. rewrite Z.geb_leb.
    destruct (low <=? n); cbn; [| exact IH].
    destruct (n <=? high); cbn; [reflexivity | exact IH].
  - destruct (Py.int r) as [k |]; [| discriminate].
    injection Hr as <-. cbn.
    destruct (n =? k); cbn; [reflexivity | exact IH].
Qed.

Lemma in_range_app (n : Z) (s1 s2 : string) (S1 : list RangeSpec.term) :
  RangeSpec.parse s1 = Some S1 ->
  in_range n (s1 +:+ String "," s2)
  = if RangeSpec.contains S1 n then Ok true else in_range n s2.
Proof.
  intros H1. unfold RangeSpec.parse in H1. apply mapM_Some in H1.
  unfold in_range. rewrite split_app. apply in_range_list_app, H1.
Qed.

(** X3. Range specifications compose: after a well-formed
    specification [s1], a comma and any text [s2], [in_range] answers
    [True] where [s1] matches and otherwise what it answers on [s2]
    alone, errors included; so the comma of two well-formed
    specifications is their union. *)
Theorem in_range_comma (n : Z) (s1 s2 : string) (S1 : list RangeSpec.term) :
  RangeSpec.parse s1 = Some S1 ->
  in_range n (s1 +:+ String "," s2)
  = (if RangeSpec.contains S1 n then Ok true else in_range n s2) /\
  (forall S2, RangeSpec.parse s2 = Some S2 ->
              in_range n (s1 +:+ String "," s2)
              = Ok (RangeSpec.contains S1 n || RangeSpec.contains S2 n)).
Proof.
  intros H1. pose proof (in_range_app n s1 s2 S1 H1) as E.
  split; [exact E |].
  intros S2 H2. rewrite E.
  unfold RangeSpec.parse in H2. apply mapM_Some in H2.
  unfold in_range at 1. rewrite (in_range_list_parsed n _ _ H2).
  destruct (RangeSpec.contains S1 n); reflexivity.
Qed.

Lemma in_range_comma_witness :
  in_range 2021 "2019,2021-2023,oops" = Ok true /\
  in_range 2020 "2019,2021-2023,2020" = Ok true.
Proof.
  split.
  - exact (proj1 (in_range_comma 2021 "2019,2021-2023" "oops"
                    [RangeSpec.Single 2019; RangeSpec.Interval 2021 2023]
                    eq_refl)).
  - exact (proj2 (in_range_comma 2020 "2019,2021-2023" "2020"
                    [RangeSpec.Single 2019; RangeSpec.Interval 2021 2023]
                    eq_refl) [RangeSpec.Single 2020] eq_refl).
Defined.

(** X4. An empty term is an error, not an empty range: a specification
    that starts with a comma raises [ValueError] for every number, and
    a well-formed specification followed by a comma raises it for
    every number it does not match. *)
Theorem in_range_empty_term (n : Z) (s : string) :
  in_range n (String "," s) = Raise ValueError /\
  in_range n EmptyString = Raise ValueError /\
  (forall S, RangeSpec.parse s = Some S ->
             in_range n (s +:+ ",")
             = if RangeSpec.contains S n then Ok true else Raise ValueError).
Proof.
  split; [reflexivity |]. split; [reflexivity |].
  intros S HS.
  exact (in_range_app n s EmptyString S HS).
Qed.

Lemma in_range_empty_term_witness :
  in_range 3 "3,7-9," = Ok true /\ in_range 5 "3,7-9," = Raise ValueError.
Proof.
  destruct (in_range_empty_term 3 "3,7-9") as (_ & _ & H3).
  destruct (in_range_empty_term 5 "3,7-9") as (_ & _ & H5).
  split.
  - exact (H3 [RangeSpec.Single 3; RangeSpec.Interval 7 9] eq_refl).
  - exact (H5 [RangeSpec.Single 3; RangeSpec.Interval 7 9] eq_refl).
Defined.

(** X5. An interval written with two decimal numerals matches the
    numbers from the first to the second, both included, whatever
    their order: with the first above the second it matches nothing,
    and no error is raised; with both equal it matches that number. *)
Theorem in_range_interval_numerals (j a b : nat) :
  in_range (Z.of_nat j) (Py.str a +:+ String "-" (Py.str b))
  = Ok (Nat.leb a j && Nat.leb j b) /\
  ((b < a)%nat ->
   in_range (Z.of_nat j) (Py.str a +:+ String "-" (Py.str b)) = Ok false) /\
  in_range (Z.of_nat j) (Py.str a +:+ String "-" (Py.str a)) = Ok (Nat.eqb j a).
Proof.
  assert (E : forall a b,
             in_range (Z.of_nat j) (Py.str a +:+ String "-" (Py.str b))
             = Ok (Nat.leb a j && Nat.leb j b)).
  { clear a b. intros a b.
    assert (Hparse : RangeSpec.parse (Py.str a +:+ String "-" (Py.str b))
                     = Some [RangeSpec.Interval (Z.of_nat a) (Z.of_nat b)]).
    { assert (Hnc : forall k, all_chars (fun c => negb (Ascii.eqb c ",")) (Py.str k) = true).
      { intros k. generalize (str_all_digits k). apply all_chars_weaken.
        intros c Hc. destruct (digit_not_sign c Hc) as (_ & _ & -> & _).
        reflexivity. }
      assert (Hnh : forall k, all_chars (fun c => negb (Ascii.eqb c "-")) (Py.str k) = true).
      { intros k. generalize (str_all_digits k). apply all_chars_weaken.
        intros c Hc. destruct (digit_not_sign c Hc) as (_ & -> & _).
        reflexivity. }
      unfold RangeSpec.parse. rewrite split_without_sep.
      2: { clear - Hnc. specialize (Hnc a) as Ha. specialize (Hnc b) as Hb.
           induction (Py.str a) as [| c s IH].
           - rewrite append_empty_l. cbn. exact Hb.
           - rewrite append_String. cbn in Ha |- *.
             apply andb_true_iff in Ha as [-> Ha]. apply IH, Ha. }
      cbn [mapM]. unfold RangeSpec.parse_term.
      rewrite split_app, !split_without_sep by apply Hnh.
      assert (Hin : Py.str_in "-" (Py.str a +:+ String "-" (Py.str b)) = true).
      { clear. induction (Py.str a) as [| c s IH].
        - rewrite append_empty_l. cbn.
          destruct (ascii_dec "-" "-"); [| congruence].
          destruct (Py.str b); reflexivity.
        - rewrite append_String. cbn. rewrite IH. apply orb_true_r. }
      rewrite Hin. cbn [app]. rewrite !int_str. reflexivity. }
    unfold RangeSpec.parse in Hparse. apply mapM_Some in Hparse.
    unfold in_range. rewrite (in_range_list_parsed _ _ _ Hparse).
    cbn. f_equal. rewrite orb_false_r.
    destruct (Z.leb_spec (Z.of_nat a) (Z.of_nat j)), (Nat.leb_spec a j),
             (Z.leb_spec (Z.of_nat j) (Z.of_nat b)), (Nat.leb_spec j b);
      try reflexivity; lia. }
  split; [apply E |]. split.
  - intros Hba. rewrite E. f_equal.
    destruct (Nat.leb_spec a j), (Nat.leb_spec j b); try reflexivity; lia.
  - rewrite E. f_equal.
    destruct (Nat.leb_spec a j), (Nat.leb_spec j a), (Nat.eqb_spec j a);
      try reflexivity; lia.
Qed.

Lemma in_range_interval_numerals_witness :
  in_range 3 "5-2" = Ok false /\ in_range 4 "2-5" = Ok true.
Proof.
  destruct (in_range_interval_numerals 3 5 2) as (_ & H & _).
  split.
  - apply H. lia.
  - exact (proj1 (in_range_interval_numerals 4 2 5)).
Defined.

Lemma digits_value_nonneg (l : list ascii) :
  forall (b : bool) (acc z : Z),
    0 <= acc -> Py.digits_value b acc l = Some z -> 0 <= z.
Proof.
  induction l as [| c l IH]; intros b acc z Hacc; cbn.
  - destruct b; [intros [= <-]; exact Hacc | discriminate].
  - destruct (Py.is_digit c).
    + apply IH. unfold Py.digit_value. lia.
    + destruct (Ascii.eqb c "_" && b); [apply IH, Hacc | discriminate].
Qed.

Lemma In_lstrip (c : ascii) (l : list ascii) : In c (Py.lstrip l) -> In c l.
Proof.
  induction l as [| x l IH]; [contradiction |]. cbn.
  destruct (Py.is_space x); [right; apply IH; assumption | trivial].
Qed.

Lemma In_strip (c : ascii) (l : list ascii) : In c (Py.strip l) -> In c l.
Proof.
  unfold Py.strip. intros H.
  apply in_rev, In_lstrip, in_rev, In_lstrip in H. exact H.
Qed.

(** Without a hyphen in the text, [int()] reads no negative number. *)
Lemma int_nonneg (s : string) (z : Z) :
  all_chars (fun c => negb (Ascii.eqb c "-")) s = true ->
  Py.int s = Ok z -> 0 <= z.
Proof.
  intros Hs. apply all_chars_Forall in Hs. rewrite List.Forall_forall in Hs.
  unfold Py.int.
  destruct (Py.strip (list_ascii_of_string s)) as [| c t] eqn:E;
    [discriminate |].
  destruct (Ascii.eqb c "+").
  - destruct (Py.digits_value false 0 t) as [v |] eqn:Hv; [| discriminate].
    intros [= <-]. eapply digits_value_nonneg; [| exact Hv]. lia.
  - destruct (Ascii.eqb c "-") eqn:Hc.
    + assert (Hin : In c (list_ascii_of_string s))
        by (apply In_strip; rewrite E; left; reflexivity).
      apply Hs in Hin. rewrite Hc in Hin. discriminate.
    + destruct (Py.digits_value false 0 (c :: t)) as [v |] eqn:Hv;
        [| discriminate].
      intros [= <-]. eapply digits_value_nonneg; [| exact Hv]. lia.
Qed.

Lemma split_parts_without_sep (sep : ascii) (s : string) :
  Forall (fun p => all_chars (fun c => negb (Ascii.eqb c sep)) p = true)
         (Py.split sep s).
Proof.
  induction s as [| c s IH]; [repeat constructor |]. cbn.
  destruct (Ascii.eqb c sep) eqn:Hc.
  - constructor; [reflexivity | exact IH].
  - destruct (Py.split sep s) as [| w ws]; [repeat constructor; cbn; now rewrite Hc |].
    inversion IH; subst. constructor; [| assumption].
    cbn. rewrite Hc. assumption.
Qed.

Lemma str_in_char_all (c : ascii) (s : string) :
  Py.str_in (String c EmptyString) s = false ->
  all_chars (fun x => negb (Ascii.eqb x c)) s = true.
Proof.
  induction s as [| x s IH]; [reflexivity |]. cbn.
  intros H. apply orb_false_iff in H as [Hp Hs].
  rewrite (IH Hs), andb_true_r.
  destruct (ascii_dec c x) as [<- | Hne].
  - destruct s; discriminate.
  - apply negb_true_iff, Ascii.eqb_neq. congruence.
Qed.

Lemma in_range_list_negative (n : Z) (terms : list string) (b : bool) :
  n < 0 -> in_range_list n terms = Ok b -> b = false.
Proof.
  intros Hn. induction terms as [| r rest IH]; cbn [in_range_list].
  - intros [= <-]. reflexivity.
  - destruct (Py.str_in "-" r) eqn:Hin.
    + pose proof (split_parts_without_sep "-" r) as Hparts.
      destruct (Py.split "-" r) as [| a [| e [| ? ?]]]; try discriminate.
      inversion Hparts as [| ? ? Ha _]; subst.
      destruct (Py.int a) as [lo |] eqn:Hlo; [| discriminate].
      apply (int_nonneg a lo Ha) in Hlo. rsimpl.
      destruct (Z.geb_spec n lo); [lia | exact IH].
    + apply str_in_char_all in Hin.
      destruct (Py.int r) as [k |] eqn:Hk; [| discriminate].
      apply (int_nonneg r k Hin) in Hk. rsimpl.
      destruct (Z.eqb_spec n k); [lia | exact IH].
Qed.

(** X6. [in_range] never answers [True] for a negative number: a
    hyphen in a term is always read as the interval sign, so no term
    can name a negative number. *)
Theorem in_range_never_negative (n : Z) (range_str : string) :
  n < 0 -> in_range n range_str <> Ok true.
Proof.
  intros Hn H. apply (in_range_list_negative n _ true Hn) in H. discriminate.
Qed.

Lemma in_range_never_negative_witness :
  in_range (-3) "-3" <> Ok true /\ in_range (-3) "-5-0" <> Ok true.
Proof.
  split; apply in_range_never_negative; lia.
Defined.

(** ** More on [slugify] *)

Lemma sub_nonword_length (s : string) :
  forall f, (String.length (sub_nonword f s) <= String.length s)%nat.
Proof.
  induction s as [| c s IH]; intros f; [reflexivity |]. cbn.
  destruct (is_word c); [cbn; specialize (IH false); lia |].
  destruct f; [specialize (IH true); lia | cbn; specialize (IH true); lia].
Qed.

(** X7. A slug is made of ASCII letters, digits and underscores only
    (so it holds no path separator and no dot), it is never longer
    than the text, and it is empty only for the empty text. *)
Theorem slugify_safe (s : string) :
  all_chars is_word (slugify s) = true /\
  (String.length (slugify s) <= String.length s)%nat /\
  (slugify s = EmptyString <-> s = EmptyString).
Proof.
  split; [apply sub_nonword_all_word |].
  split; [apply sub_nonword_length |].
  split; [| intros ->; reflexivity].
  destruct s as [| c s]; [reflexivity |]. unfold slugify. cbn.
  destruct (is_word c); discriminate.
Qed.

Lemma slugify_safe_witness :
  all_chars is_word (slugify "Art I. Ficial!!") = true /\
  slugify "Art I. Ficial!!" <> EmptyString.
Proof.
  destruct (slugify_safe "Art I. Ficial!!") as (Hword & _ & Hempty).
  split; [exact Hword |].
  intros E. apply Hempty in E. discriminate E.
Defined.

(** X8. The texts that [slugify] leaves as they are are exactly those
    made of ASCII letters, digits and underscores. *)
Theorem slugify_fixed_points (s : string) :
  slugify s = s <-> all_chars is_word s = true.
Proof.
  split.
  - intros H. rewrite <- H. apply sub_nonword_all_word.
  - apply sub_nonword_id.
Qed.

Lemma slugify_fixed_points_witness :
  slugify "Quantum_Stuff" = "Quantum_Stuff".
Proof. apply (proj2 (slugify_fixed_points "Quantum_Stuff")). reflexivity. Defined.

Lemma sub_nonword_separator (a x y b : string) :
  x <> EmptyString -> y <> EmptyString ->
  all_chars (fun c => Bool.eqb (is_word c) false) x = true ->
  all_chars (fun c => Bool.eqb (is_word c) false) y = true ->
  forall f, sub_nonword f (a +:+ x +:+ b) = sub_nonword f (a +:+ y +:+ b).
Proof.
  intros Hx Hy Hxa Hya. induction a as [| c a IH]; intros f.
  - rewrite !append_empty_l. destruct f.
    + rewrite !sub_nonword_skip by assumption. reflexivity.
    + rewrite !sub_nonword_nonword_run by assumption. reflexivity.
  - rewrite !append_String. cbn.
    destruct (is_word c); [f_equal; apply IH |].
    destruct f; [apply IH | f_equal; apply IH].
Qed.

(** X9. [slugify] does not tell separators apart: two texts that
    differ only in what stands, outside the class of letters, digits
    and underscore, between the same two parts have the same slug. *)
Theorem slugify_collides (a x y b : string) :
  x <> EmptyString -> y <> EmptyString ->
  all_chars (fun c => negb (is_word c)) x = true ->
  all_chars (fun c => negb (is_word c)) y = true ->
  slugify (a +:+ x +:+ b) = slugify (a +:+ y +:+ b).
Proof.
  intros Hx Hy Hxa Hya. apply sub_nonword_separator; assumption.
Qed.

Lemma slugify_collides_witness :
  slugify "Quantum Stuff" = slugify "Quantum: Stuff" /\
  slugify "C++ in depth" = slugify "C# in depth".
Proof.
  split.
  - apply (slugify_collides "Quantum" " " ": " "Stuff");
      (discriminate || reflexivity).
  - apply (slugify_collides "C" "++ " "# " "in depth");
      (discriminate || reflexivity).
Defined.

(** ** More on [validate_pdf] *)

Lemma prompt_once_fs (file_path : string) (m : machine) :
  let out := prompt_once file_path m in
  (fs (machine_of out) = fs m \/
   fs (machine_of out) = delete file_path (fs m)) /\
  (result_of out = Ok false -> fs (machine_of out) = fs m).
Proof.
  cbv zeta. unfold prompt_once, input, remove. msimpl.
  destruct (stdin m) as [| line rest]; [split; auto |]. msimpl.
  destruct (str_in_list (Py.lower line) YES); msimpl.
  - destruct (fs m !! file_path); cbn; split; auto; discriminate.
  - destruct (str_in_list (Py.lower line) NO); cbn; split; auto.
Qed.

Lemma prompt_loop_fs (fuel : nat) (file_path : string) :
  forall m,
    fs (machine_of (prompt_loop fuel file_path m)) = fs m \/
    fs (machine_of (prompt_loop fuel file_path m)) = delete file_path (fs m).
Proof.
  induction fuel as [| fuel IH]; intros m;
    cbn [prompt_loop]; unfold mbind, M_bind, bind;
    destruct (prompt_once_fs file_path m) as [H1 H2];
    destruct (prompt_once file_path m) as [[t1 m1] [[|] | e]];
    unfold machine_of, result_of in *; cbn [fst snd] in *; try exact H1.
  specialize (IH m1). rewrite (H2 eq_refl) in IH.
  destruct (prompt_loop fuel file_path m1) as [[t2 m2] r2]. exact IH.
Qed.

Lemma validate_pdf_fs (file_path : string) (keep rm : bool) (m : machine) :
  fs (machine_of (validate_pdf file_path keep rm m)) = fs m \/
  fs (machine_of (validate_pdf file_path keep rm m)) = delete file_path (fs m).
Proof.
  unfold validate_pdf. destruct keep; [left; reflexivity |].
  unfold open_read4. msimpl.
  destruct (fs m !! file_path) as [content |] eqn:Hfile; [| left; reflexivity].
  cbn. destruct (String.eqb (String.substring 0 4 content) "%PDF");
    [left; reflexivity |].
  destruct rm.
  - unfold remove. rewrite Hfile. right. reflexivity.
  - pose proof (prompt_loop_fs (length (stdin m)) file_path m) as H.
    destruct (prompt_loop (length (stdin m)) file_path m) as [[t m'] r].
    exact H.
Qed.

(** X10. [validate_pdf] touches no file but the one it is given: every
    other path keeps its content, no file is created, and the file
    itself is either left as it is or removed, whatever the switches,
    the state of the file system and the input of the operator.  With
    either switch set the operator is not asked. *)
Theorem validate_pdf_frame (file_path : string) (keep rm : bool) (m : machine) :
  let out := validate_pdf file_path keep rm m in
  (fs (machine_of out) = fs m \/
   fs (machine_of out) = delete file_path (fs m)) /\
  (forall p, p <> file_path -> fs (machine_of out) !! p = fs m !! p) /\
  (forall p, fs m !! p = None -> fs (machine_of out) !! p = None) /\
  (keep = true \/ rm = true -> stdin (machine_of out) = stdin m).
Proof.
  cbv zeta. pose proof (validate_pdf_fs file_path keep rm m) as H.
  split; [exact H |]. split; [| split].
  - intros p Hp. destruct H as [-> | ->]; [reflexivity |].
    apply lookup_delete_ne. congruence.
  - intros p Hp. destruct H as [-> | ->]; [exact Hp |].
    destruct (decide (file_path = p)) as [-> | Hne].
    + apply lookup_delete_eq.
    + rewrite lookup_delete_ne by exact Hne. exact Hp.
  - unfold validate_pdf. destruct keep; [reflexivity |].
    intros [? | ->]; [discriminate |].
    unfold open_read4, remove. msimpl.
    destruct (fs m !! file_path) as [content |] eqn:Hfile; [| reflexivity].
    cbn. destruct (String.eqb (String.substring 0 4 content) "%PDF");
      [reflexivity |].
    rewrite Hfile. reflexivity.
Qed.

Lemma validate_pdf_frame_witness :
  let m := Machine {[ "./X.pdf" := "<html>"; "./notes.txt" := "keep me" ]}
                   ["y"] in
  fs (machine_of (validate_pdf "./X.pdf" false false m)) !! "./notes.txt"
  = Some "keep me" /\
  stdin (machine_of (validate_pdf "./X.pdf" false true m)) = ["y"].
Proof.
  intros m.
  destruct (validate_pdf_frame "./X.pdf" false false m) as (_ & Hother & _).
  destruct (validate_pdf_frame "./X.pdf" false true m) as (_ & _ & _ & Hin).
  split.
  - rewrite Hother by discriminate. reflexivity.
  - apply Hin. right. reflexivity.
Defined.

Lemma after_answer_none (lines : list string) :
  first_valid_answer lines = None -> after_answer lines = [].
Proof.
  induction lines as [| line rest IH]; [reflexivity |]. cbn.
  destruct (answer line); [discriminate | exact IH].
Qed.

(** X11. Under the prompt policy, for a fetched file that is not a
    PDF, the operator's input is read up to and including the first
    valid answer and no further.  If the input ends before a valid
    answer, all of it has been read, the file is left in place and
    [EOFError] ends the run; with a valid answer [validate_pdf] returns
    normally. *)
Theorem validate_pdf_input (file_path content : string) (m : machine) :
  fs m !! file_path = Some content ->
  String.substring 0 4 content <> "%PDF" ->
  let out := validate_pdf file_path false false m in
  stdin (machine_of out) = after_answer (stdin m) /\
  (first_valid_answer (stdin m) = None ->
   result_of out = Raise EOFError /\ fs (machine_of out) = fs m /\
   stdin (machine_of out) = []) /\
  (first_valid_answer (stdin m) <> None -> result_of out = Ok tt).
Proof.
  destruct m as [files lines]. cbn [fs stdin]. intros Hfile Hnot. cbv zeta.
  rewrite (validate_pdf_checked _ content) by assumption.
  apply String.eqb_neq in Hnot. rewrite Hnot.
  unfold machine_of, result_of. cbn [fst snd fs stdin].
  split; [reflexivity |]. split.
  - intros Hnone. rewrite Hnone, (after_answer_none _ Hnone). auto.
  - destruct (first_valid_answer lines); [reflexivity | congruence].
Qed.

Lemma validate_pdf_input_witness :
  let m := Machine {[ "./X.pdf" := "<html>" ]} ["what?"; "maybe"] in
  validate_pdf "./X.pdf" false false m
  = ([EvOpenRead "./X.pdf"] ++ usage_round "./X.pdf" ++ usage_round "./X.pdf"
       ++ [EvInput (NONPDF "./X.pdf")],
     Machine {[ "./X.pdf" := "<html>" ]} [], Raise EOFError) /\
  stdin (machine_of (validate_pdf "./X.pdf" false false
                       (Machine {[ "./X.pdf" := "<html>" ]} ["n"; "y"])))
  = ["y"].
Proof.
  intros m. split; [reflexivity |].
  exact (proj1 (validate_pdf_input "./X.pdf" "<html>"
                  (Machine {[ "./X.pdf" := "<html>" ]} ["n"; "y"])
                  eq_refl ltac:(discriminate))).
Defined.

Lemma substring_short (content : string) (n : nat) :
  (String.length content <= n)%nat -> String.substring 0 n content = content.
Proof.
  revert n. induction content as [| c s IH]; intros n Hn.
  - destruct n; reflexivity.
  - destruct n as [| n]; [cbn in Hn; lia |]. cbn. f_equal. apply IH.
    cbn in Hn. lia.
Qed.

(** X12. A fetched file of fewer than four bytes, an empty one
    included, is never taken for a PDF: under [--remove-non-pdf] it is
    removed. *)
Theorem validate_pdf_short_file (file_path content : string) (m : machine) :
  fs m !! file_path = Some content ->
  (String.length content < 4)%nat ->
  validate_pdf file_path false true m
  = ([EvOpenRead file_path; EvRemove file_path],
     Machine (delete file_path (fs m)) (stdin m), Ok tt).
Proof.
  destruct m as [files lines]. cbn [fs stdin]. intros Hfile Hlen.
  rewrite (validate_pdf_checked _ content) by assumption.
  rewrite substring_short by lia.
  destruct (String.eqb_spec content "%PDF") as [-> | _]; [cbn in Hlen; lia |].
  reflexivity.
Qed.

Lemma validate_pdf_short_file_witness :
  validate_pdf "./X.pdf" false true (Machine {[ "./X.pdf" := EmptyString ]} [])
  = ([EvOpenRead "./X.pdf"; EvRemove "./X.pdf"],
     Machine (delete "./X.pdf" {[ "./X.pdf" := EmptyString ]}) [], Ok tt).
Proof.
  exact (validate_pdf_short_file "./X.pdf" EmptyString
           (Machine {[ "./X.pdf" := EmptyString ]} []) eq_refl
           ltac:(cbn; lia)).
Defined.

(** ** More on the download loop *)

Lemma append_inj_l (a x y : string) : a +:+ x = a +:+ y -> x = y.
Proof.
  induction a as [| c a IH]; [trivial |].
  rewrite !append_String. intros [= H]. apply IH, H.
Qed.

Lemma append_length (a b : string) :
  String.length (a +:+ b) = (String.length a + String.length b)%nat.
Proof.
  induction a as [| c a IH]; [reflexivity |].
  rewrite append_String. cbn. rewrite IH. reflexivity.
Qed.

Lemma append_inj_r (x y z : string) : x +:+ z = y +:+ z -> x = y.
Proof.
  intros H.
  assert (Hlen : String.length x = String.length y).
  { apply (f_equal String.length) in H. rewrite !append_length in H. lia. }
  revert y H Hlen. induction x as [| c x IH]; intros [| d y] H Hlen;
    try discriminate; [reflexivity |].
  rewrite !append_String in H. injection H as -> H.
  f_equal. apply IH; [exact H | cbn in Hlen; lia].
Qed.

Section Paths.

Variable args : Args.
Variable net : Network.

Lemma local_file_path_inj (slug : string) (i j : nat) :
  (1 <= i)%nat -> (1 <= j)%nat ->
  local_file_path_of args slug i = local_file_path_of args slug j -> i = j.
Proof.
  intros Hi Hj. unfold local_file_path_of.
  destruct (Nat.ltb_spec 1 i), (Nat.ltb_spec 1 j); intros E.
  - do 4 apply append_inj_l in E. apply append_inj_r in E.
    apply str_inj, E.
  - do 3 apply append_inj_l in E. discriminate.
  - do 3 apply append_inj_l in E. discriminate.
  - lia.
Qed.

(** X13. Within one entry no two links are written to the same path:
    the paths of the ordinals 1, 2, 3, ... are pairwise different, so a
    later link of the entry never overwrites the file of an earlier
    one. *)
Theorem entry_paths_distinct (slug : string) (n : nat) :
  List.NoDup (map (local_file_path_of args slug) (seq 1 n)) /\
  (forall i j, (1 <= i)%nat -> (1 <= j)%nat -> i <> j ->
               local_file_path_of args slug i <> local_file_path_of args slug j).
Proof.
  split.
  - apply NoDup_map_NoDup_ForallPairs; [| apply seq_NoDup].
    intros i j Hi Hj. apply in_seq in Hi, Hj.
    apply local_file_path_inj; lia.
  - intros i j Hi Hj Hne H. apply Hne. eapply local_file_path_inj; eassumption.
Qed.

End Paths.

Lemma entry_paths_distinct_witness :
  local_file_path_of DownloadExample.args "X" 1
  <> local_file_path_of DownloadExample.args "X" 12.
Proof.
  apply (proj2 (entry_paths_distinct DownloadExample.args "X" 0)); lia.
Defined.

(** ** Runs without download *)

Section Listing.

Variable datetime : Type.
Variable strptime : string -> string -> result datetime.
Variable strftime : datetime -> string -> string.
Variable args : Args.
Variable net : Network.

(** A computation is quiet at [m] when it leaves the machine as it is
    and emits events of the listing only. *)
Lemma quiet_bind {A B} (c : M A) (k : A -> M B) (m : machine) :
  machine_of (c m) = m /\ forallb listing_event (trace_of (c m)) = true ->
  (forall a, machine_of (k a m) = m /\
             forallb listing_event (trace_of (k a m)) = true) ->
  machine_of ((c ≫= k) m) = m /\
  forallb listing_event (trace_of ((c ≫= k) m)) = true.
Proof.
  unfold mbind, M_bind, bind, machine_of, trace_of.
  destruct (c m) as [[t1 m1] [a | e]]; cbn; intros [-> Ht1] Hk; [| auto].
  specialize (Hk a). destruct (k a m) as [[t2 m2] r2]. cbn in Hk |- *.
  destruct Hk as [-> Ht2]. rewrite forallb_app, Ht1, Ht2. auto.
Qed.

Lemma quiet_lift {A} (r : result A) (m : machine) :
  machine_of (lift r m) = m /\ forallb listing_event (trace_of (lift r m)) = true.
Proof. split; reflexivity. Qed.

Lemma quiet_bind_lift {A B} (r : result A) (k : A -> M B) (m : machine) :
  (forall a, r = Ok a ->
             machine_of (k a m) = m /\
             forallb listing_event (trace_of (k a m)) = true) ->
  machine_of ((lift r ≫= k) m) = m /\
  forallb listing_event (trace_of ((lift r ≫= k) m)) = true.
Proof.
  unfold mbind, M_bind, bind, lift, machine_of, trace_of.
  destruct r as [a | e]; cbn; intros Hk; [| auto].
  specialize (Hk a eq_refl). destruct (k a m) as [[t2 m2] r2]. exact Hk.
Qed.

Lemma render_and_download_quiet (s : Scan) (k : nat) (m : machine) :
  download args = false ->
  machine_of (render_and_download args net s k m) = m /\
  forallb listing_event (trace_of (render_and_download args net s k m)) = true.
Proof.
  intros Hd. unfold render_and_download. cbv zeta.
  do 5 (apply quiet_bind_lift; intros ? _).
  apply quiet_bind; [split; reflexivity | intros _].
  apply quiet_bind; [split; reflexivity | intros _].
  apply quiet_bind_lift. intros go Hgo.
  unfold selected in Hgo. rewrite Hd in Hgo. injection Hgo as <-.
  split; reflexivity.
Qed.

Lemma process_entry_quiet (st : Vars * nat) (entry : Element) (m : machine) :
  download args = false ->
  machine_of (process_entry datetime strptime strftime args net st entry m) = m /\
  forallb listing_event
          (trace_of (process_entry datetime strptime strftime args net st entry m))
  = true.
Proof.
  intros Hd. unfold process_entry.
  apply quiet_bind_lift. intros s _. cbv zeta.
  apply quiet_bind_lift. intros [|] _; [split; reflexivity |].
  apply quiet_bind_lift. intros [|] _; [split; reflexivity |].
  apply quiet_bind; [split; reflexivity | intros _].
  apply quiet_bind; [apply render_and_download_quiet, Hd | intros _].
  split; reflexivity.
Qed.

Lemma entries_loop_quiet (entries : list Element) :
  download args = false ->
  forall st m,
    machine_of (entries_loop datetime strptime strftime args net st entries m) = m /\
    forallb listing_event
            (trace_of (entries_loop datetime strptime strftime args net st entries m))
    = true.
Proof.
  intros Hd. induction entries as [| entry rest IH]; intros st m.
  - split; reflexivity.
  - cbn [entries_loop].
    apply quiet_bind; [apply process_entry_quiet, Hd | intros st'; apply IH].
Qed.

(** X15. Without [--download] a run only queries the feed and prints
    the listing: it retrieves no link, opens and removes no file and
    asks the operator nothing, so the file system and the pending
    input are as before, whatever the other options, a download
    selection that does not parse included. *)
Theorem listing_only (m : machine) :
  download args = false ->
  let out := main datetime strptime strftime args net m in
  machine_of out = m /\
  forallb listing_event (trace_of out) = true /\
  retrieves (trace_of out) = [].
Proof.
  intros Hd. cbv zeta.
  assert (H : machine_of (main datetime strptime strftime args net m) = m /\
              forallb listing_event
                      (trace_of (main datetime strptime strftime args net m))
              = true).
  { unfold main.
    apply quiet_bind; [split; reflexivity | intros _].
    apply quiet_bind_lift. intros root _. cbv zeta.
    apply entries_loop_quiet, Hd. }
  destruct H as [Hm Ht]. split; [exact Hm |]. split; [exact Ht |].
  clear Hm. induction (trace_of _) as [| e t IH]; [reflexivity |].
  cbn in Ht. apply andb_true_iff in Ht as [He Ht].
  destruct e; try discriminate; cbn; apply IH, Ht.
Qed.

End Listing.

Lemma listing_only_witness :
  let args := mkArgs None None false "{pub}-{auth}-{title}-{id}" "."
                     (Some "oops") false false in
  let m := Machine {[ "./notes.txt" := "keep me" ]} ["y"] in
  machine_of (Sample.run args RunExample.net m) = m /\
  retrieves (trace_of (Sample.run args RunExample.net m)) = [].
Proof.
  intros args m.
  destruct (listing_only Sample.datetime Sample.strptime Sample.strftime
              args RunExample.net m eq_refl) as (Hm & _ & Hr).
  split; [exact Hm | exact Hr].
Defined.

Section Keeping.

Variable args : Args.
Variable net : Network.
Hypothesis keeping : keep_non_pdf args = true.

Lemma download_links_keep_frame (slug : string) (links : list string) :
  forall (k : nat) (m : machine) (p : string),
    (forall j, (k <= j)%nat -> p <> local_file_path_of args slug j) ->
    fs (machine_of (download_links args net slug k links m)) !! p = fs m !! p.
Proof.
  induction links as [| link rest IH]; intros k m p Hp; [reflexivity |].
  rewrite download_links_step. cbv zeta. rewrite keeping.
  destruct (retrieve net link) as [body | e].
  - cbn [validate_pdf ret]. out_simpl.
    rewrite IH by (intros j Hj; apply Hp; lia).
    cbn [fs]. apply lookup_insert_ne. apply not_eq_sym, Hp. lia.
  - destruct (exn_eqb e HTTPError); out_simpl; [| reflexivity].
    apply IH. intros j Hj. apply Hp. lia.
Qed.

(** X16. Under [--keep-non-pdf], when the loop over the links of an
    entry ends normally, the body of every link that was retrieved is
    in the file system at the path of its ordinal, PDF or not: no
    later link of the entry has overwritten it and nothing has
    removed it. *)
Theorem kept_downloads_stored (slug : string) (links : list string)
        (m : machine) (i : nat) (link body : string) :
  result_of (download_links args net slug 1 links m) = Ok tt ->
  links !! i = Some link ->
  retrieve net link = Ok body ->
  fs (machine_of (download_links args net slug 1 links m))
    !! local_file_path_of args slug (1 + i) = Some body.
Proof.
  assert (G : forall links k m i,
             (1 <= k)%nat ->
             result_of (download_links args net slug k links m) = Ok tt ->
             links !! i = Some link ->
             fs (machine_of (download_links args net slug k links m))
               !! local_file_path_of args slug (k + i) = Some body
             \/ retrieve net link <> Ok body).
  { clear links m i. intros links.
    induction links as [| link0 rest IH]; intros k m i Hk Hok Hi;
      [discriminate |].
    revert Hok. rewrite download_links_step. cbv zeta. rewrite keeping.
    destruct (retrieve net link0) as [body0 | e] eqn:H0.
    - cbn [validate_pdf ret]. out_simpl. intros Hok.
      destruct i as [| i].
      + injection Hi as ->.
        destruct (decide (body0 = body)) as [-> | Hne];
          [| right; congruence].
        left. rewrite Nat.add_0_r, download_links_keep_frame.
        * cbn [fs]. apply lookup_insert_eq.
        * intros j Hj E. apply local_file_path_inj in E; lia.
      + replace (k + S i)%nat with (S k + i)%nat by lia.
        apply IH; [lia | exact Hok | exact Hi].
    - destruct (exn_eqb e HTTPError); out_simpl; [| discriminate].
      intros Hok. destruct i as [| i].
      + injection Hi as ->. right. congruence.
      + replace (k + S i)%nat with (S k + i)%nat by lia.
        apply IH; [lia | exact Hok | exact Hi]. }
  intros Hok Hi Hbody.
  destruct (G links 1%nat m i (le_n 1) Hok Hi) as [H | H];
    [exact H | contradiction].
Qed.

End Keeping.

Lemma kept_downloads_stored_witness :
  fs (machine_of (download_links RunExample.keeping DownloadExample.net "X" 1
                                 ["d"; "a"; "b"] RunExample.m0))
    !! "./X.pdf" = Some "<html>withdrawn</html>" /\
  fs (machine_of (download_links RunExample.keeping DownloadExample.net "X" 1
                                 ["d"; "a"; "b"] RunExample.m0))
    !! "./X--3.pdf" = Some "%PDF-1.5 body".
Proof.
  split.
  - exact (kept_downloads_stored RunExample.keeping DownloadExample.net eq_refl
             "X" ["d"; "a"; "b"] RunExample.m0 0 "d" "<html>withdrawn</html>"
             eq_refl eq_refl eq_refl).
  - exact (kept_downloads_stored RunExample.keeping DownloadExample.net eq_refl
             "X" ["d"; "a"; "b"] RunExample.m0 2 "b" "%PDF-1.5 body"
             eq_refl eq_refl eq_refl).
Defined.

(** ** Links, identifiers *)

Lemma In_hrefs (keep : Element -> bool) (l : list Element) (h : string) :
  In h (hrefs keep l) <->
  exists e, In e l /\ get e "href" = Some h /\ h <> EmptyString /\ keep e = true.
Proof.
  unfold hrefs. rewrite <- list_elem_of_In, list_elem_of_omap.
  split.
  - intros (e & He & Hf). exists e. rewrite <- list_elem_of_In.
    split; [exact He |].
    destruct (get e "href") as [h' |] eqn:Hg; cbn in Hf; [| discriminate].
    destruct (String.eqb_spec h' EmptyString) as [-> | Hne]; [discriminate |].
    cbn in Hf. destruct (keep e); [| discriminate].
    injection Hf as ->. auto.
  - intros (e & He & Hg & Hne & Hk). exists e. rewrite list_elem_of_In.
    split; [exact He |]. rewrite Hg. cbn.
    destruct (String.eqb_spec h EmptyString) as [-> | _]; [congruence |].
    cbn. rewrite Hk. reflexivity.
Qed.

Lemma hrefs_length (l : list Element) :
  (length (pdf_links_of l) + length (other_links_of l))%nat
  = length (List.filter (fun e => truthy (get e "href")) l).
Proof.
  unfold pdf_links_of, other_links_of, hrefs.
  induction l as [| e l IH]; [reflexivity |].
  cbn [omap list_omap List.filter].
  destruct (truthy (get e "href")) eqn:Ht.
  - destruct (get e "href") as [h |]; [| discriminate].
    destruct (is_pdf_link e); cbn in IH |- *; lia.
  - cbn. exact IH.
Qed.

(** X17. The links of an entry are sorted without loss: a link element
    with a non-empty [href] is listed once, among the PDF links when
    its [title] is [pdf] or its [type] is [application/pdf] and among
    the other links if not; an element without [href], or with an empty
    one, is listed nowhere. *)
Theorem links_sorted (l : list Element) (h : string) :
  (In h (pdf_links_of l) <->
   exists e, In e l /\ get e "href" = Some h /\ h <> EmptyString /\
             is_pdf_link e = true) /\
  (In h (other_links_of l) <->
   exists e, In e l /\ get e "href" = Some h /\ h <> EmptyString /\
             is_pdf_link e = false) /\
  (length (pdf_links_of l) + length (other_links_of l))%nat
  = length (List.filter (fun e => truthy (get e "href")) l).
Proof.
  split; [apply In_hrefs |]. split; [| apply hrefs_length].
  unfold other_links_of. rewrite In_hrefs.
  split; intros (e & He & Hg & Hne & Hk); exists e; repeat split; auto.
  - apply negb_true_iff, Hk.
  - apply negb_true_iff, Hk.
Qed.

Lemma links_sorted_witness :
  In "b" (pdf_links_of [Sample.page_link "p"; Sample.pdf_link "b"]) /\
  ~ In "p" (pdf_links_of [Sample.page_link "p"; Sample.pdf_link "b"]).
Proof.
  destruct (links_sorted [Sample.page_link "p"; Sample.pdf_link "b"] "b")
    as ([_ Hb] & _ & _).
  destruct (links_sorted [Sample.page_link "p"; Sample.pdf_link "b"] "p")
    as ([Hp _] & _ & _).
  split.
  - apply Hb. exists (Sample.pdf_link "b").
    split; [right; left; reflexivity |].
    split; [reflexivity |]. split; [discriminate | reflexivity].
  - intros H. apply Hp in H. destruct H as (e & He & Hh & _ & Hpdf).
    destruct He as [<- | [<- | []]]; [discriminate Hpdf | discriminate Hh].
Defined.

Lemma last_part_app (l1 l2 : list string) :
  l2 <> [] -> last_part (l1 ++ l2) = last_part l2.
Proof.
  intros H2. induction l1 as [| p l1 IH]; [reflexivity |].
  cbn [app]. destruct (l1 ++ l2) as [| q r] eqn:E.
  - destruct l1; [cbn in E; congruence | discriminate].
  - exact IH.
Qed.

Section Identifier.

Variable datetime : Type.
Variable strptime : string -> string -> result datetime.
Variable strftime : datetime -> string -> string.

(** X18. The identifier kept for an entry is what follows the last
    slash of the [id] text: it holds no slash, and whatever stands
    before the last slash is dropped, so that two identifiers that
    differ only there (as the old ones with an archive prefix,
    [hep-th/9901001] and [math/9901001]) are the same to the run. *)
Theorem identifier_after_last_slash (s : Scan) (child : Element)
        (pre x : string) :
  kind_of_tag (tag child) = KId ->
  text child = Some (pre +:+ String "/" x) ->
  all_chars (fun c => negb (Ascii.eqb c "/")) x = true ->
  exists s', scan_child datetime strptime strftime s child = Ok s' /\
             id_ (vars s') = Some x.
Proof.
  intros Hk Ht Hx. unfold scan_child. rewrite Hk, Ht.
  eexists. split; [reflexivity |]. cbn [vars id_]. f_equal.
  rewrite split_app, last_part_app by apply split_nonempty.
  rewrite split_without_sep by exact Hx. reflexivity.
Qed.

End Identifier.

Lemma identifier_after_last_slash_witness :
  exists s', scan_child Sample.datetime Sample.strptime Sample.strftime
                        (mkScan unbound [] [])
                        (Sample.leaf "id" "http://arxiv.org/abs/hep-th/9901001v1")
             = Ok s' /\
             id_ (vars s') = Some "9901001v1".
Proof.
  apply (identifier_after_last_slash Sample.datetime Sample.strptime
           Sample.strftime (mkScan unbound [] [])
           (Sample.leaf "id" "http://arxiv.org/abs/hep-th/9901001v1")
           "http://arxiv.org/abs/hep-th" "9901001v1"); reflexivity.
Defined.

(** ** More on the template *)

Lemma format_literal_prefix (kw : list (string * string)) (pre s : string) :
  all_chars no_brace pre = true ->
  Format.format_from kw Format.Lit (pre +:+ s)
  = (r ← Format.format_from kw Format.Lit s; Ok (pre +:+ r)).
Proof.
  intros Hpre. induction pre as [| c pre IH].
  - rewrite append_empty_l.
    destruct (Format.format_from kw Format.Lit s); reflexivity.
  - cbn in Hpre. apply andb_true_iff in Hpre as [Hc Hpre].
    unfold no_brace in Hc. apply andb_true_iff in Hc as [H1 H2].
    apply negb_true_iff in H1, H2.
    rewrite append_String. cbn [Format.format_from]. rewrite H1, H2.
    rewrite (IH Hpre).
    destruct (Format.format_from kw Format.Lit s); reflexivity.
Qed.

(** X19. A template without braces is rendered as itself, whatever the
    fields of the entry: every entry gets the same file name. *)
Theorem format_without_braces (template : string) (kw : list (string * string)) :
  all_chars no_brace template = true ->
  Format.format template kw = Ok template.
Proof.
  intros H. unfold Format.format.
  rewrite <- (append_empty_r template) at 1.
  rewrite (format_literal_prefix kw template EmptyString H).
  cbn. rewrite append_empty_r. reflexivity.
Qed.

Lemma format_without_braces_witness :
  Format.format "paper" [("id", "2309.06314"); ("pub", "2023")] = Ok "paper".
Proof. apply format_without_braces. reflexivity. Defined.

Lemma format_open_field (kw : list (string * string)) (name post : string) :
  all_chars plain_char name = true ->
  Format.format_from kw Format.Lit (String "{" (name +:+ String "}" post))
  = (v ← Format.resolve kw name;
     r ← Format.format_from kw Format.Lit post;
     Ok (v +:+ r)).
Proof.
  intros Hname. cbn [Format.format_from]. cbn [Ascii.eqb Bool.eqb].
  destruct name as [| c name].
  - rewrite append_empty_l. reflexivity.
  - cbn in Hname. apply andb_true_iff in Hname as [Hc Hname].
    unfold plain_char, no_brace in Hc.
    apply andb_true_iff in Hc as [Hc H3]. apply andb_true_iff in Hc as [H1 H2].
    apply negb_true_iff in H1, H2, H3.
    rewrite append_String. cbn [Format.format_from]. rewrite H1, H2, H3.
    rewrite (format_field_name kw name Hname). reflexivity.
Qed.

Lemma format_field (kw : list (string * string)) (pre name post : string) :
  all_chars no_brace pre = true ->
  all_chars plain_char name = true ->
  Format.format (pre +:+ String "{" (name +:+ String "}" post)) kw
  = (v ← Format.resolve kw name;
     r ← Format.format post kw;
     Ok (pre +:+ v +:+ r)).
Proof.
  intros Hpre Hname. unfold Format.format.
  rewrite (format_literal_prefix kw pre _ Hpre).
  rewrite (format_open_field kw name post Hname).
  destruct (Format.resolve kw name); [| reflexivity]. rsimpl.
  destruct (Format.format_from kw Format.Lit post); reflexivity.
Qed.

(** X20. A replacement field with a plain name, after literal text
    without braces, is replaced by the value of that name, and the
    rest of the template is rendered after it: an unknown name raises
    [KeyError] whatever follows it, and otherwise the result, or the
    error, is that of the rest. *)
Theorem format_placeholder (kw : list (string * string))
        (pre name post : string) :
  all_chars no_brace pre = true ->
  all_chars plain_char name = true ->
  Format.all_digits name = false ->
  match Format.kw_lookup kw name with
  | None =>
      Format.format (pre +:+ String "{" (name +:+ String "}" post)) kw
      = Raise KeyError
  | Some v =>
      Format.format (pre +:+ String "{" (name +:+ String "}" post)) kw
      = (r ← Format.format post kw; Ok (pre +:+ v +:+ r))
  end.
Proof.
  intros Hpre Hname Hd. rewrite (format_field kw pre name post Hpre Hname).
  unfold Format.resolve. rewrite Hd.
  destruct (Format.kw_lookup kw name); reflexivity.
Qed.

Lemma format_placeholder_witness :
  Format.format "arXiv-{ver}.{id" [("id", "2309.06314")] = Raise KeyError /\
  Format.format "arXiv-{id}" [("id", "2309.06314")] = Ok "arXiv-2309.06314".
Proof.
  split.
  - exact (format_placeholder [("id", "2309.06314")] "arXiv-" "ver" ".{id"
             eq_refl eq_refl eq_refl).
  - exact (format_placeholder [("id", "2309.06314")] "arXiv-" "id" EmptyString
             eq_refl eq_refl eq_refl).
Defined.

Lemma digits_plain (name : string) :
  Format.all_digits name = true -> all_chars plain_char name = true.
Proof.
  unfold Format.all_digits. induction name as [| c name IH]; [reflexivity |].
  cbn. rewrite !andb_true_iff. intros [Hc Hn]. split; [| apply IH, Hn].
  revert Hc. clear.
  destruct c as [[|] [|] [|] [|] [|] [|] [|] [|]];
    first [discriminate | reflexivity].
Qed.

(** X21. A template with an empty or a numbered field, as [{}] or
    [{0}], is never rendered: the script passes its values by name
    only, so the field raises [IndexError] when its number is at most
    9223372036854775807, the largest index of a 64-bit build (an
    empty field counts as 0), and [ValueError] when it is larger,
    whatever the entry and the rest of the template. *)
Theorem format_numbered_field (kw : list (string * string))
        (pre name post : string) :
  all_chars no_brace pre = true ->
  Format.all_digits name = true ->
  Format.format (pre +:+ String "{" (name +:+ String "}" post)) kw
  = (if Format.number_of name <=? 9223372036854775807
     then Raise IndexError else Raise ValueError) /\
  (name = EmptyString ->
   Format.format (pre +:+ String "{" (name +:+ String "}" post)) kw
   = Raise IndexError).
Proof.
  intros Hpre Hd.
  assert (E : Format.format (pre +:+ String "{" (name +:+ String "}" post)) kw
              = if Format.number_of name <=? 9223372036854775807
                then Raise IndexError else Raise ValueError).
  { rewrite (format_field kw pre name post Hpre (digits_plain name Hd)).
    unfold Format.resolve. rewrite Hd.
    change Format.max_index with 9223372036854775807.
    rewrite Z.gtb_ltb.
    destruct (Z.ltb_spec 9223372036854775807 (Format.number_of name)),
             (Z.leb_spec (Format.number_of name) 9223372036854775807);
      try reflexivity; lia. }
  split; [exact E |]. intros ->. exact E.
Qed.

Lemma format_numbered_field_witness :
  Format.format "{}-{id}" [("id", "2309.06314")] = Raise IndexError /\
  Format.format "v{9223372036854775807}" [("id", "2309.06314")]
  = Raise IndexError /\
  Format.format "v{9223372036854775808}" [("id", "2309.06314")]
  = Raise ValueError.
Proof.
  split; [| split].
  - exact (proj2 (format_numbered_field [("id", "2309.06314")] EmptyString
                    EmptyString "-{id}" eq_refl eq_refl) eq_refl).
  - exact (proj1 (format_numbered_field [("id", "2309.06314")] "v"
                    "9223372036854775807" EmptyString eq_refl eq_refl)).
  - exact (proj1 (format_numbered_field [("id", "2309.06314")] "v"
                    "9223372036854775808" EmptyString eq_refl eq_refl)).
Defined.

Lemma make_slug_bound (template i t py uy : string) (pt ut : option string)
      (names : list string) :
  make_slug template
            (mkVars (Some i) (Some (Some t)) pt (Some py) ut (Some uy))
            (map Some names)
  = Format.format template
      [("id", i); ("auth", Py.join "-" (map slugify names));
       ("title", slugify t); ("pub", py); ("updt", uy)].
Proof.
  unfold make_slug. cbn [title id_ publish_year update_year name as_str].
  unfold mbind, result_bind, rbind. rewrite mapM_as_str_Some. reflexivity.
Qed.

(** X22. With the template of the command line's default,
    [{pub}-{auth}-{title}-{id}], the slug of an entry whose names are
    all bound is the publish year, the joined author slugs, the title
    slug and the identifier, hyphens between them; rendering it cannot
    fail. *)
Theorem default_slug (i t py uy : string) (pt ut : option string)
        (names : list string) :
  make_slug "{pub}-{auth}-{title}-{id}"
            (mkVars (Some i) (Some (Some t)) pt (Some py) ut (Some uy))
            (map Some names)
  = Ok (py +:+ "-" +:+ Py.join "-" (map slugify names) +:+ "-"
           +:+ slugify t +:+ "-" +:+ i).
Proof.
  rewrite make_slug_bound.
  set (auth := Py.join "-" (map slugify names)).
  set (kw := [("id", i); ("auth", auth); ("title", slugify t); ("pub", py);
              ("updt", uy)]).
  change "{pub}-{auth}-{title}-{id}"
    with (EmptyString +:+ String "{" ("pub" +:+ String "}" "-{auth}-{title}-{id}")).
  rewrite format_field by reflexivity.
  change "-{auth}-{title}-{id}"
    with ("-" +:+ String "{" ("auth" +:+ String "}" "-{title}-{id}")).
  rewrite format_field by reflexivity.
  change "-{title}-{id}"
    with ("-" +:+ String "{" ("title" +:+ String "}" "-{id}")).
  rewrite format_field by reflexivity.
  change "-{id}" with ("-" +:+ String "{" ("id" +:+ String "}" EmptyString)).
  rewrite format_field by reflexivity.
  change (Format.resolve kw "pub") with (Ok (A := string) py).
  change (Format.resolve kw "auth") with (Ok (A := string) auth).
  change (Format.resolve kw "title") with (Ok (A := string) (slugify t)).
  change (Format.resolve kw "id") with (Ok (A := string) i).
  change (Format.format EmptyString kw) with (Ok (A := string) EmptyString).
  unfold mbind, result_bind, rbind.
  rewrite append_empty_r, append_empty_l. reflexivity.
Qed.

Lemma mapM_as_str_None (names : list (option string)) :
  In None names -> mapM as_str names = Raise TypeError.
Proof.
  induction names as [| [n |] names IH]; [contradiction | |].
  - intros [H | H]; [discriminate |]. cbn. rewrite (IH H). reflexivity.
  - intros _. reflexivity.
Qed.

(** X23. The slug is not rendered for an entry with an element left
    empty: a [title] element without text raises [TypeError], and so
    does an author [name] without text when the title is a text, both
    whatever the template; an unbound title raises [NameError]. *)
Theorem make_slug_errors (template : string) (v : Vars)
        (names : list (option string)) :
  (title v = Some None -> make_slug template v names = Raise TypeError) /\
  (title v = None -> make_slug template v names = Raise NameError) /\
  (forall t, title v = Some (Some t) -> In None names ->
             make_slug template v names = Raise TypeError).
Proof.
  unfold make_slug. split; [| split].
  - intros ->. reflexivity.
  - intros ->. reflexivity.
  - intros t -> Hin. pose proof (mapM_as_str_None names Hin) as Hm.
    unfold mbind, result_bind, rbind in *. cbn [name as_str].
    rewrite Hm. reflexivity.
Qed.

Lemma make_slug_errors_witness :
  make_slug "{id}" (mkVars (Some "1") (Some None) None None None None) []
  = Raise TypeError /\
  make_slug "{id}" (mkVars (Some "1") (Some (Some "T")) None None None None)
            [Some "A"; None]
  = Raise TypeError.
Proof.
  split.
  - apply (make_slug_errors "{id}"
             (mkVars (Some "1") (Some None) None None None None) []).
    reflexivity.
  - apply (proj2 (proj2 (make_slug_errors "{id}"
             (mkVars (Some "1") (Some (Some "T")) None None None None)
             [Some "A"; None])) "T"); [reflexivity | right; left; reflexivity].
Defined.

(** ** The download of an entry *)

Lemma listing_no_retrieves (t : list event) :
  forallb listing_event t = true -> retrieves t = [].
Proof.
  induction t as [| e t IH]; [reflexivity |].
  cbn. intros Ht. apply andb_true_iff in Ht as [He Ht].
  destruct e; try discriminate; cbn; apply IH, Ht.
Qed.

Section Download.

Variable args : Args.
Variable net : Network.

(** X24. An entry that the guard of the download does not select, or
    for which the guard fails, is only listed: none of its links is
    retrieved, and the file system and the pending input are as
    before. *)
Theorem unselected_entry_untouched (s : Scan) (k : nat) (m : machine) :
  selected args k <> Ok true ->
  let out := render_and_download args net s k m in
  machine_of out = m /\ retrieves (trace_of out) = [].
Proof.
  intros Hsel. cbv zeta.
  assert (H : machine_of (render_and_download args net s k m) = m /\
              forallb listing_event
                      (trace_of (render_and_download args net s k m)) = true).
  { unfold render_and_download. cbv zeta.
    do 5 (apply quiet_bind_lift; intros ? _).
    apply quiet_bind; [split; reflexivity | intros _].
    apply quiet_bind; [split; reflexivity | intros _].
    apply quiet_bind_lift. intros [|] Hgo; [contradiction |].
    split; reflexivity. }
  destruct H as [Hm Ht]. split; [exact Hm | apply listing_no_retrieves, Ht].
Qed.

Lemma validate_pdf_other_path (file_path p : string) (keep rm : bool)
      (m : machine) :
  p <> file_path ->
  fs (machine_of (validate_pdf file_path keep rm m)) !! p = fs m !! p.
Proof.
  intros Hp. destruct (validate_pdf_fs file_path keep rm m) as [-> | ->];
    [reflexivity |].
  apply lookup_delete_ne. congruence.
Qed.

Lemma download_links_frame (slug : string) (links : list string) :
  forall (k : nat) (m : machine) (p : string),
    (forall j, (k <= j < k + length links)%nat ->
               p <> local_file_path_of args slug j) ->
    fs (machine_of (download_links args net slug k links m)) !! p = fs m !! p.
Proof.
  induction links as [| link rest IH]; intros k m p Hp; [reflexivity |].
  cbn [length] in Hp.
  rewrite download_links_step. cbv zeta.
  destruct (retrieve net link) as [body | e].
  - pose proof (validate_pdf_other_path
                  (local_file_path_of args slug k) p
                  (keep_non_pdf args) (remove_non_pdf args)
                  (Machine (<[local_file_path_of args slug k := body]> (fs m))
                           (stdin m))
                  (Hp k ltac:(lia))) as Hv.
    destruct (validate_pdf _ _ _ _) as [[t m2] [[] | e]]; out_simpl;
      unfold machine_of in Hv; cbn [fst snd fs] in Hv.
    + rewrite IH by (intros j Hj; apply Hp; lia).
      rewrite Hv. apply lookup_insert_ne. apply not_eq_sym, Hp. lia.
    + rewrite Hv. apply lookup_insert_ne. apply not_eq_sym, Hp. lia.
  - destruct (exn_eqb e HTTPError); out_simpl; [| reflexivity].
    apply IH. intros j Hj. apply Hp. lia.
Qed.

(** X25. The download of an entry touches the paths of its own
    ordinals only: a path that is none of them holds after the loop
    what it held before, whatever the policy for files that are not
    PDFs, the outcomes of the fetches and the answers of the
    operator. *)
Theorem download_touches_own_paths (slug : string) (links : list string)
        (m : machine) (p : string) :
  (forall j, (1 <= j <= length links)%nat ->
             p <> local_file_path_of args slug j) ->
  fs (machine_of (download_links args net slug 1 links m)) !! p = fs m !! p.
Proof.
  intros Hp. apply download_links_frame. intros j Hj. apply Hp. lia.
Qed.

End Download.

Lemma unselected_entry_untouched_witness :
  let args := mkArgs None None true "{id}" "." (Some "2-3") false false in
  let s := mkScan (mkVars (Some "2309.06314") (Some (Some "Quantum Stuff"))
                          (Some "then") (Some "2023") (Some "then")
                          (Some "2023"))
                  [Sample.pdf_link "b"] [Some "Art Ficial"] in
  machine_of (render_and_download args DownloadExample.net s 1
                                  DownloadExample.m0) = DownloadExample.m0 /\
  retrieves (trace_of (render_and_download args DownloadExample.net s 1
                                           DownloadExample.m0)) = [].
Proof.
  cbv zeta.
  apply (unselected_entry_untouched
           (mkArgs None None true "{id}" "." (Some "2-3") false false)).
  vm_compute. discriminate.
Defined.

Lemma download_touches_own_paths_witness :
  let m := Machine {[ "./notes.txt" := "keep me" ]} ["y"; "y"] in
  fs (machine_of (download_links RunExample.downloading DownloadExample.net
                                 "X" 1 ["d"; "a"; "d"] m))
    !! "./notes.txt" = Some "keep me".
Proof.
  cbv zeta.
  rewrite (download_touches_own_paths RunExample.downloading
             DownloadExample.net "X" ["d"; "a"; "d"]).
  - reflexivity.
  - intros j Hj. cbn [length] in Hj.
    assert (E : j = 1%nat \/ j = 2%nat \/ j = 3%nat) by lia.
    destruct E as [-> | [-> | ->]]; vm_compute; discriminate.
Defined.

Section Removing.

Variable args : Args.
Variable net : Network.
Hypothesis removing : remove_non_pdf args = true.
Hypothesis not_keeping : keep_non_pdf args = false.

Lemma validate_pdf_removing (path body : string) (files : gmap string string)
      (lines : list string) :
  validate_pdf path false true (Machine (<[path := body]> files) lines)
  = if String.eqb (String.substring 0 4 body) "%PDF"
    then ([EvOpenRead path], Machine (<[path := body]> files) lines, Ok tt)
    else ([EvOpenRead path; EvRemove path],
          Machine (delete path (<[path := body]> files)) lines, Ok tt).
Proof.
  rewrite (validate_pdf_checked path body) by apply lookup_insert_eq.
  reflexivity.
Qed.

Lemma download_links_removing_stdin (slug : string) (links : list string) :
  forall (k : nat) (m : machine),
    stdin (machine_of (download_links args net slug k links m)) = stdin m.
Proof.
  induction links as [| link rest IH]; intros k m; [reflexivity |].
  rewrite download_links_step. cbv zeta. rewrite removing, not_keeping.
  destruct (retrieve net link) as [body | e].
  - rewrite validate_pdf_removing.
    destruct (String.eqb _ _); out_simpl; rewrite IH; reflexivity.
  - destruct (exn_eqb e HTTPError); out_simpl; [apply IH | reflexivity].
Qed.

(** X26. Under [--remove-non-pdf] the operator is never asked, and
    when the loop over the links of an entry ends normally, the path
    of every link that was retrieved holds the body if it starts with
    [%PDF] and holds nothing otherwise: no file that is not a PDF is
    left behind by the entry. *)
Theorem removed_downloads (slug : string) (links : list string)
        (m : machine) :
  let out := download_links args net slug 1 links m in
  stdin (machine_of out) = stdin m /\
  (result_of out = Ok tt ->
   forall (i : nat) (link body : string),
     links !! i = Some link ->
     retrieve net link = Ok body ->
     fs (machine_of out) !! local_file_path_of args slug (1 + i)
     = if String.eqb (String.substring 0 4 body) "%PDF"
       then Some body else None).
Proof.
  cbv zeta. split; [apply download_links_removing_stdin |].
  assert (G : forall links k m i link body,
             (1 <= k)%nat ->
             links !! i = Some link ->
             retrieve net link = Ok body ->
             result_of (download_links args net slug k links m) = Ok tt ->
             fs (machine_of (download_links args net slug k links m))
               !! local_file_path_of args slug (k + i)
             = if String.eqb (String.substring 0 4 body) "%PDF"
               then Some body else None).
  { clear links m. intros links.
    induction links as [| link0 rest IH]; intros k m i link body Hk Hi Hbody;
      [discriminate |].
    rewrite download_links_step. cbv zeta. rewrite removing, not_keeping.
    destruct i as [| i].
    - injection Hi as ->. rewrite Hbody, validate_pdf_removing.
      rewrite Nat.add_0_r.
      destruct (String.eqb _ _); out_simpl; intros _;
        (rewrite download_links_frame;
         [| intros j Hj E; apply local_file_path_inj in E; lia]);
        cbn [fs]; [apply lookup_insert_eq | apply lookup_delete_eq].
    - replace (k + S i)%nat with (S k + i)%nat by lia.
      destruct (retrieve net link0) as [body0 | e].
      + rewrite validate_pdf_removing.
        destruct (String.eqb _ _); out_simpl; intros Hok;
          apply (IH _ _ _ link body); (lia || assumption).
      + destruct (exn_eqb e HTTPError); out_simpl; [| discriminate].
        intros Hok. apply (IH _ _ _ link body); (lia || assumption). }
  intros Hok i link body Hi Hbody.
  apply (G links 1%nat m i link body (le_n 1) Hi Hbody Hok).
Qed.

End Removing.

Lemma removed_downloads_witness :
  let out := download_links RunExample.removing DownloadExample.net "X" 1
                            ["d"; "a"; "b"] (Machine ∅ ["n"]) in
  stdin (machine_of out) = ["n"] /\
  fs (machine_of out) !! "./X.pdf" = None /\
  fs (machine_of out) !! "./X--3.pdf" = Some "%PDF-1.5 body".
Proof.
  cbv zeta.
  destruct (removed_downloads RunExample.removing DownloadExample.net
              eq_refl eq_refl "X" ["d"; "a"; "b"] (Machine ∅ ["n"]))
    as [Hin Hfs].
  split; [exact Hin |]. split.
  - exact (Hfs eq_refl 0%nat "d" "<html>withdrawn</html>" eq_refl eq_refl).
  - exact (Hfs eq_refl 2%nat "b" "%PDF-1.5 body" eq_refl eq_refl).
Defined.

(** ** The year filters *)

(** X27. A year filter that is the decimal numeral of [k] skips the
    entry exactly when its year, a decimal numeral as well, is not
    [k]; a filter that is absent or the empty text skips no entry, and
    the year is then not read: it may even be unbound. *)
Theorem year_filter_numeral (k y : nat) (year : option string) :
  filtered_out (Some (Py.str k)) (Some (Py.str y)) = Ok (negb (Nat.eqb y k)) /\
  filtered_out None year = Ok false /\
  filtered_out (Some EmptyString) year = Ok false.
Proof.
  split; [| split; reflexivity].
  unfold filtered_out. cbn [truthy from_option id name].
  destruct (str_digits k) as [_ Hne].
  destruct (String.eqb_spec (Py.str k) EmptyString) as [E | _];
    [congruence |].
  cbn [negb]. unfold mbind, result_bind, rbind.
  rewrite int_str. cbv beta iota. rewrite in_range_numeral. reflexivity.
Qed.

(** ** The guard of the download and the printed index *)

Section Guard.

Variable datetime : Type.
Variable strptime : string -> string -> result datetime.
Variable strftime : datetime -> string -> string.
Variable args : Args.
Variable net : Network.

Lemma render_and_download_unselected (s : Scan) (idx : nat) (m : machine) :
  selected args idx <> Ok true ->
  machine_of (render_and_download args net s idx m) = m /\
  forallb listing_event (trace_of (render_and_download args net s idx m)) = true.
Proof.
  intros Hsel. unfold render_and_download. cbv zeta.
  do 5 (apply quiet_bind_lift; intros ? _).
  apply quiet_bind; [split; reflexivity | intros _].
  apply quiet_bind; [split; reflexivity | intros _].
  apply quiet_bind_lift. intros [|] Hgo; [contradiction |].
  split; reflexivity.
Qed.

(** An entry that does not survive, or whose own index the guard does
    not select, is only scanned and listed. *)
Lemma process_entry_unselected (st : Vars * nat) (entry : Element)
      (m : machine) :
  (survives datetime strptime strftime args st.1 entry = true ->
   selected args (S st.2) <> Ok true) ->
  machine_of (process_entry datetime strptime strftime args net st entry m) = m /\
  forallb listing_event
          (trace_of (process_entry datetime strptime strftime args net st entry m))
  = true.
Proof.
  intros Hsel. unfold process_entry. unfold survives in Hsel.
  apply quiet_bind_lift. intros s Hs. rewrite Hs in Hsel. cbv zeta.
  apply quiet_bind_lift. intros [|] Hf1; [split; reflexivity |].
  rewrite Hf1 in Hsel.
  apply quiet_bind_lift. intros [|] Hf2; [split; reflexivity |].
  rewrite Hf2 in Hsel.
  apply quiet_bind; [split; reflexivity | intros _].
  apply quiet_bind;
    [apply render_and_download_unselected, Hsel; reflexivity | intros _].
  split; reflexivity.
Qed.

End Guard.

(** X14. With [--download] and a download selection that is the
    decimal numeral of [k], the guard of the download holds for the
    index [k] and for no other, and the index it is evaluated at is the
    one printed for the entry: an entry for which [k] is not printed
    has none of its links retrieved and leaves the file system and the
    pending input as they are, and the entry for which [k] is printed
    has all its PDF links retrieved, from ordinal 1, when its
    processing ends normally.  Without [--download] the guard never
    holds, and the selection is not even read. *)
Theorem selection_by_numeral
        (datetime : Type) (strptime : string -> string -> result datetime)
        (strftime : datetime -> string -> string)
        (args : Args) (net : Network) (k j : nat) :
  (download args = true -> download_selection args = Some (Py.str k) ->
   selected args j = Ok (Nat.eqb j k)) /\
  (download args = false -> selected args j = Ok false) /\
  (download args = true -> download_selection args = Some (Py.str k) ->
   forall st entry m,
     let step := process_entry datetime strptime strftime args net st entry m in
     (numberings (trace_of step) <> [k] ->
      retrieves (trace_of step) = [] /\ machine_of step = m) /\
     (numberings (trace_of step) = [k] ->
      forall s slug st',
        scan_children datetime strptime strftime
                      (mkScan st.1 [] []) (children entry) = Ok s ->
        make_slug (output_filename_template args) (vars s) (authors s)
        = Ok slug ->
        result_of step = Ok st' ->
        retrieves (trace_of step)
        = planned args slug 1 (pdf_links_of (link_elements s)))).
Proof.
  assert (Hguard : download args = true ->
                   download_selection args = Some (Py.str k) ->
                   forall i, selected args i = Ok (Nat.eqb i k)).
  { unfold selected. intros -> -> i. cbn [truthy from_option id].
    destruct (str_digits k) as [_ Hne].
    destruct (String.eqb_spec (Py.str k) EmptyString) as [E | _];
      [congruence |].
    cbn [negb]. apply in_range_numeral. }
  split; [intros Hd Hs; apply Hguard; assumption |].
  split; [unfold selected; intros ->; reflexivity |].
  intros Hd Hs st entry m. cbv zeta.
  destruct (process_entry_numbering datetime strptime strftime args net
              st entry m) as [Hnum Hst].
  split.
  - intros Hne.
    destruct (process_entry_unselected datetime strptime strftime args net
                st entry m) as [Hm Ht].
    + intros Hsurv. rewrite Hsurv in Hnum. rewrite (Hguard Hd Hs).
      destruct (Nat.eqb_spec (S st.2) k) as [E | _]; [| discriminate].
      contradiction Hne. rewrite Hnum, E. reflexivity.
    + split; [apply listing_no_retrieves, Ht | exact Hm].
  - intros Hk s slug st' Hscan Hslug Hr.
    destruct (survives datetime strptime strftime args st.1 entry);
      [| rewrite Hnum in Hk; discriminate Hk].
    rewrite Hnum in Hk. injection Hk as Hk.
    specialize (Hst st' Hr). cbn beta iota in Hst.
    destruct st' as [v n]. cbn [snd] in Hst. subst n.
    destruct (process_entry_retrieves datetime strptime strftime args net
                st entry m s slug Hscan Hslug) as [_ Hfull].
    assert (Hsel : selected args (S st.2) = Ok true).
    { rewrite (Hguard Hd Hs), Hk, Nat.eqb_refl. reflexivity. }
    destruct (Hfull v Hr Hsel) as [-> Hout].
    apply (retrieves_planned args net slug (pdf_links_of (link_elements s))
             1 m), Hout.
Qed.

Lemma selection_by_numeral_witness :
  let a := mkArgs None None true "{pub}-{auth}-{title}-{id}" "." (Some "2")
                  false false in
  selected a 2 = Ok true /\
  selected a 3 = Ok false /\
  selected (mkArgs None None false "{id}" "." (Some "oops") false false) 3
  = Ok false /\
  retrieves (trace_of (process_entry Sample.datetime Sample.strptime
                         Sample.strftime a RunExample.refused_net
                         (unbound, 0%nat) RunExample.refused RunExample.m0))
  = [] /\
  retrieves (trace_of (process_entry Sample.datetime Sample.strptime
                         Sample.strftime a RunExample.refused_net
                         (unbound, 1%nat) RunExample.refused RunExample.m0))
  = [("a", "./2023-Art_Ficial-Quantum_Stuff-2309.06314.pdf");
     ("b", "./2023-Art_Ficial-Quantum_Stuff-2309.06314--2.pdf")].
Proof.
  intros a.
  pose (b := mkArgs None None false "{id}" "." (Some "oops") false false).
  pose proof (selection_by_numeral Sample.datetime Sample.strptime
                Sample.strftime a RunExample.refused_net 2) as Ha.
  split; [exact (proj1 (Ha 2%nat) eq_refl eq_refl) |].
  split; [exact (proj1 (Ha 3%nat) eq_refl eq_refl) |].
  split.
  { exact (proj1 (proj2 (selection_by_numeral Sample.datetime Sample.strptime
                           Sample.strftime b RunExample.refused_net 0 3))
                 eq_refl). }
  destruct (Ha 0%nat) as (_ & _ & Hrun). specialize (Hrun eq_refl eq_refl).
  split.
  - destruct (Hrun (unbound, 0%nat) RunExample.refused RunExample.m0)
      as [Hnot _].
    apply Hnot. vm_compute. discriminate.
  - destruct (Hrun (unbound, 1%nat) RunExample.refused RunExample.m0)
      as [_ Hsel].
    specialize (Hsel ltac:(vm_compute; reflexivity)).
    erewrite Hsel; [| vm_compute; reflexivity ..].
    vm_compute. reflexivity.
Defined.
